(** * Time-series forecasting notebooks: a shallow embedding

    The repository holds two Jupyter notebooks.  The first one (part 3)
    loads the Twitter-volume CSV, builds GluonTS datasets, plots forecasts
    ([plot_forecast]) and compares predictors
    ([evaluat_models_from_dict]); the second one (part 4) uploads the data
    to S3 ([copy_to_s3]) and drives SageMaker.

    The Python functions are embedded as Rocq functions in an exception
    monad; calls into pandas, GluonTS, matplotlib and boto3 are taken as
    parameters (what they return or raise) or, where the program depends
    on their documented behaviour, as small executable models.  The two
    notebooks themselves are embedded cell by cell ([Part3.part3],
    [Part4.part4]) as programs that keep a trace of the calls they
    make. *)

From Stdlib Require Import ZArith QArith String Ascii List Lia.
From stdpp Require Import base option list strings pretty gmap.

Local Open Scope string_scope.
Local Open Scope list_scope.

(** ** Python values, exceptions and the exception monad *)

Module Py.

(** Python's exceptions, by class: those the code and the modelled part
    of pandas raise, and [LibraryError] for whatever a library or cloud
    API that is taken as a parameter raises (the string is the
    exception's class name). *)
Inductive Exn : Type :=
| IndexError
| AssertionError
| KeyError (label : string)
| ValueError (msg : string)
| TypeError (msg : string)
| FileNotFoundError (path : string)
| NameError (name : string)
| LibraryError (origin : string).

Definition Result (A : Type) : Type := Exn + A.

Definition ret {A} (a : A) : Result A := inr a.
Definition raise {A} (e : Exn) : Result A := inl e.
Definition bind {A B} (m : Result A) (k : A -> Result B) : Result B :=
  match m with
  | inl e => inl e
  | inr a => k a
  end.

(** The outcome of a library call: the class name of the exception it
    raised, or its value. *)
Definition Lib (A : Type) : Type := string + A.

Definition lift {A} (r : Lib A) : Result A :=
  match r with
  | inl origin => inl (LibraryError origin)
  | inr a => inr a
  end.

(** [None] when the call returned, the exception when it raised. *)
Definition outcome {A} (r : Lib A) : option Exn :=
  match r with
  | inl origin => Some (LibraryError origin)
  | inr _ => None
  end.

(** A log of calls with their outcomes shows no local handling when a
    call that raised is the last one made and its exception is the
    result of the run. *)
Definition propagated {C A} (entries : list (C * option Exn))
    (r : Result A) : Prop :=
  forall i c e,
    entries !! i = Some (c, Some e) ->
    S i = length entries /\ r = inl e.

(** Code with effects on a state [S] (a store, a log of calls): the state
    is threaded through, an exception ends the run and keeps the state
    reached. *)
Definition StateM (S A : Type) : Type := S -> Result A * S.

Definition sret {S A} (a : A) : StateM S A := fun s => (inr a, s).
Definition sraise {S A} (e : Exn) : StateM S A := fun s => (inl e, s).
Definition slift {S A} (r : Result A) : StateM S A := fun s => (r, s).
Definition sbind {S A B} (m : StateM S A) (k : A -> StateM S B)
    : StateM S B :=
  fun s =>
    match m s with
    | (inl e, s') => (inl e, s')
    | (inr a, s') => k a s'
    end.

(** An iterator or generator: what [list(it)] gives, the library code
    behind the generator runs (and may raise) only then. *)
Definition Iter (A : Type) : Type := Lib (list A).

(** [l[0]] *)
Definition item0 {A} (l : list A) : Result A :=
  match l with
  | [] => raise IndexError
  | x :: _ => ret x
  end.

(** [l[i]] for a non-negative [i] *)
Definition item {A} (l : list A) (i : nat) : Result A :=
  match l !! i with
  | None => raise IndexError
  | Some x => ret x
  end.

(** [l[-n:]]: the last [n] elements, all of them when there are fewer *)
Definition last_n {A} (n : nat) (l : list A) : list A :=
  drop (length l - n) l.

(** [l[i:]] *)
Definition slice_from {A} (i : nat) (l : list A) : list A := drop i l.

(** [zip(xs, ys)] stops at the end of the shorter list *)
Fixpoint zip {A B} (xs : list A) (ys : list B) : list (A * B) :=
  match xs, ys with
  | x :: xs', y :: ys' => (x, y) :: zip xs' ys'
  | _, _ => []
  end.

(** [s.startswith(p)] *)
Fixpoint startswith (s p : string) : bool :=
  match p with
  | EmptyString => true
  | String a p' =>
      match s with
      | EmptyString => false
      | String b s' => Ascii.eqb a b && startswith s' p'
      end
  end.

(** [s.split(sep)] for a one-character separator *)
Fixpoint split (sep : ascii) (s : string) : list string :=
  match s with
  | EmptyString => [EmptyString]
  | String c s' =>
      if Ascii.eqb c sep then EmptyString :: split sep s'
      else match split sep s' with
           | [] => [String c EmptyString]
           | w :: ws => String c w :: ws
           end
  end.

(** [sep.join(l)] *)
Fixpoint join (sep : string) (l : list string) : string :=
  match l with
  | [] => EmptyString
  | x :: rest =>
      match rest with
      | [] => x
      | _ :: _ => (x ++ sep ++ join sep rest)%string
      end
  end.

(** A [dict] with string keys, in insertion order. *)
Abbreviation dict V := (list (string * V)).
Definition keys {V} (d : dict V) : list string := map fst d.
Definition dict_values {V} (d : dict V) : list V := map snd d.

(** [d[key]] *)
Fixpoint getitem {V} (d : dict V) (key : string) : Result V :=
  match d with
  | [] => raise (KeyError key)
  | (k, v) :: rest => if String.eqb k key then ret v else getitem rest key
  end.

End Py.

Notation "x <- m ;; k" := (Py.bind m (fun x => k))
  (at level 100, m at next level, right associativity).
Notation "x <~ m ;; k" := (Py.sbind m (fun x => k))
  (at level 100, m at next level, right associativity).

(** ** pandas: the part of [DataFrame] the notebooks use *)

Module Pandas.
Import Py.

Section Frame.
Context {V : Type}.

(** A frame: the row labels and the columns in order, each column a
    label and its cells from the first row to the last. *)
Record DataFrame : Type := mkDataFrame {
  index : list string;
  columns : list (string * list V)
}.

Definition column_labels (df : DataFrame) : list string :=
  map fst (columns df).

(** [pd.DataFrame()] *)
Definition DataFrame_new : DataFrame :=
  {| index := []; columns := [] |}.

(** [df.empty]: true when any axis has length 0 *)
Definition empty (df : DataFrame) : bool :=
  match index df, columns df with
  | [], _ => true
  | _, [] => true
  | _, _ => false
  end.

(** [pd.DataFrame.from_dict(d, orient='index', columns=[name])] for a
    dict of scalars: one row per key, in the dict's order, and the one
    column [name]. *)
Definition from_dict_index (d : dict V) (name : string) : DataFrame :=
  {| index := keys d; columns := [(name, dict_values d)] |}.

(** [df.copy()] *)
Definition copy (df : DataFrame) : DataFrame := df.

(** [df.values]: the cells as a 2-d array, a list of rows *)
Definition values (df : DataFrame) : list (list V) :=
  imap (fun i _ => omap (fun c => snd c !! i) (columns df)) (index df).

(** A 2-d array with one column, as the column. *)
Fixpoint as_column (a : list (list V)) : option (list V) :=
  match a with
  | [] => Some []
  | [v] :: rows => cons v <$> as_column rows
  | _ :: _ => None
  end.

(** [df.insert(loc, column, value)] with a 2-d array as value, on a
    frame with rows (the only place the program calls it is the branch
    where [df.empty] is false).  pandas refuses a label that is already a
    column, checks the length of the value against the index, takes the
    array when it has one column, and checks [loc]. *)
Definition insert (df : DataFrame) (loc : nat) (column : string)
    (value : list (list V)) : Result DataFrame :=
  if bool_decide (column ∈ column_labels df) then
    raise (ValueError ("cannot insert " ++ column ++ ", already exists"))
  else if negb (length value =? length (index df))%nat then
    raise (ValueError ("Length of values (" ++ pretty (length value)
                       ++ ") does not match length of index ("
                       ++ pretty (length (index df)) ++ ")"))
  else
    match as_column value with
    | None => raise (ValueError "Wrong number of items passed")
    | Some cells =>
        if (loc <=? length (columns df))%nat then
          ret {| index := index df;
                 columns := take loc (columns df) ++ (column, cells)
                            :: drop loc (columns df) |}
        else raise IndexError
    end.

End Frame.
Arguments DataFrame : clear implicits.

(** *** Slicing by label on an index of strings

    [read_csv(..., index_col=0)] without date parsing leaves the time
    stamps as strings, so [s[:label]] compares labels as Python compares
    strings: by code point, a proper prefix first. *)

Definition label_le (a b : string) : bool := String.leb a b.
Definition label_lt (a b : string) : bool := String.ltb a b.

Fixpoint is_monotonic_increasing (idx : list string) : bool :=
  match idx with
  | [] => true
  | a :: rest =>
      match rest with
      | [] => true
      | b :: _ => label_le a b && is_monotonic_increasing rest
      end
  end.

Fixpoint is_monotonic_decreasing (idx : list string) : bool :=
  match idx with
  | [] => true
  | a :: rest =>
      match rest with
      | [] => true
      | b :: _ => label_le b a && is_monotonic_decreasing rest
      end
  end.

(** [a.searchsorted(v, side='right')] on a sorted [a]: the position
    after the entries that are at most [v]. *)
Fixpoint searchsorted_right (a : list string) (v : string) : nat :=
  match a with
  | [] => 0
  | x :: a' => if label_le x v then S (searchsorted_right a' v) else 0
  end.

(** [a.searchsorted(v, side='left')] on a sorted [a]: the position
    after the entries that are below [v]. *)
Fixpoint searchsorted_left (a : list string) (v : string) : nat :=
  match a with
  | [] => 0
  | x :: a' => if label_lt x v then S (searchsorted_left a' v) else 0
  end.

(** The positions at which [label] occurs, counted from [i]. *)
Fixpoint positions (idx : list string) (label : string) (i : nat)
    : list nat :=
  match idx with
  | [] => []
  | x :: rest =>
      if String.eqb x label then i :: positions rest label (S i)
      else positions rest label (S i)
  end.

Fixpoint contiguous (ps : list nat) : bool :=
  match ps with
  | [] => true
  | p :: rest =>
      match rest with
      | [] => true
      | q :: _ => (q =? S p)%nat && contiguous rest
      end
  end.

(** [idx.get_slice_bound(label, side='right')]: on an increasing index
    the insertion point to the right of [label], on a decreasing one the
    same from the other end; otherwise the label has to occur, in one
    run, and the bound is the position after the run. *)
Definition get_slice_bound_right (idx : list string) (label : string)
    : Py.Result nat :=
  if is_monotonic_increasing idx then
    Py.ret (searchsorted_right idx label)
  else if is_monotonic_decreasing idx then
    Py.ret (length idx - searchsorted_left (rev idx) label)
  else
    match positions idx label 0 with
    | [] => Py.raise (Py.KeyError label)
    | p :: ps =>
        if contiguous (p :: ps) then Py.ret (S (List.last ps p))
        else Py.raise
               (Py.KeyError "Cannot get right slice bound for non-unique label")
    end.

(** A table as [read_csv(url, header=0, index_col=0)] loads this file:
    the first column is the index, the column [value] the data. *)
Abbreviation Table := (list (string * Z)).

Definition table_index (df : Table) : list string := map fst df.
Definition table_value (df : Table) : list Z := map snd df.

(** [df.value[:label]] *)
Definition value_to_label (df : Table) (label : string)
    : Py.Result (list Z) :=
  stop <- get_slice_bound_right (table_index df) label ;;
  Py.ret (take stop (table_value df)).

(** [df[:label]] *)
Definition rows_to_label (df : Table) (label : string) : Py.Result Table :=
  stop <- get_slice_bound_right (table_index df) label ;;
  Py.ret (take stop df).

End Pandas.

(** ** GluonTS: datasets and the evaluation interface *)

Module GluonTS.
Import Py.

(** One record of a [ListDataset]: the start timestamp and the target
    values in time order (the table's value column holds counts). *)
Record DataEntry : Type := mkDataEntry {
  start : string;
  target : list Z
}.

(** [ListDataset(entries, freq=...)] *)
Abbreviation ListDataset := (list DataEntry).

(** The observed series a forecast is compared with. *)
Abbreviation Series := (list Z).

(** What the notebooks call in [gluonts.evaluation]: predictors and
    forecasts are opaque, each call returns a value or raises. *)
Class API : Type := {
  Predictor : Type;
  Forecast : Type;
  Metric : Type;
  ItemMetrics : Type;
  make_evaluation_predictions :
    ListDataset -> Predictor -> nat -> Lib (Iter Forecast * Iter Series);
  Evaluator :
    list Q -> Iter Series -> Iter Forecast -> nat ->
    Lib (dict Metric * ItemMetrics);
  (** [forecast.plot(prediction_intervals, color=...)] *)
  forecast_plot : Forecast -> list Q -> string -> Lib unit
}.

End GluonTS.

(** ** Part 3: the model comparison helper *)

Module Comparison.
Import Py Pandas GluonTS.

Section WithAPI.
Context `{api : API}.

(** [quantiles=[0.1, 0.5, 0.9]] *)
Definition quantiles : list Q := [1 # 10; 5 # 10; 9 # 10]%Q.

(** The body of the [for] loop, over the pairs that are left. *)
Fixpoint evaluat_loop (data : ListDataset) (num_samples : nat)
    (df : DataFrame Metric) (pairs : list (Predictor * string))
    : Result (DataFrame Metric) :=
  match pairs with
  | [] => ret df
  | (predictor, predictor_name) :: rest =>
      its <- lift (make_evaluation_predictions data predictor num_samples) ;;
      let '(forecast_it, ts_it) := its in
      res <- lift (Evaluator quantiles ts_it forecast_it (length data)) ;;
      let '(deepar_agg_metrics, item_metrics) := res in
      let evaluation := from_dict_index deepar_agg_metrics predictor_name in
      df' <- (if empty df then ret (copy evaluation)
              else insert df (length (columns df)) predictor_name
                     (values evaluation)) ;;
      evaluat_loop data num_samples df' rest
  end.

(** [num_samples=100] when the caller gives none *)
Definition num_samples_default : nat := 100.

Definition evaluat_models_from_dict (data : ListDataset)
    (predictors : list Predictor) (predictor_names : list string)
    (num_samples : nat) : Result (DataFrame Metric) :=
  evaluat_loop data num_samples DataFrame_new (zip predictors predictor_names).

(** One pass through the body of the loop. *)
Definition iteration (data : ListDataset) (num_samples : nat)
    (df : DataFrame Metric) (predictor : Predictor) (predictor_name : string)
    : Result (DataFrame Metric) :=
  evaluat_loop data num_samples df [(predictor, predictor_name)].

(** The aggregate metrics of one predictor: what the two library calls
    of an iteration give. *)
Definition evaluate (data : ListDataset) (num_samples : nat)
    (predictor : Predictor) : Result (dict Metric) :=
  its <- lift (make_evaluation_predictions data predictor num_samples) ;;
  let '(forecast_it, ts_it) := its in
  res <- lift (Evaluator quantiles ts_it forecast_it (length data)) ;;
  ret (fst res).

End WithAPI.

End Comparison.

(** ** Part 3: the plotting helper *)

Module Plotting.
Import Py GluonTS.

(** What the helper calls in [matplotlib.pyplot] and on the series. *)
Class Matplotlib : Type := {
  Figure : Type;
  Axes : Type;
  (** [plt.subplots(nrows, ncols, figsize=...)] *)
  subplots : nat -> nat -> Q * Q -> Lib (Figure * Axes);
  (** [ts.plot(ax=ax)] *)
  series_plot : Series -> Axes -> Lib unit;
  (** [plt.grid(which=...)] *)
  grid : string -> Lib unit;
  (** [plt.legend(labels, loc=...)] *)
  legend : list string -> string -> Lib unit;
  (** [plt.show()] *)
  show : Lib unit
}.

Section WithLibraries.
Context `{api : API} `{plt : Matplotlib}.

(** Python's text of a float, as an f-string prints it. *)
Variable float_str : Q -> string.

(** The library calls of [plot_forecast], with their arguments. *)
Inductive Call : Type :=
| CallMakeEvaluationPredictions (dataset : ListDataset)
    (predictor : Predictor) (num_samples : nat)
| CallSubplots (nrows ncols : nat) (figsize : Q * Q)
| CallListTs
| CallSeriesPlot (ts : Series) (ax : Axes)
| CallListForecasts
| CallForecastPlot (forecast : Forecast) (prediction_intervals : list Q)
    (color : string)
| CallGrid (which : string)
| CallLegend (labels : list string) (loc : string)
| CallShow.

(** The calls made so far, each with its outcome. *)
Definition Log : Type := list (Call * option Exn).

Definition call {A} (c : Call) (r : Lib A) : StateM Log A :=
  fun log => (lift r, log ++ [(c, outcome r)]).

Definition plot_forecast (predictor : Predictor) (test_data : ListDataset)
    : StateM Log unit :=
  let prediction_intervals := [50 # 1; 90 # 1]%Q in
  let legend_labels :=
    ["observations"; "median prediction"]
    ++ rev (map (fun k => (float_str k ++ "% prediction interval")%string)
              prediction_intervals) in
  its <~ call (CallMakeEvaluationPredictions test_data predictor 100)
           (make_evaluation_predictions test_data predictor 100) ;;
  let '(forecast_it, ts_it) := its in
  figax <~ call (CallSubplots 1 1 (10 # 1, 7 # 1)%Q)
             (subplots 1 1 (10 # 1, 7 # 1)%Q) ;;
  let '(fig, ax) := figax in
  tss <~ call CallListTs ts_it ;;
  ts0 <~ slift (item0 tss) ;;
  _ <~ call (CallSeriesPlot (last_n 336 ts0) ax)
         (series_plot (last_n 336 ts0) ax) ;;
  forecasts <~ call CallListForecasts forecast_it ;;
  forecast0 <~ slift (item0 forecasts) ;;
  _ <~ call (CallForecastPlot forecast0 prediction_intervals "g")
         (forecast_plot forecast0 prediction_intervals "g") ;;
  _ <~ call (CallGrid "both") (grid "both") ;;
  _ <~ call (CallLegend legend_labels "upper left")
         (legend legend_labels "upper left") ;;
  call CallShow show.

(** The labels of the legend: the intervals in reverse order. *)
Definition legend_labels : list string :=
  ["observations"; "median prediction";
   (float_str (90 # 1) ++ "% prediction interval")%string;
   (float_str (50 # 1) ++ "% prediction interval")%string].

(** What GluonTS documents of [make_evaluation_predictions]: the series
    iterator yields the full target of every dataset entry, and the
    forecast iterator one forecast per entry. *)
Definition mep_contract : Prop :=
  forall dataset predictor num_samples forecast_it ts_it,
    make_evaluation_predictions dataset predictor num_samples
      = inr (forecast_it, ts_it) ->
    (forall tss, ts_it = inr tss -> tss = map target dataset) /\
    (forall forecasts, forecast_it = inr forecasts ->
       length forecasts = length dataset).

End WithLibraries.

End Plotting.

(** ** Part 3 and part 4: the train and test data *)

Module Datasets.
Import Py Pandas GluonTS.

Definition train_end : string := "2015-04-05 00:00:00".
Definition test_end : string := "2015-04-15 00:00:00".

(** [ListDataset([{"start": df.index[0], "target": df.value[:stop]}],
    freq="5min")] *)
Definition dataset_to (df : Table) (stop : string) : Result ListDataset :=
  start0 <- item0 (table_index df) ;;
  values <- value_to_label df stop ;;
  ret [ {| start := start0; target := values |} ].

Definition training_data (df : Table) : Result ListDataset :=
  dataset_to df train_end.

Definition test_data (df : Table) : Result ListDataset :=
  dataset_to df test_end.

(** Part 4: [train = df[:"2015-04-05 00:00:00"]] and
    [test = df[:"2015-04-15 00:00:00"]] *)
Definition train (df : Table) : Result Table := rows_to_label df train_end.
Definition test (df : Table) : Result Table := rows_to_label df test_end.

End Datasets.

(** ** Part 4: uploading the data to S3 *)

Module S3Upload.
Import Py.

(** The requests [copy_to_s3] makes: listing the objects of a bucket
    under a key prefix, opening a local file, storing an object. *)
Inductive Call : Type :=
| ListObjects (bucket prefix : string)
| OpenFile (path : string)
| PutObject (bucket key body : string).

(** The objects stored, by bucket and key; what was printed; the calls
    made, each with its outcome. *)
Record World : Type := mkWorld {
  objects : gmap (string * string) string;
  stdout : list string;
  log : list (Call * option Exn)
}.

Definition logged (c : Call) (o : option Exn) (w : World) : World :=
  {| objects := objects w; stdout := stdout w; log := log w ++ [(c, o)] |}.

Definition newline : string := String (ascii_of_nat 10) EmptyString.

Section WithCloud.
(** [s3_bucket], the session's default bucket (a global of the
    notebook) *)
Variable s3_bucket : string.
(** The local files and their contents. *)
Variable files : gmap string string.
(** Whether a request to S3 fails (no such bucket, no network, access
    denied), and with which exception. *)
Variable fault : Call -> option string.

(** [print(msg)] *)
Definition print (msg : string) : StateM World unit :=
  fun w => (inr tt,
            {| objects := objects w; stdout := stdout w ++ [msg];
               log := log w |}).

(** The keys of [bucket] that start with [prefix]. *)
Definition keys_with_prefix (w : World) (bucket prefix : string)
    : list string :=
  omap (fun kv : (string * string) * string =>
          let '((b, key), _) := kv in
          if String.eqb b bucket && startswith key prefix
          then Some key else None)
       (map_to_list (objects w)).

(** [list(buk.objects.filter(Prefix=path))] *)
Definition list_objects (bucket prefix : string)
    : StateM World (list string) :=
  fun w =>
    let c := ListObjects bucket prefix in
    match fault c with
    | Some origin =>
        (inl (LibraryError origin), logged c (Some (LibraryError origin)) w)
    | None => (inr (keys_with_prefix w bucket prefix), logged c None w)
    end.

(** [open(local_file, 'rb')], read when the object is stored *)
Definition open_rb (local_file : string) : StateM World string :=
  fun w =>
    let c := OpenFile local_file in
    match files !! local_file with
    | None => (inl (FileNotFoundError local_file),
               logged c (Some (FileNotFoundError local_file)) w)
    | Some data => (inr data, logged c None w)
    end.

(** [buk.put_object(Key=path, Body=data)] *)
Definition put_object (bucket key body : string) : StateM World unit :=
  fun w =>
    let c := PutObject bucket key body in
    match fault c with
    | Some origin =>
        (inl (LibraryError origin), logged c (Some (LibraryError origin)) w)
    | None =>
        (inr tt,
         {| objects := <[(bucket, key) := body]> (objects w);
            stdout := stdout w;
            log := log w ++ [(c, None)] |})
    end.

(** The [with open(...)] block, reached when nothing is stored under
    the prefix and when [override] is set. *)
Definition upload (local_file s3_path bucket path : string)
    : StateM World unit :=
  data <~ open_rb local_file ;;
  _ <~ print ("Uploading file to " ++ s3_path)%string ;;
  put_object bucket path data.

Definition copy_to_s3 (local_file s3_path : string) (override : bool)
    : StateM World unit :=
  if negb (startswith s3_path "s3://") then sraise AssertionError
  else
    let split := split "/" s3_path in
    bucket <~ slift (item split 2) ;;
    let path := join "/" (slice_from 3 split) in
    existing <~ list_objects bucket path ;;
    if (0 <? length existing)%nat then
      if negb override then
        print ("File s3://" ++ s3_bucket ++ "/" ++ s3_path
               ++ " already exists." ++ newline
               ++ "Set override to upload anyway." ++ newline)%string
      else
        _ <~ print "Overwriting existing file" ;;
        upload local_file s3_path bucket path
    else upload local_file s3_path bucket path.

End WithCloud.

End S3Upload.

(** ** Part 4: the check on a categorical range *)

Module Tuning.
Import Py.

Section WithFloat.
(** The values of a hyperparameter range, as SageMaker reports them. *)
Context {Value : Type}.
(** Python's [float(x)]: the number, or the exception it raises. *)
Variable float : Value -> Result Q.

(** [try: float(x); return 1] / [except: return 0] *)
Definition is_num (x : Value) : Result nat :=
  match float x with
  | inr _ => ret 1
  | inl _ => ret 0
  end.

End WithFloat.

End Tuning.

(** ** Part 4: the cell that uploads the two files *)

Module UploadCell.
Import Py S3Upload.

(** [c in s] *)
Fixpoint contains (s : string) (c : ascii) : bool :=
  match s with
  | EmptyString => false
  | String a s' => Ascii.eqb a c || contains s' c
  end.

Section WithCloud.
Variable s3_bucket : string.
Variable files : gmap string string.
Variable fault : Call -> option string.

(** ["s3://{}/gluonts/train".format(s3_bucket)] *)
Definition s3_train_data_path : string :=
  ("s3://" ++ s3_bucket ++ "/gluonts/train")%string.

(** ["s3://{}/gluonts/test".format(s3_bucket)] *)
Definition s3_test_data_path : string :=
  ("s3://" ++ s3_bucket ++ "/gluonts/test")%string.

(** [copy_to_s3("train.csv", s3_train_data_path + "/train.csv")] and
    [copy_to_s3("test.csv", s3_test_data_path + "/test.csv")], with
    [override] left at its default *)
Definition upload_cell : StateM World unit :=
  _ <~ copy_to_s3 s3_bucket files fault "train.csv"
         (s3_train_data_path ++ "/train.csv")%string false ;;
  copy_to_s3 s3_bucket files fault "test.csv"
    (s3_test_data_path ++ "/test.csv")%string false.

End WithCloud.

End UploadCell.

(** ** Part 4: the cells that read the tuning results *)

Module TuningCells.
Import Py Tuning.

(** A float as far as the cell looks at it: its comparison with minus
    infinity. *)
Inductive Float : Type :=
| NaN
| NegInf
| Finite (q : Q)
| PosInf.

(** [x > -float('inf')] *)
Definition gt_neg_inf (x : Float) : bool :=
  match x with
  | NaN | NegInf => false
  | Finite _ | PosInf => true
  end.

(** A row of the table of training jobs. *)
Record Job : Type := mkJob {
  TrainingJobName : string;
  FinalObjectiveValue : Float
}.

(** What the name [df] is bound to: the table of the CSV from the cell
    that loads the data, or a table of training jobs. *)
Inductive Frame : Type :=
| CsvTable (rows : list (string * Z))
| JobTable (jobs : list Job).

(** What the cell prints. *)
Inductive Output : Type :=
| OutValid (count : nat)
| OutLowestHighest (lowest highest : Float)
| OutNoResults.

Section ResultsCell.
(** [df.sort_values('FinalObjectiveValue', ascending=...)] *)
Variable sort_values : bool -> list Job -> list Job.
(** [min(...)] and [max(...)] over a column *)
Variable py_min py_max : list Float -> Float.

(** [full_df[full_df['FinalObjectiveValue'] > -float('inf')]] *)
Definition valid_jobs (full_df : list Job) : list Job :=
  List.filter (fun j => gt_neg_inf (FinalObjectiveValue j)) full_df.

(** The [if len(full_df) > 0:] statement: the new binding of [df] and
    the lines printed (the display option the cell sets on the way is
    left out). *)
Definition results_cell (full_df : list Job) (is_minimize : bool)
    (df : Frame) : Frame * list Output :=
  if (0 <? length full_df)%nat then
    let df1 := valid_jobs full_df in
    if (0 <? length df1)%nat then
      let df2 := sort_values is_minimize df1 in
      (JobTable df2,
       [OutValid (length df2);
        OutLowestHighest (py_min (map FinalObjectiveValue df2))
          (py_max (map FinalObjectiveValue df2))])
    else (JobTable df1, [OutNoResults])
  else (df, []).

End ResultsCell.

Section Categorical.
Context {Value : Type}.
Variable float : Value -> Result Q.

(** [[is_num(x) for x in vals]] *)
Fixpoint is_num_each (vals : list Value) : Result (list nat) :=
  match vals with
  | [] => ret []
  | x :: rest =>
      n <- is_num float x ;;
      ns <- is_num_each rest ;;
      ret (n :: ns)
  end.

(** [sum(l)] *)
Definition sum (l : list nat) : nat := fold_left Nat.add l 0.

(** The first part of the body of [for hp_name, hp_range in
    ranges.items()], with [hp_range.get('Values')] given: what is
    printed, and the [x_range] entry of [categorical_args] if one is
    set. *)
Definition categorical_args (hp_name : string)
    (values : option (list Value))
    : Result (list string * option (list Value)) :=
  match values with
  | None => ret ([], None)
  | Some [] => ret ([], None)
  | Some vals =>
      nums <- is_num_each vals ;;
      if (sum nums =? length vals)%nat then
        ret ([("Hyperparameter " ++ hp_name
               ++ " is tuned as categorical, but all values are numeric")%string],
             None)
      else ret ([], Some vals)
  end.

End Categorical.

(** [HoverHelper.hovertool]: the tooltips handed to [HoverTool], built by
    appending one entry per key of the tuning ranges. *)
Definition hovertool (tuning_ranges_keys : list string)
    : list (string * string) :=
  fold_left
    (fun tooltips k => tooltips ++ [(k, ("@{" ++ k ++ "}")%string)])
    tuning_ranges_keys
    [("FinalObjectiveValue", "@FinalObjectiveValue");
     ("TrainingJobName", "@TrainingJobName")].

End TuningCells.

(** ** The notebooks, run from top to bottom

    A run of a notebook executes the top-level statements of its code
    cells in order.  Every call it makes, into a library or into one of
    the notebook's own functions, is kept in a trace with its outcome.
    What a library gives may change from one call to the next (a network
    that comes and goes, samples drawn anew): every library function
    takes the number of calls the run has made so far.  The [import]
    statements are left out: the modules are taken as installed. *)

Module Notebook.
Import Py Pandas.

(** The calls made so far, in order, each with its outcome. *)
Abbreviation Trace Ev := (list (Ev * option Exn)).

(** What a call leaves in the trace: [None] when it returned, the
    exception when it raised. *)
Definition exn_of {A} (r : Result A) : option Exn :=
  match r with
  | inl e => Some e
  | inr _ => None
  end.

(** A call of a function of the notebook, or of library code that is
    modelled: [r t] is what it gives when [t] calls have been made. *)
Definition own_call {Ev A} (c : Ev) (r : nat -> Result A)
    : StateM (Trace Ev) A :=
  fun tr => (r (length tr), tr ++ [(c, exn_of (r (length tr)))]).

(** A call into a library. *)
Definition lib_call {Ev A} (c : Ev) (r : nat -> Lib A)
    : StateM (Trace Ev) A :=
  own_call c (fun t => lift (r t)).

(** Output: [print], the value a cell shows, a setting. *)
Definition emit {Ev} (c : Ev) : StateM (Trace Ev) unit :=
  own_call c (fun _ => ret tt).

(** [print] of each line in turn *)
Fixpoint emit_each {Ev A} (c : A -> Ev) (l : list A)
    : StateM (Trace Ev) unit :=
  match l with
  | [] => sret tt
  | x :: rest => _ <~ emit (c x) ;; emit_each c rest
  end.

(** What [pd.read_csv] does to get at the text, and with it. *)
Inductive IO : Type :=
| HttpGet (url : string)
| ReadFile (path : string)
| ParseCsv (text : string) (header index_col : nat).

(** The network, the disk and the CSV parser. *)
Class Net : Type := {
  http_get : nat -> string -> Lib string;
  read_file : nat -> string -> Lib string;
  parse_csv : nat -> string -> nat -> nat -> Lib Table
}.

(** pandas takes a string with a URL scheme as an address to fetch; of
    the schemes it knows the notebooks use [https]. *)
Definition is_url (s : string) : bool :=
  startswith s "http://" || startswith s "https://".

(** [pd.read_csv(filepath_or_buffer, header=..., index_col=...)]: the
    text is fetched with a GET when the argument is a URL and read from
    the disk when it is a path, then parsed. *)
Definition read_csv {Ev} `{Net} (io : IO -> Ev)
    (filepath_or_buffer : string) (header index_col : nat)
    : StateM (Trace Ev) Table :=
  text <~ (if is_url filepath_or_buffer
           then lib_call (io (HttpGet filepath_or_buffer))
                  (fun t => http_get t filepath_or_buffer)
           else lib_call (io (ReadFile filepath_or_buffer))
                  (fun t => read_file t filepath_or_buffer)) ;;
  lib_call (io (ParseCsv text header index_col))
    (fun t => parse_csv t text header index_col).

(** Call [c] is entry [i] of the trace, and it returned. *)
Definition returned {Ev} (past : Trace Ev) (i : nat) (c : Ev) : Prop :=
  past !! i = Some (c, None).

(** No call of the trace raised. *)
Definition quiet {Ev} (tr : Trace Ev) : Prop :=
  forall i c o, tr !! i = Some (c, o) -> o = None.

(** What a step of [read_csv] needs of the calls before it when the
    table is fetched from [url]: a GET is of [url] and the first one;
    nothing is read from the disk; the text parsed is the one a GET of
    [url] returned, with the first line as header and the first column as
    index. *)
Definition io_justified {Ev} `{Net} (io : IO -> Ev) (url : string)
    (past : Trace Ev) (c : IO) : Prop :=
  match c with
  | HttpGet u =>
      u = url /\ forall i u' o, past !! i <> Some (io (HttpGet u'), o)
  | ReadFile _ => False
  | ParseCsv text header index_col =>
      header = 0 /\ index_col = 0 /\
      exists i, returned past i (io (HttpGet url)) /\
                http_get i url = inr text
  end.

(** The only fetch of a run is one GET of [url]: no second GET, no other
    address, no file; and what is parsed is what that GET returned. *)
Definition one_fetch {Ev} `{Net} (io : IO -> Ev) (url : string)
    (tr : Trace Ev) : Prop :=
  (forall i j u u' o o',
     tr !! i = Some (io (HttpGet u), o) ->
     tr !! j = Some (io (HttpGet u'), o') -> i = j /\ u = url) /\
  (forall i path o, tr !! i <> Some (io (ReadFile path), o)) /\
  (forall i text header index_col o,
     tr !! i = Some (io (ParseCsv text header index_col), o) ->
     header = 0 /\ index_col = 0 /\
     exists j, (j < i)%nat /\ tr !! j = Some (io (HttpGet url), None) /\
               http_get j url = inr text).

(** The names of the calls of a trace are the first names of [order]. *)
Definition in_order {Ev} (kind : Ev -> string) (order : list string)
    (tr : Trace Ev) : Prop :=
  map (fun entry => kind (fst entry)) tr `prefix_of` order.

(** [l1] is a prefix of [l2], as a test *)
Fixpoint prefix_b (l1 l2 : list string) : bool :=
  match l1, l2 with
  | [], _ => true
  | x :: l1', y :: l2' => String.eqb x y && prefix_b l1' l2'
  | _ :: _, [] => false
  end.

Section Flow.
Context {Ev : Type}.
(** What a call needs of the calls made before it. *)
Variable justified : Trace Ev -> Ev -> Prop.

(** Every call of the trace has what it needs from the calls before
    it. *)
Definition flows (tr : Trace Ev) : Prop :=
  forall i c o, tr !! i = Some (c, o) -> justified (take i tr) c.

(** A statement whose calls need nothing of the past. *)
Definition plain {A} (m : StateM (Trace Ev) A) : Prop :=
  forall tr, exists entries,
    snd (m tr) = tr ++ entries /\
    propagated entries (fst (m tr)) /\
    forall past c o, (c, o) ∈ entries -> justified past c.

(** What holds of the trace as long as no call has raised. *)
Definition Inv (tr : Trace Ev) : Prop := flows tr /\ quiet tr.

(** What is shown of a run: its calls have what they need, a call that
    raised is the last one and its exception is the result of the run,
    the trace has the shape asked for, and more when the run returned. *)
Definition Good {A} (shape final : Trace Ev -> Prop)
    (run : Result A * Trace Ev) : Prop :=
  flows (snd run) /\
  propagated (snd run) (fst run) /\
  shape (snd run) /\
  match fst run with
  | inr _ => final (snd run)
  | inl _ => True
  end.

End Flow.

End Notebook.

(** ** Part 3, from its first cell to its last *)

Module Part3.
Import Py Pandas Notebook.

(** The libraries part 3 calls: GluonTS, matplotlib, MXNet and the
    operating system.  Their values are opaque; every function returns
    or raises, and takes the number of calls made so far. *)
Class Libraries : Type := {
  predictor : Type;
  forecast : Type;
  metric : Type;
  item_metrics : Type;
  estimator : Type;
  distr_output : Type;
  trainer : Type;
  figure : Type;
  axes : Type;
  (** a value a cell shows that the notebook does not look into *)
  object : Type;
  (** [mxnet.__version__] *)
  mxnet_version : string;
  (** Python's text of a float *)
  float_str : Q -> string;
  (** [df[:100].plot(figsize=...)] *)
  table_plot : nat -> Table -> Q * Q -> Lib object;
  SeasonalNaivePredictor : nat -> string -> nat -> nat -> Lib predictor;
  make_evaluation_predictions :
    nat -> GluonTS.ListDataset -> predictor -> nat ->
    Lib (Iter forecast * Iter GluonTS.Series);
  (** the quantiles of [Evaluator()] *)
  default_quantiles : list Q;
  Evaluator :
    nat -> list Q -> Iter GluonTS.Series -> Iter forecast -> nat ->
    Lib (dict metric * item_metrics);
  forecast_plot : nat -> forecast -> list Q -> string -> Lib unit;
  subplots : nat -> nat -> nat -> Q * Q -> Lib (figure * axes);
  series_plot : nat -> GluonTS.Series -> axes -> Lib unit;
  grid : nat -> string -> Lib unit;
  legend : nat -> list string -> string -> Lib unit;
  show : nat -> Lib unit;
  StudentTOutput : nat -> Lib distr_output;
  Trainer : nat -> nat -> Lib trainer;
  DeepAREstimator :
    nat -> string -> nat -> distr_output -> trainer -> Lib estimator;
  SimpleFeedForwardEstimator :
    nat -> string -> nat -> trainer -> Lib estimator;
  train : nat -> estimator -> GluonTS.ListDataset -> Lib predictor;
  makedirs : nat -> string -> Lib unit;
  serialize_prediction_net : nat -> predictor -> string -> Lib unit;
  serialize : nat -> predictor -> string -> Lib unit;
  (** [DeepARTrainingNetwork.__bases__[0].__bases__[0]] *)
  training_network_base : nat -> Lib object;
  (** [predictor.prediction_net.collect_params()] *)
  collect_params : nat -> predictor -> Lib object
}.

Section Run.
Context `{libs : Libraries} `{net : Net}.

(** GluonTS and matplotlib as the helpers see them when [t] calls have
    been made. *)
Definition gluonts_at (t : nat) : GluonTS.API := {|
  GluonTS.Predictor := predictor;
  GluonTS.Forecast := forecast;
  GluonTS.Metric := metric;
  GluonTS.ItemMetrics := item_metrics;
  GluonTS.make_evaluation_predictions := make_evaluation_predictions t;
  GluonTS.Evaluator := Evaluator t;
  GluonTS.forecast_plot := forecast_plot t
|}.

Definition pyplot_at (t : nat) : Plotting.Matplotlib := {|
  Plotting.Figure := figure;
  Plotting.Axes := axes;
  Plotting.subplots := subplots t;
  Plotting.series_plot := series_plot t;
  Plotting.grid := grid t;
  Plotting.legend := legend t;
  Plotting.show := show t
|}.

(** What a cell shows as the value of its last expression. *)
Inductive Shown : Type :=
| ShownTable (rows : Table)
| ShownMetrics (metrics : dict metric)
| ShownFrame (df : DataFrame metric)
| ShownObject (o : object).

(** The calls of part 3, with their arguments. *)
Inductive Call : Type :=
| Print (text : string)
| PrintMetrics (a b : metric)
| Display (v : Shown)
| Io (c : IO)
| CallTablePlot (rows : Table) (figsize : Q * Q)
| SetRcParams (key : string) (value : Q * Q)
| CallListDataset (df : Table) (stop : string)
| CallSeasonalNaivePredictor (freq : string)
    (prediction_length season_length : nat)
| CallMakeEvaluationPredictions (dataset : GluonTS.ListDataset)
    (p : predictor) (num_samples : nat)
| CallListForecasts
| CallListSeries
| CallEvaluator (quantiles : list Q) (ts_it : Iter GluonTS.Series)
    (forecast_it : Iter forecast) (num_series : nat)
| CallPlotForecast (p : predictor) (test_data : GluonTS.ListDataset)
| CallStudentTOutput
| CallTrainer (epochs : nat)
| CallDeepAREstimator (freq : string) (prediction_length : nat)
    (distr : distr_output) (tr : trainer)
| CallSimpleFeedForwardEstimator (freq : string) (prediction_length : nat)
    (tr : trainer)
| CallTrain (est : estimator) (training_data : GluonTS.ListDataset)
| CallMakedirs (path : string)
| CallSerializePredictionNet (p : predictor) (path : string)
| CallSerialize (p : predictor) (path : string)
| CallEvaluatModels (data : GluonTS.ListDataset)
    (predictors : list predictor) (predictor_names : list string)
| CallTrainingNetworkBase
| CallCollectParams (p : predictor).

(** The name of the function called; for a dataset with the label it
    ends at, for a value shown with what it is. *)
Definition kind (c : Call) : string :=
  match c with
  | Print _ | PrintMetrics _ _ => "print"
  | Display (ShownTable _) => "display table"
  | Display (ShownMetrics _) => "display metrics"
  | Display (ShownFrame _) => "display comparison"
  | Display (ShownObject _) => "display"
  | Io (HttpGet _) => "GET"
  | Io (ReadFile _) => "open"
  | Io (ParseCsv _ _ _) => "read_csv"
  | CallTablePlot _ _ => "plot"
  | SetRcParams _ _ => "rcParams"
  | CallListDataset _ stop => ("ListDataset to " ++ stop)%string
  | CallSeasonalNaivePredictor _ _ _ => "SeasonalNaivePredictor"
  | CallMakeEvaluationPredictions _ _ _ => "make_evaluation_predictions"
  | CallListForecasts | CallListSeries => "list"
  | CallEvaluator _ _ _ _ => "Evaluator"
  | CallPlotForecast _ _ => "plot_forecast"
  | CallStudentTOutput => "StudentTOutput"
  | CallTrainer _ => "Trainer"
  | CallDeepAREstimator _ _ _ _ => "DeepAREstimator"
  | CallSimpleFeedForwardEstimator _ _ _ => "SimpleFeedForwardEstimator"
  | CallTrain _ _ => "train"
  | CallMakedirs _ => "makedirs"
  | CallSerializePredictionNet _ _ => "serialize_prediction_net"
  | CallSerialize _ _ => "serialize"
  | CallEvaluatModels _ _ _ => "evaluat_models_from_dict"
  | CallTrainingNetworkBase => "__bases__"
  | CallCollectParams _ => "collect_params"
  end.

Definition EPOCHS : nat := 20.

Definition url : string :=
  "https://raw.githubusercontent.com/numenta/NAB/master/data/realTweets/Twitter_volume_AMZN.csv".

(** A call of the notebook's [plot_forecast]. *)
Definition call_plot_forecast (p : predictor)
    (test_data : GluonTS.ListDataset) : StateM (Trace Call) unit :=
  own_call (CallPlotForecast p test_data)
    (fun t => fst (Plotting.plot_forecast (api := gluonts_at t)
                     (plt := pyplot_at t) float_str p test_data [])).

(** The code cells of part 3, in the order of the file. *)
Definition part3 : StateM (Trace Call) unit :=
  _ <~ emit (Print mxnet_version) ;;
  df <~ read_csv Io url 0 0 ;;
  _ <~ emit (Display (ShownTable (take 5 df))) ;;
  shown <~ lib_call (CallTablePlot (take 100 df) (10 # 1, 5 # 1)%Q)
             (fun t => table_plot t (take 100 df) (10 # 1, 5 # 1)%Q) ;;
  _ <~ emit (Display (ShownObject shown)) ;;
  _ <~ emit (SetRcParams "figure.figsize" (15 # 1, 8 # 1)%Q) ;;
  training_data <~ own_call (CallListDataset df Datasets.train_end)
                     (fun _ => Datasets.training_data df) ;;
  test_data <~ own_call (CallListDataset df Datasets.test_end)
                 (fun _ => Datasets.test_data df) ;;
  naive_predictor <~ lib_call (CallSeasonalNaivePredictor "5min" 36 300)
                       (fun t => SeasonalNaivePredictor t "5min" 36 300) ;;
  its <~ lib_call (CallMakeEvaluationPredictions test_data naive_predictor 100)
           (fun t => make_evaluation_predictions t test_data
                       naive_predictor 100) ;;
  let '(forecast_it_baseline, ts_it_baseline) := its in
  forecasts_baseline <~ lib_call CallListForecasts
                          (fun _ => forecast_it_baseline) ;;
  tss_baseline <~ lib_call CallListSeries (fun _ => ts_it_baseline) ;;
  res <~ lib_call (CallEvaluator default_quantiles (inr tss_baseline)
                     (inr forecasts_baseline) (length test_data))
           (fun t => Evaluator t default_quantiles (inr tss_baseline)
                       (inr forecasts_baseline) (length test_data)) ;;
  let '(agg_metrics_baseline, item_metrics) := res in
  _ <~ call_plot_forecast naive_predictor test_data ;;
  _ <~ emit (Display (ShownMetrics agg_metrics_baseline)) ;;
  distr <~ lib_call CallStudentTOutput StudentTOutput ;;
  trainer1 <~ lib_call (CallTrainer EPOCHS) (fun t => Trainer t EPOCHS) ;;
  deepar_estimator <~ lib_call (CallDeepAREstimator "5min" 36 distr trainer1)
                        (fun t => DeepAREstimator t "5min" 36 distr
                                    trainer1) ;;
  deepar_predictor <~ lib_call (CallTrain deepar_estimator training_data)
                        (fun t => train t deepar_estimator training_data) ;;
  _ <~ call_plot_forecast deepar_predictor test_data ;;
  _ <~ lib_call (CallMakedirs "deepar") (fun t => makedirs t "deepar") ;;
  _ <~ lib_call (CallSerializePredictionNet deepar_predictor "deepar")
         (fun t => serialize_prediction_net t deepar_predictor "deepar") ;;
  _ <~ lib_call (CallSerialize deepar_predictor "deepar")
         (fun t => serialize t deepar_predictor "deepar") ;;
  its2 <~ lib_call (CallMakeEvaluationPredictions test_data
                      deepar_predictor 100)
            (fun t => make_evaluation_predictions t test_data
                        deepar_predictor 100) ;;
  let '(forecast_it, ts_it) := its2 in
  res2 <~ lib_call (CallEvaluator Comparison.quantiles ts_it forecast_it
                      (length training_data))
            (fun t => Evaluator t Comparison.quantiles ts_it forecast_it
                        (length training_data)) ;;
  let '(deepar_agg_metrics, item_metrics2) := res2 in
  _ <~ emit (Display (ShownMetrics deepar_agg_metrics)) ;;
  mse_deepar <~ slift (getitem deepar_agg_metrics "MSE") ;;
  mse_baseline <~ slift (getitem agg_metrics_baseline "MSE") ;;
  _ <~ emit (PrintMetrics mse_deepar mse_baseline) ;;
  trainer2 <~ lib_call (CallTrainer EPOCHS) (fun t => Trainer t EPOCHS) ;;
  mlp_estimator <~ lib_call (CallSimpleFeedForwardEstimator "5min" 36
                               trainer2)
                     (fun t => SimpleFeedForwardEstimator t "5min" 36
                                 trainer2) ;;
  mlp_predictor <~ lib_call (CallTrain mlp_estimator training_data)
                     (fun t => train t mlp_estimator training_data) ;;
  _ <~ call_plot_forecast mlp_predictor test_data ;;
  table <~ own_call
             (CallEvaluatModels test_data
                [deepar_predictor; mlp_predictor; naive_predictor]
                ["deepar"; "mlp"; "naive predictor"])
             (fun t => (Comparison.evaluat_models_from_dict
                          (api := gluonts_at t) test_data
                          [deepar_predictor; mlp_predictor; naive_predictor]
                          ["deepar"; "mlp"; "naive predictor"]
                          Comparison.num_samples_default
                        : Result (DataFrame metric))) ;;
  _ <~ emit (Display (ShownFrame table)) ;;
  base <~ lib_call CallTrainingNetworkBase training_network_base ;;
  _ <~ emit (Display (ShownObject base)) ;;
  params <~ lib_call (CallCollectParams deepar_predictor)
              (fun t => collect_params t deepar_predictor) ;;
  emit (Display (ShownObject params)).

(** The names of the calls of a run that returns, in order. *)
Definition order : list string :=
  ["print"; "GET"; "read_csv"; "display table"; "plot"; "display";
   "rcParams";
   "ListDataset to 2015-04-05 00:00:00";
   "ListDataset to 2015-04-15 00:00:00";
   "SeasonalNaivePredictor";
   "make_evaluation_predictions"; "list"; "list"; "Evaluator";
   "plot_forecast"; "display metrics";
   "StudentTOutput"; "Trainer"; "DeepAREstimator"; "train";
   "plot_forecast";
   "makedirs"; "serialize_prediction_net"; "serialize";
   "make_evaluation_predictions"; "Evaluator"; "display metrics"; "print";
   "Trainer"; "SimpleFeedForwardEstimator"; "train"; "plot_forecast";
   "evaluat_models_from_dict"; "display comparison";
   "__bases__"; "display"; "collect_params"; "display"].

(** *** What a call needs of the calls before it *)

(** The table [df]: the text a GET of [url] returned, parsed. *)
Definition fetched (past : Trace Call) (df : Table) : Prop :=
  exists i j text,
    returned past i (Io (HttpGet url)) /\ http_get i url = inr text /\
    returned past j (Io (ParseCsv text 0 0)) /\
    parse_csv j text 0 0 = inr df.

(** A dataset built from the table, up to [stop]. *)
Definition built (past : Trace Call) (stop : string)
    (data : GluonTS.ListDataset) : Prop :=
  exists i df,
    returned past i (CallListDataset df stop) /\
    Datasets.dataset_to df stop = inr data.

(** A predictor that [train] returned, or the baseline. *)
Definition trained (past : Trace Call) (p : predictor) : Prop :=
  exists i est data,
    returned past i (CallTrain est data) /\ train i est data = inr p.

Definition baseline (past : Trace Call) (p : predictor) : Prop :=
  exists i,
    returned past i (CallSeasonalNaivePredictor "5min" 36 300) /\
    SeasonalNaivePredictor i "5min" 36 300 = inr p.

Definition available (past : Trace Call) (p : predictor) : Prop :=
  baseline past p \/ trained past p.

(** Forecasts and series that [make_evaluation_predictions] returned. *)
Definition predicted (past : Trace Call) (forecast_it : Iter forecast)
    (ts_it : Iter GluonTS.Series) : Prop :=
  exists i data p n,
    returned past i (CallMakeEvaluationPredictions data p n) /\
    make_evaluation_predictions i data p n = inr (forecast_it, ts_it).

(** Metrics that the evaluator returned. *)
Definition evaluated (past : Trace Call) (metrics : dict metric) : Prop :=
  exists i quantiles ts_it forecast_it num_series items,
    returned past i (CallEvaluator quantiles ts_it forecast_it num_series) /\
    Evaluator i quantiles ts_it forecast_it num_series
      = inr (metrics, items).

(** A table that [evaluat_models_from_dict] returned. *)
Definition compared (past : Trace Call) (table : DataFrame metric) : Prop :=
  exists i data predictors names,
    returned past i (CallEvaluatModels data predictors names) /\
    Comparison.evaluat_models_from_dict (api := gluonts_at i) data
      predictors names Comparison.num_samples_default = inr table.

Definition justified (past : Trace Call) (c : Call) : Prop :=
  match c with
  | Io c => io_justified Io url past c
  | CallListDataset df stop => fetched past df
  | CallTrain est data => built past Datasets.train_end data
  | CallMakeEvaluationPredictions data p n =>
      built past Datasets.test_end data /\ available past p
  | CallPlotForecast p data =>
      built past Datasets.test_end data /\ available past p
  | CallEvaluatModels data predictors names =>
      built past Datasets.test_end data /\
      Forall (available past) predictors
  | CallEvaluator quantiles ts_it forecast_it num_series =>
      predicted past forecast_it ts_it
  | CallSerializePredictionNet p _ | CallSerialize p _
  | CallCollectParams p => trained past p
  | Display (ShownTable rows) => exists df, fetched past df /\ rows = take 5 df
  | CallTablePlot rows _ => exists df, fetched past df /\ rows = take 100 df
  | Display (ShownMetrics metrics) => evaluated past metrics
  | PrintMetrics a b =>
      exists ma mb, evaluated past ma /\ evaluated past mb /\
                    getitem ma "MSE" = inr a /\ getitem mb "MSE" = inr b
  | Display (ShownFrame table) => compared past table
  | _ => True
  end.

(** A run that returned has made every call of [order], and has fetched
    the table. *)
Definition complete (tr : Trace Call) : Prop :=
  map (fun entry => kind (fst entry)) tr = order /\
  exists df, fetched tr df.

End Run.

End Part3.

(** ** Part 4, from its first cell to its last *)

Module Part4.
Import Py Pandas Notebook TuningCells.

(** A value of a response of the SageMaker API: a string, a number, or
    an object with its fields in order. *)
Inductive Json : Type :=
| JStr (s : string)
| JNum (n : Z)
| JObj (fields : Fields)
with Fields : Type :=
| FNil
| FCons (key : string) (value : Json) (rest : Fields).

Fixpoint fields_getitem (fields : Fields) (key : string) : Result Json :=
  match fields with
  | FNil => raise (KeyError key)
  | FCons k v rest =>
      if String.eqb k key then ret v else fields_getitem rest key
  end.

(** [j[key]] *)
Definition json_getitem (j : Json) (key : string) : Result Json :=
  match j with
  | JObj fields => fields_getitem fields key
  | JStr _ => raise (TypeError "string indices must be integers")
  | JNum _ => raise (TypeError "'int' object is not subscriptable")
  end.

(** [j == s] for a string [s] *)
Definition is_str (j : Json) (s : string) : bool :=
  match j with
  | JStr t => String.eqb t s
  | _ => false
  end.

(** ["%d" % j] *)
Definition format_d (j : Json) : Result string :=
  match j with
  | JNum n => ret (pretty n)
  | JStr _ => raise (TypeError "%d format: a number is required, not str")
  | JObj _ => raise (TypeError "%d format: a number is required, not dict")
  end.

(** [s[:n]] *)
Definition str_take (n : nat) (s : string) : string :=
  String.substring 0 n s.

(** The libraries part 4 calls: the SageMaker SDK, boto3, s3fs, pandas
    and bokeh. *)
Class Libraries : Type := {
  session : Type;
  filesystem : Type;
  estimator : Type;
  parameter : Type;
  tuner : Type;
  boto_session : Type;
  client : Type;
  analytics : Type;
  hp_value : Type;
  tool : Type;
  plot : Type;
  layout : Type;
  endpoint : Type;
  prediction : Type;
  (** the builtins [float], [min] and [max], and [sort_values] *)
  float : hp_value -> Result Q;
  sort_values : bool -> list Job -> list Job;
  py_min : list Float -> Float;
  py_max : list Float -> Float;
  Session : nat -> Lib session;
  default_bucket : nat -> session -> Lib string;
  (** [table.to_csv(path)]: the text written to the file *)
  to_csv : nat -> Table -> string -> Lib string;
  resource : nat -> string -> Lib unit;
  (** whether a request to S3 fails *)
  fault : nat -> S3Upload.Call -> option string;
  S3FileSystem : nat -> Lib filesystem;
  (** [open(path, 'rb')], [readline()] and [decode] *)
  readline : nat -> filesystem -> string -> Lib string;
  get_execution_role : nat -> Lib string;
  MXNet :
    nat -> string -> string -> string -> string -> nat -> string -> string ->
    dict Q -> Lib estimator;
  fit : nat -> estimator -> string -> string -> Lib unit;
  IntegerParameter : nat -> Z -> Z -> Lib parameter;
  ContinuousParameter : nat -> Q -> Q -> Lib parameter;
  HyperparameterTuner :
    nat -> estimator -> string -> dict parameter -> list (dict string) ->
    nat -> nat -> string -> Lib tuner;
  tuner_fit : nat -> tuner -> string -> string -> Lib unit;
  (** [tuner.latest_tuning_job.job_name] *)
  latest_tuning_job_name : nat -> tuner -> Lib string;
  boto3_Session : nat -> Lib boto_session;
  boto3_client : nat -> boto_session -> string -> Lib client;
  describe_hyper_parameter_tuning_job : nat -> client -> string -> Lib Json;
  HyperparameterTuningJobAnalytics : nat -> string -> Lib analytics;
  dataframe : nat -> analytics -> Lib (list Job);
  output_notebook : nat -> Lib unit;
  (** [job_analytics.tuning_ranges]: for each name, what
      [hp_range.get('Values')] gives *)
  tuning_ranges : nat -> analytics -> Lib (dict (option (list hp_value)));
  HoverTool : nat -> list (string * string) -> Lib tool;
  bokeh_figure :
    nat -> nat -> nat -> string -> tool -> string -> string -> Json ->
    option (list hp_value) -> Lib plot;
  circle : nat -> plot -> Frame -> string -> string -> Lib unit;
  Column : nat -> list plot -> Lib layout;
  bokeh_show : nat -> layout -> Lib unit;
  deploy : nat -> tuner -> string -> nat -> Lib endpoint;
  predict : nat -> endpoint -> list Z -> list string -> Lib prediction;
  delete_endpoint : nat -> endpoint -> Lib unit
}.

Section Run.
Context `{libs : Libraries} `{net : Net}.

Inductive Shown : Type :=
| ShownFrame (df : Frame)
| ShownPrediction (result : prediction).

(** The calls of part 4, with their arguments. *)
Inductive Call : Type :=
| Print (text : string)
| PrintOutput (o : Output)
| Display (v : Shown)
| Io (c : IO)
| CallSession
| CallDefaultBucket (s : session)
| CallSlice (df : Table) (stop : string)
| CallToCsv (rows : Table) (path : string)
| CallResource (service : string)
| CallCopyToS3 (local_file s3_path : string)
| CallS3FileSystem
| CallReadline (fs : filesystem) (path : string)
| CallGetExecutionRole
| CallMXNet (entry_point source_dir role train_instance_type : string)
    (train_instance_count : nat) (framework_version py_version : string)
    (hyperparameters : dict Q)
| CallFit (est : estimator) (train_path test_path : string)
| CallIntegerParameter (min_value max_value : Z)
| CallContinuousParameter (min_value max_value : Q)
| CallHyperparameterTuner (est : estimator) (objective_metric_name : string)
    (hyperparameter_ranges : dict parameter)
    (metric_definitions : list (dict string))
    (max_jobs max_parallel_jobs : nat) (objective_type : string)
| CallTunerFit (t : tuner) (train_path test_path : string)
| CallLatestTuningJobName (t : tuner)
| CallBotoSession
| CallClient (s : boto_session) (service : string)
| CallDescribeTuningJob (c : client) (name : string)
| CallAnalytics (name : string)
| CallDataframe (a : analytics)
| CallOutputNotebook
| CallTuningRanges (a : analytics)
| CallHoverTool (tooltips : list (string * string))
| CallFigure (plot_width plot_height : nat) (title : string) (ht : tool)
    (standard_tools x_axis_label : string) (y_axis_label : Json)
    (x_range : option (list hp_value))
| CallCircle (p : plot) (source : Frame) (x y : string)
| CallColumn (figures : list plot)
| CallShow (l : layout)
| CallDeploy (t : tuner) (instance_type : string)
    (initial_instance_count : nat)
| CallPredict (e : endpoint) (value : list Z) (timestamp : list string)
| CallDeleteEndpoint (e : endpoint).

Definition url : string :=
  "https://raw.githubusercontent.com/numenta/NAB/master/data/realTweets/Twitter_volume_AMZN.csv".

(** A call of the notebook's [copy_to_s3], on the store as it is; the
    files are those on the disk now.  It gives the store it leaves. *)
Definition call_copy_to_s3 (s3_bucket : string) (disk : gmap string string)
    (local_file s3_path : string) (w : S3Upload.World)
    : StateM (Trace Call) S3Upload.World :=
  own_call (CallCopyToS3 local_file s3_path)
    (fun t =>
       let run := S3Upload.copy_to_s3 s3_bucket disk (fault t) local_file
                    s3_path false w in
       _ <- fst run ;; ret (snd run)).

Definition standard_tools : string :=
  "pan,crosshair,wheel_zoom,zoom_in,zoom_out,undo,reset".

(** The [for hp_name, hp_range in ranges.items()] loop, over the ranges
    that are left; [figures] is the list it appends to. *)
Fixpoint plot_ranges (job_analytics : analytics) (objective_name : Json)
    (df : Frame) (ranges : dict (option (list hp_value)))
    (figures : list plot) : StateM (Trace Call) (list plot) :=
  match ranges with
  | [] => sret figures
  | (hp_name, values) :: rest =>
      args <~ slift (categorical_args float hp_name values) ;;
      let '(printed, x_range) := args in
      _ <~ emit_each Print printed ;;
      ranges' <~ lib_call (CallTuningRanges job_analytics)
                   (fun t => tuning_ranges t job_analytics) ;;
      ht <~ lib_call (CallHoverTool (hovertool (keys ranges')))
              (fun t => HoverTool t (hovertool (keys ranges'))) ;;
      p <~ lib_call (CallFigure 500 500 ("Objective vs " ++ hp_name)%string ht
                       standard_tools hp_name objective_name x_range)
             (fun t => bokeh_figure t 500 500 ("Objective vs " ++ hp_name)%string
                         ht standard_tools hp_name objective_name x_range) ;;
      _ <~ lib_call (CallCircle p df hp_name "FinalObjectiveValue")
             (fun t => circle t p df hp_name "FinalObjectiveValue") ;;
      plot_ranges job_analytics objective_name df rest (figures ++ [p])
  end.

(** The code cells of part 4, in the order of the file, on a bucket
    store [w0] and a disk [disk0]. *)
Definition part4 (w0 : S3Upload.World) (disk0 : gmap string string)
    : StateM (Trace Call) unit :=
  sagemaker_session <~ lib_call CallSession Session ;;
  s3_bucket <~ lib_call (CallDefaultBucket sagemaker_session)
                 (fun t => default_bucket t sagemaker_session) ;;
  let s3_train_data_path := UploadCell.s3_train_data_path s3_bucket in
  let s3_test_data_path := UploadCell.s3_test_data_path s3_bucket in
  _ <~ emit (Print ("Data will be uploaded to:  " ++ s3_bucket)%string) ;;
  df <~ read_csv Io url 0 0 ;;
  train <~ own_call (CallSlice df Datasets.train_end)
             (fun _ => Datasets.train df) ;;
  train_csv <~ lib_call (CallToCsv train "train.csv")
                 (fun t => to_csv t train "train.csv") ;;
  let disk1 := <["train.csv" := train_csv]> disk0 in
  test <~ own_call (CallSlice df Datasets.test_end)
            (fun _ => Datasets.test df) ;;
  test_csv <~ lib_call (CallToCsv test "test.csv")
                (fun t => to_csv t test "test.csv") ;;
  let disk2 := <["test.csv" := test_csv]> disk1 in
  _ <~ lib_call (CallResource "s3") (fun t => resource t "s3") ;;
  w1 <~ call_copy_to_s3 s3_bucket disk2 "train.csv"
          (s3_train_data_path ++ "/train.csv")%string w0 ;;
  w2 <~ call_copy_to_s3 s3_bucket disk2 "test.csv"
          (s3_test_data_path ++ "/test.csv")%string w1 ;;
  s3filesystem <~ lib_call CallS3FileSystem S3FileSystem ;;
  line <~ lib_call (CallReadline s3filesystem
                      (s3_train_data_path ++ "/train.csv")%string)
            (fun t => readline t s3filesystem
                        (s3_train_data_path ++ "/train.csv")%string) ;;
  _ <~ emit (Print (str_take 100 line ++ "...")%string) ;;
  sagemaker_session2 <~ lib_call CallSession Session ;;
  role <~ lib_call CallGetExecutionRole get_execution_role ;;
  mxnet_estimator <~
    lib_call (CallMXNet "train.py" "entry_point" role "ml.m5.xlarge" 1
                "1.4.1" "py3"
                [("epochs", 1 # 1); ("prediction_length", 12 # 1);
                 ("num_layers", 2 # 1); ("dropout_rate", 2 # 10)]%Q)
      (fun t => MXNet t "train.py" "entry_point" role "ml.m5.xlarge" 1
                  "1.4.1" "py3"
                  [("epochs", 1 # 1); ("prediction_length", 12 # 1);
                   ("num_layers", 2 # 1); ("dropout_rate", 2 # 10)]%Q) ;;
  _ <~ lib_call (CallFit mxnet_estimator s3_train_data_path
                   s3_test_data_path)
         (fun t => fit t mxnet_estimator s3_train_data_path
                     s3_test_data_path) ;;
  epochs <~ lib_call (CallIntegerParameter 5 20)
              (fun t => IntegerParameter t 5 20) ;;
  prediction_length <~ lib_call (CallIntegerParameter 5 20)
                         (fun t => IntegerParameter t 5 20) ;;
  num_layers <~ lib_call (CallIntegerParameter 1 5)
                  (fun t => IntegerParameter t 1 5) ;;
  dropout_rate <~ lib_call (CallContinuousParameter 0 (5 # 10)%Q)
                    (fun t => ContinuousParameter t 0 (5 # 10)%Q) ;;
  tuner <~
    lib_call (CallHyperparameterTuner mxnet_estimator "loss"
                [("epochs", epochs); ("prediction_length", prediction_length);
                 ("num_layers", num_layers); ("dropout_rate", dropout_rate)]
                [[("Name", "loss"); ("Regex", "MSE: ([0-9\.]+)")]]
                10 5 "Minimize")
      (fun t => HyperparameterTuner t mxnet_estimator "loss"
                  [("epochs", epochs);
                   ("prediction_length", prediction_length);
                   ("num_layers", num_layers);
                   ("dropout_rate", dropout_rate)]
                  [[("Name", "loss"); ("Regex", "MSE: ([0-9\.]+)")]]
                  10 5 "Minimize") ;;
  _ <~ lib_call (CallTunerFit tuner s3_train_data_path s3_test_data_path)
         (fun t => tuner_fit t tuner s3_train_data_path
                     s3_test_data_path) ;;
  tuning_job_name <~ lib_call (CallLatestTuningJobName tuner)
                       (fun t => latest_tuning_job_name t tuner) ;;
  boto <~ lib_call CallBotoSession boto3_Session ;;
  sage_client <~ lib_call (CallClient boto "sagemaker")
                   (fun t => boto3_client t boto "sagemaker") ;;
  tuning_job_result <~
    lib_call (CallDescribeTuningJob sage_client tuning_job_name)
      (fun t => describe_hyper_parameter_tuning_job t sage_client
                  tuning_job_name) ;;
  status <~ slift (json_getitem tuning_job_result
                     "HyperParameterTuningJobStatus") ;;
  _ <~ (if negb (is_str status "Completed")
        then emit (Print "Reminder: the tuning job has not been completed.")
        else sret tt) ;;
  counters <~ slift (json_getitem tuning_job_result
                       "TrainingJobStatusCounters") ;;
  job_count <~ slift (json_getitem counters "Completed") ;;
  count_text <~ slift (format_d job_count) ;;
  _ <~ emit (Print (count_text ++ " training jobs have completed")%string) ;;
  config <~ slift (json_getitem tuning_job_result
                     "HyperParameterTuningJobConfig") ;;
  objective <~ slift (json_getitem config
                        "HyperParameterTuningJobObjective") ;;
  objective_type <~ slift (json_getitem objective "Type") ;;
  let is_minimize := negb (is_str objective_type "Maximize") in
  config2 <~ slift (json_getitem tuning_job_result
                      "HyperParameterTuningJobConfig") ;;
  objective2 <~ slift (json_getitem config2
                         "HyperParameterTuningJobObjective") ;;
  objective_name <~ slift (json_getitem objective2 "MetricName") ;;
  job_analytics <~ lib_call (CallAnalytics tuning_job_name)
                     (fun t => HyperparameterTuningJobAnalytics t
                                 tuning_job_name) ;;
  full_df <~ lib_call (CallDataframe job_analytics)
               (fun t => dataframe t job_analytics) ;;
  let results := results_cell sort_values py_min py_max full_df is_minimize
                   (CsvTable df) in
  _ <~ emit_each PrintOutput (snd results) ;;
  _ <~ emit (Display (ShownFrame (fst results))) ;;
  _ <~ lib_call CallOutputNotebook output_notebook ;;
  ranges <~ lib_call (CallTuningRanges job_analytics)
              (fun t => tuning_ranges t job_analytics) ;;
  figures <~ plot_ranges job_analytics objective_name (fst results)
               ranges [] ;;
  column <~ lib_call (CallColumn figures) (fun t => Column t figures) ;;
  _ <~ lib_call (CallShow column) (fun t => bokeh_show t column) ;;
  tuned_endpoint <~ lib_call (CallDeploy tuner "ml.m5.xlarge" 1)
                      (fun t => deploy t tuner "ml.m5.xlarge" 1) ;;
  result <~ lib_call (CallPredict tuned_endpoint (table_value test)
                        (table_index test))
              (fun t => predict t tuned_endpoint (table_value test)
                          (table_index test)) ;;
  _ <~ emit (Display (ShownPrediction result)) ;;
  lib_call (CallDeleteEndpoint tuned_endpoint)
    (fun t => delete_endpoint t tuned_endpoint).

(** *** What a call needs of the calls before it *)

(** The table [df]: the text a GET of [url] returned, parsed. *)
Definition fetched (past : Trace Call) (df : Table) : Prop :=
  exists i j text,
    returned past i (Io (HttpGet url)) /\ http_get i url = inr text /\
    returned past j (Io (ParseCsv text 0 0)) /\
    parse_csv j text 0 0 = inr df.

(** Rows of the table, up to [stop]. *)
Definition sliced (past : Trace Call) (rows : Table) : Prop :=
  exists i df stop,
    returned past i (CallSlice df stop) /\ rows_to_label df stop = inr rows.

(** A file that [to_csv] wrote. *)
Definition written (past : Trace Call) (path : string) : Prop :=
  exists i rows, returned past i (CallToCsv rows path).

(** A path under which [copy_to_s3] has returned. *)
Definition uploaded (past : Trace Call) (s3_path : string) : Prop :=
  exists i local_file, returned past i (CallCopyToS3 local_file s3_path).

(** An endpoint that [deploy] returned. *)
Definition deployed (past : Trace Call) (e : endpoint) : Prop :=
  exists i t instance_type count,
    returned past i (CallDeploy t instance_type count) /\
    deploy i t instance_type count = inr e.

Definition justified (past : Trace Call) (c : Call) : Prop :=
  match c with
  | Io c => io_justified Io url past c
  | CallSlice df stop => fetched past df
  | CallToCsv rows path => sliced past rows
  | CallCopyToS3 local_file s3_path => written past local_file
  | CallFit _ train_path test_path | CallTunerFit _ train_path test_path =>
      uploaded past (train_path ++ "/train.csv")%string /\
      uploaded past (test_path ++ "/test.csv")%string
  | CallPredict e value timestamp =>
      deployed past e /\
      exists rows, sliced past rows /\
                   value = table_value rows /\ timestamp = table_index rows
  | CallDeleteEndpoint e =>
      deployed past e /\
      exists i value timestamp, returned past i (CallPredict e value timestamp)
  | _ => True
  end.

(** A run that returned has fetched the table. *)
Definition complete (tr : Trace Call) : Prop := exists df, fetched tr df.

(** Nothing is asked of the names of the calls: the loop over the
    tuning ranges runs as often as there are ranges. *)
Definition any_shape (tr : Trace Call) : Prop := True.

End Run.

End Part4.

(** ** Stand-ins for the libraries, to run the helpers on *)

Module Examples.
Import Py GluonTS Plotting.

(** A predictor is a number and forecasts that number for every series;
    predictor 0 fails inside the library. *)
Definition toy_predictions (dataset : ListDataset) (predictor : nat)
    (num_samples : nat) : Lib (Iter nat * Iter Series) :=
  match predictor with
  | 0 => inl "MXNetError"
  | _ => inr (inr (map (fun _ => predictor) dataset), inr (map target dataset))
  end.

(** Two metrics per predictor; predictor 3 reports them in the other
    order. *)
Definition toy_evaluator (quantiles : list Q) (ts_it : Iter Series)
    (forecast_it : Iter nat) (num_series : nat) : Lib (dict Z * unit) :=
  match forecast_it with
  | inl origin => inl origin
  | inr [] => inr ([], tt)
  | inr (3 :: _) => inr ([("RMSE", 3%Z); ("MSE", 9%Z)], tt)
  | inr (p :: _) =>
      inr ([("MSE", Z.of_nat (p * p)); ("RMSE", Z.of_nat p)], tt)
  end.

Definition toy_api : API := {|
  Predictor := nat;
  Forecast := nat;
  Metric := Z;
  ItemMetrics := unit;
  make_evaluation_predictions := toy_predictions;
  Evaluator := toy_evaluator;
  forecast_plot := fun _ _ _ => inr tt
|}.

Definition toy_plt : Matplotlib := {|
  Figure := unit;
  Axes := unit;
  subplots := fun _ _ _ => inr (tt, tt);
  series_plot := fun _ _ => inr tt;
  grid := fun _ => inr tt;
  legend := fun _ _ => inr tt;
  show := inr tt
|}.

Definition toy_float_str (q : Q) : string :=
  if Qeq_bool q (50 # 1) then "50.0"
  else if Qeq_bool q (90 # 1) then "90.0" else "?".

Definition toy_table : Pandas.Table :=
  [("2015-04-04 23:52:53", 57%Z); ("2015-04-04 23:57:53", 43%Z);
   ("2015-04-05 00:02:53", 55%Z); ("2015-04-14 23:57:53", 64%Z);
   ("2015-04-15 00:02:53", 93%Z)].

Definition toy_data : ListDataset :=
  [ {| start := "2015-04-04 23:52:53"; target := [57; 43; 55; 64]%Z |} ].

(** A bucket that already holds the training data, and the local file. *)
Definition toy_world : S3Upload.World := {|
  S3Upload.objects := {[ ("my-bucket", "gluonts/train/train.csv") := "old" ]};
  S3Upload.stdout := [];
  S3Upload.log := []
|}.

Definition toy_files : gmap string string :=
  {[ "train.csv" := "timestamp,value" ]}.

Definition no_fault (c : S3Upload.Call) : option string := None.




(** A bucket with nothing in it, and both files of the upload cell. *)
Definition empty_world : S3Upload.World := {|
  S3Upload.objects := ∅;
  S3Upload.stdout := [];
  S3Upload.log := []
|}.

Definition both_files : gmap string string :=
  {[ "train.csv" := "timestamp,value"; "test.csv" := "timestamp,value,more" ]}.

(** A library whose forecast for a series is the number of its values. *)
Definition series_predictions (dataset : ListDataset) (predictor : nat)
    (num_samples : nat) : Lib (Iter nat * Iter Series) :=
  inr (inr (map (fun entry => length (target entry)) dataset),
       inr (map target dataset)).

Definition series_api : API := {|
  Predictor := nat;
  Forecast := nat;
  Metric := Z;
  ItemMetrics := unit;
  make_evaluation_predictions := series_predictions;
  Evaluator := toy_evaluator;
  forecast_plot := fun _ _ _ => inr tt
|}.

(** Two series: 400 values counting from 0, and three values. *)
Definition two_series : ListDataset :=
  [ {| start := "2015-02-26 21:42:53";
       target := map Z.of_nat (seq 0 400) |};
    {| start := "2015-02-26 21:42:53"; target := [7; 8; 9]%Z |} ].

(** A [float] that takes digits only. *)
Definition toy_float (x : string) : Result Q :=
  if String.eqb x "5" then inr (5 # 1)%Q
  else inl (ValueError "could not convert string to float").

(** A network that answers, with a parser that gives one table whatever
    the text; and no network. *)
Definition toy_net : Notebook.Net := {|
  Notebook.http_get := fun _ _ => inr "timestamp,value";
  Notebook.read_file := fun _ _ => inl "FileNotFoundError";
  Notebook.parse_csv := fun _ _ _ _ => inr toy_table
|}.


(** The libraries of part 3 with every call returning: an estimator is
    a number, and the predictor it trains is that number. *)
Definition toy_part3 : Part3.Libraries := {|
  Part3.predictor := nat;
  Part3.forecast := nat;
  Part3.metric := Z;
  Part3.item_metrics := unit;
  Part3.estimator := nat;
  Part3.distr_output := unit;
  Part3.trainer := nat;
  Part3.figure := unit;
  Part3.axes := unit;
  Part3.object := unit;
  Part3.mxnet_version := "1.4.1";
  Part3.float_str := toy_float_str;
  Part3.table_plot := fun _ _ _ => inr tt;
  Part3.SeasonalNaivePredictor := fun _ _ _ _ => inr 1;
  Part3.make_evaluation_predictions := fun _ => toy_predictions;
  Part3.default_quantiles := [1 # 10; 5 # 10; 9 # 10]%Q;
  Part3.Evaluator := fun _ => toy_evaluator;
  Part3.forecast_plot := fun _ _ _ _ => inr tt;
  Part3.subplots := fun _ _ _ _ => inr (tt, tt);
  Part3.series_plot := fun _ _ _ => inr tt;
  Part3.grid := fun _ _ => inr tt;
  Part3.legend := fun _ _ _ => inr tt;
  Part3.show := fun _ => inr tt;
  Part3.StudentTOutput := fun _ => inr tt;
  Part3.Trainer := fun _ epochs => inr epochs;
  Part3.DeepAREstimator := fun _ _ _ _ _ => inr 2;
  Part3.SimpleFeedForwardEstimator := fun _ _ _ _ => inr 3;
  Part3.train := fun _ est _ => inr est;
  Part3.makedirs := fun _ _ => inr tt;
  Part3.serialize_prediction_net := fun _ _ _ => inr tt;
  Part3.serialize := fun _ _ _ => inr tt;
  Part3.training_network_base := fun _ => inr tt;
  Part3.collect_params := fun _ _ => inr tt
|}.


(** A tuning job that has completed. *)
Definition tuning_job : Part4.Json :=
  Part4.JObj
    (Part4.FCons "HyperParameterTuningJobStatus" (Part4.JStr "Completed")
    (Part4.FCons "TrainingJobStatusCounters"
       (Part4.JObj (Part4.FCons "Completed" (Part4.JNum 10) Part4.FNil))
    (Part4.FCons "HyperParameterTuningJobConfig"
       (Part4.JObj
          (Part4.FCons "HyperParameterTuningJobObjective"
             (Part4.JObj
                (Part4.FCons "Type" (Part4.JStr "Minimize")
                (Part4.FCons "MetricName" (Part4.JStr "loss") Part4.FNil)))
             Part4.FNil))
     Part4.FNil))).

(** The libraries of part 4 with every call returning: one training job,
    two tuning ranges, a plot is its title. *)
Definition toy_part4 : Part4.Libraries := {|
  Part4.session := unit;
  Part4.filesystem := unit;
  Part4.estimator := unit;
  Part4.parameter := unit;
  Part4.tuner := unit;
  Part4.boto_session := unit;
  Part4.client := unit;
  Part4.analytics := unit;
  Part4.hp_value := string;
  Part4.tool := unit;
  Part4.plot := string;
  Part4.layout := nat;
  Part4.endpoint := unit;
  Part4.prediction := list Z;
  Part4.float := toy_float;
  Part4.sort_values := fun _ jobs => jobs;
  Part4.py_min := fun l => hd TuningCells.NaN l;
  Part4.py_max := fun l => hd TuningCells.NaN l;
  Part4.Session := fun _ => inr tt;
  Part4.default_bucket := fun _ _ => inr "my-bucket";
  Part4.to_csv := fun _ _ _ => inr "timestamp,value";
  Part4.resource := fun _ _ => inr tt;
  Part4.fault := fun _ _ => None;
  Part4.S3FileSystem := fun _ => inr tt;
  Part4.readline := fun _ _ _ => inr "timestamp,value";
  Part4.get_execution_role := fun _ => inr "role";
  Part4.MXNet := fun _ _ _ _ _ _ _ _ _ => inr tt;
  Part4.fit := fun _ _ _ _ => inr tt;
  Part4.IntegerParameter := fun _ _ _ => inr tt;
  Part4.ContinuousParameter := fun _ _ _ => inr tt;
  Part4.HyperparameterTuner := fun _ _ _ _ _ _ _ _ => inr tt;
  Part4.tuner_fit := fun _ _ _ _ => inr tt;
  Part4.latest_tuning_job_name := fun _ _ => inr "job";
  Part4.boto3_Session := fun _ => inr tt;
  Part4.boto3_client := fun _ _ _ => inr tt;
  Part4.describe_hyper_parameter_tuning_job := fun _ _ _ => inr tuning_job;
  Part4.HyperparameterTuningJobAnalytics := fun _ _ => inr tt;
  Part4.dataframe := fun _ _ =>
    inr [ {| TuningCells.TrainingJobName := "job-1";
             TuningCells.FinalObjectiveValue :=
               TuningCells.Finite (5 # 1) |} ];
  Part4.output_notebook := fun _ => inr tt;
  Part4.tuning_ranges := fun _ _ =>
    inr [("epochs", None); ("dropout_rate", None)];
  Part4.HoverTool := fun _ _ => inr tt;
  Part4.bokeh_figure := fun _ _ _ title _ _ _ _ _ => inr title;
  Part4.circle := fun _ _ _ _ _ => inr tt;
  Part4.Column := fun _ figures => inr (length figures);
  Part4.bokeh_show := fun _ _ => inr tt;
  Part4.deploy := fun _ _ _ _ => inr tt;
  Part4.predict := fun _ _ value _ => inr value;
  Part4.delete_endpoint := fun _ _ => inr tt
|}.

End Examples.

(** * Properties *)

(** ** The exception monad and the frame operations *)

Module PyFacts.
Import Py Pandas.

Lemma bind_inr {A B} (m : Result A) (k : A -> Result B) (b : B) :
  Py.bind m k = inr b -> exists a, m = inr a /\ k a = inr b.
Proof. destruct m as [e|a]; simpl; [discriminate | eauto]. Qed.

Lemma bind_inl {A B} (m : Result A) (k : A -> Result B) (e : Exn) :
  m = inl e -> Py.bind m k = inl e.
Proof. intros ->. reflexivity. Qed.

Lemma zip_length {A B} (xs : list A) (ys : list B) :
  length (zip xs ys) = Nat.min (length xs) (length ys).
Proof.
  revert ys. induction xs as [|x xs IH]; intros [|y ys]; simpl; auto.
Qed.

Lemma zip_snd {A B} (xs : list A) (ys : list B) :
  length ys = length xs -> map snd (zip xs ys) = ys.
Proof.
  revert ys. induction xs as [|x xs IH]; intros [|y ys] H; simpl in *;
    try discriminate; auto.
  f_equal. apply IH. lia.
Qed.

Lemma zip_fst {A B} (xs : list A) (ys : list B) :
  length ys = length xs -> map fst (zip xs ys) = xs.
Proof.
  revert ys. induction xs as [|x xs IH]; intros [|y ys] H; simpl in *;
    try discriminate; auto.
  f_equal. apply IH. lia.
Qed.

Section Frame.
Context {V : Type}.

Lemma values_from_dict (d : dict V) (name : string) :
  values (from_dict_index d name) = map (fun kv => [snd kv]) d.
Proof.
  unfold values, from_dict_index, keys, dict_values. simpl.
  apply list_eq. intros i.
  rewrite list_lookup_imap, !list_lookup_fmap.
  destruct (d !! i) as [[k v]|]; reflexivity.
Qed.

Lemma as_column_singletons (d : dict V) :
  as_column (map (fun kv => [snd kv]) d) = Some (dict_values d).
Proof.
  induction d as [|[k v] d IH]; simpl; [reflexivity|].
  rewrite IH. reflexivity.
Qed.

(** Appending the values of a one-column frame of the right height
    under a fresh label. *)
Lemma insert_at_end (df : DataFrame V) (d : dict V) (name : string) :
  length d = length (index df) ->
  name ∉ column_labels df ->
  insert df (length (columns df)) name (values (from_dict_index d name))
  = inr {| index := index df;
           columns := columns df ++ [(name, dict_values d)] |}.
Proof.
  intros Hlen Hfresh. unfold insert.
  rewrite bool_decide_eq_false_2 by exact Hfresh.
  rewrite values_from_dict, length_map, Hlen, Nat.eqb_refl. simpl.
  rewrite as_column_singletons, Nat.leb_refl.
  rewrite firstn_all, skipn_all. reflexivity.
Qed.

Lemma insert_duplicate (df : DataFrame V) loc name value :
  name ∈ column_labels df ->
  exists e, insert df loc name value = inl e.
Proof.
  intros Hin. unfold insert.
  rewrite bool_decide_eq_true_2 by exact Hin. eauto.
Qed.

End Frame.

End PyFacts.

(** ** The model comparison helper *)

Module ComparisonFacts.
Import Py Pandas GluonTS Comparison PyFacts.

Section WithAPI.
Context `{api : API}.

(** One iteration of the loop, in terms of the predictor's metrics. *)
Lemma evaluat_loop_cons data num_samples (df : DataFrame Metric)
    predictor predictor_name rest :
  evaluat_loop data num_samples df ((predictor, predictor_name) :: rest)
  = (m <- evaluate data num_samples predictor ;;
     df' <- (if empty df then ret (copy (from_dict_index m predictor_name))
             else insert df (length (columns df)) predictor_name
                    (values (from_dict_index m predictor_name))) ;;
     evaluat_loop data num_samples df' rest).
Proof.
  unfold evaluate. simpl.
  destruct (make_evaluation_predictions data predictor num_samples)
    as [origin|[forecast_it ts_it]]; simpl; [reflexivity|].
  destruct (Evaluator quantiles ts_it forecast_it (length data))
    as [origin|[agg item_metrics]]; reflexivity.
Qed.

(** A failure of [evaluate] is a failure of one of its two library
    calls. *)
Lemma evaluate_raises data num_samples predictor e :
  evaluate data num_samples predictor = inl e ->
  exists origin, e = LibraryError origin /\
    (make_evaluation_predictions data predictor num_samples = inl origin \/
     exists forecast_it ts_it,
       make_evaluation_predictions data predictor num_samples
         = inr (forecast_it, ts_it) /\
       Evaluator quantiles ts_it forecast_it (length data) = inl origin).
Proof.
  unfold evaluate.
  destruct (make_evaluation_predictions data predictor num_samples)
    as [origin|[forecast_it ts_it]] eqn:Hmep; simpl.
  - intros [= <-]. eauto.
  - destruct (Evaluator quantiles ts_it forecast_it (length data))
      as [origin|res] eqn:Hev; simpl; [|discriminate].
    intros [= <-]. exists origin. split; [reflexivity|]. right. eauto.
Qed.

(** The loop on a frame that already has rows: every further predictor
    adds one column at the end. *)
Lemma evaluat_loop_appends data num_samples :
  forall (pairs : list (Predictor * string)) (metrics : list (dict Metric))
         (df : DataFrame Metric),
    empty df = false ->
    Forall2 (fun pn m => evaluate data num_samples (fst pn) = inr m
                         /\ length m = length (index df)) pairs metrics ->
    NoDup (column_labels df ++ map snd pairs) ->
    evaluat_loop data num_samples df pairs
    = inr {| index := index df;
             columns := columns df
                        ++ zip (map snd pairs) (map dict_values metrics) |}.
Proof.
  induction pairs as [|[p nm] pairs IH]; intros metrics df Hne Hall Hnd.
  - inversion Hall; subst. simpl. rewrite app_nil_r. destruct df; reflexivity.
  - inversion Hall as [|? m ? metrics' [Hev Hlen] Hrest]; subst.
    simpl in Hev. rewrite evaluat_loop_cons, Hev. simpl. rewrite Hne.
    rewrite insert_at_end; [simpl| exact Hlen |].
    + rewrite IH with (metrics := metrics').
      * simpl. rewrite <- app_assoc. reflexivity.
      * unfold empty in *. simpl.
        destruct (index df); [discriminate|].
        destruct (columns df); [discriminate|reflexivity].
      * exact Hrest.
      * unfold column_labels in *. simpl in *.
        rewrite map_app. simpl. rewrite <- app_assoc. exact Hnd.
    + simpl in Hnd. apply NoDup_app in Hnd as (_ & Hdisj & _).
      intros Hin. apply (Hdisj nm Hin). simpl. left.
Qed.

(** What a successful [insert] at the end has done. *)
Lemma insert_at_end_inr (df df' : DataFrame Metric) (m : dict Metric) name :
  insert df (length (columns df)) name (values (from_dict_index m name))
    = inr df' ->
  df' = {| index := index df;
           columns := columns df ++ [(name, dict_values m)] |}.
Proof.
  unfold insert. rewrite values_from_dict, as_column_singletons, Nat.leb_refl.
  rewrite firstn_all, skipn_all.
  destruct (bool_decide _); [discriminate|].
  destruct (negb _); [discriminate|].
  intros [= <-]. reflexivity.
Qed.

Lemma empty_keeps_false (df : DataFrame Metric) (cols : list (string * list Metric)) :
  empty df = false ->
  empty {| index := index df; columns := columns df ++ cols |} = false.
Proof.
  unfold empty. simpl. destruct (index df); [discriminate|].
  destruct (columns df); [discriminate|reflexivity].
Qed.

(** A run of the loop that returns, read backwards: every predictor was
    evaluated and its values were appended as they came. *)
Lemma evaluat_loop_inr data num_samples :
  forall (pairs : list (Predictor * string)) (df df' : DataFrame Metric),
    empty df = false ->
    evaluat_loop data num_samples df pairs = inr df' ->
    exists metrics : list (dict Metric),
      Forall2 (fun pn m => evaluate data num_samples (fst pn) = inr m)
        pairs metrics /\
      index df' = index df /\
      columns df' = columns df
                    ++ zip (map snd pairs) (map dict_values metrics).
Proof.
  induction pairs as [|[p nm] pairs IH]; intros df df' Hne Hrun.
  - simpl in Hrun. injection Hrun as <-. exists []. simpl.
    rewrite app_nil_r. auto.
  - rewrite evaluat_loop_cons in Hrun.
    apply bind_inr in Hrun as (m & Hev & Hrun).
    apply bind_inr in Hrun as (df1 & Hins & Hrun).
    rewrite Hne in Hins. apply insert_at_end_inr in Hins. subst df1.
    apply IH in Hrun as (metrics & Hall & Hidx & Hcols);
      [|apply empty_keeps_false; exact Hne].
    exists (m :: metrics). simpl in *. repeat split.
    + constructor; assumption.
    + exact Hidx.
    + rewrite Hcols, <- app_assoc. reflexivity.
Qed.

(** The loop stops at the first predictor whose evaluation raises. *)
Lemma evaluat_loop_raises data num_samples :
  forall (pairs : list (Predictor * string)) (df : DataFrame Metric) p nm e,
    (p, nm) ∈ pairs ->
    evaluate data num_samples p = inl e ->
    exists e', evaluat_loop data num_samples df pairs = inl e'.
Proof.
  induction pairs as [|[q nq] pairs IH]; intros df p nm e Hin Hev.
  - inversion Hin.
  - rewrite evaluat_loop_cons.
    destruct (evaluate data num_samples q) as [e1|m] eqn:Hq; simpl; [eauto|].
    match goal with |- context [Py.bind ?step _] => destruct step as [e2|df1] end;
      simpl; [eauto|].
    apply elem_of_cons in Hin as [Heq|Hin].
    + injection Heq as -> ->. congruence.
    + eapply IH; eassumption.
Qed.

Lemma iteration_eq data num_samples (df : DataFrame Metric) p nm :
  iteration data num_samples df p nm
  = (m <- evaluate data num_samples p ;;
     if empty df then ret (copy (from_dict_index m nm))
     else insert df (length (columns df)) nm
            (values (from_dict_index m nm))).
Proof.
  unfold iteration. rewrite evaluat_loop_cons.
  destruct (evaluate data num_samples p) as [e|m]; simpl; [reflexivity|].
  match goal with |- context [Py.bind ?step _] => destruct step end;
    reflexivity.
Qed.

Lemma evaluat_loop_step data num_samples (df : DataFrame Metric) p nm rest :
  evaluat_loop data num_samples df ((p, nm) :: rest)
  = (df' <- iteration data num_samples df p nm ;;
     evaluat_loop data num_samples df' rest).
Proof.
  rewrite iteration_eq, evaluat_loop_cons.
  destruct (evaluate data num_samples p) as [e|m]; reflexivity.
Qed.

Lemma evaluat_loop_app data num_samples :
  forall (pre post : list (Predictor * string)) (df : DataFrame Metric),
    evaluat_loop data num_samples df (pre ++ post)
    = (df' <- evaluat_loop data num_samples df pre ;;
       evaluat_loop data num_samples df' post).
Proof.
  induction pre as [|[p nm] pre IH]; intros post df; [reflexivity|].
  change (((p, nm) :: pre) ++ post) with ((p, nm) :: (pre ++ post)).
  rewrite !evaluat_loop_cons.
  destruct (evaluate data num_samples p) as [e|m]; simpl; [reflexivity|].
  match goal with |- context [Py.bind ?step _] => destruct step as [e2|df1] end;
    simpl; [reflexivity|].
  apply IH.
Qed.

(** A failure in the iteration that follows [pre], of GluonTS or of
    pandas, is the result of the whole loop. *)
Lemma evaluat_loop_propagates data num_samples
    (pre post : list (Predictor * string)) (df df_mid : DataFrame Metric)
    p nm e :
  evaluat_loop data num_samples df pre = inr df_mid ->
  iteration data num_samples df_mid p nm = inl e ->
  evaluat_loop data num_samples df (pre ++ (p, nm) :: post) = inl e.
Proof.
  intros Hpre Hit.
  rewrite evaluat_loop_app, Hpre.
  change (evaluat_loop data num_samples df_mid ((p, nm) :: post) = inl e).
  rewrite evaluat_loop_step, Hit. reflexivity.
Qed.


Lemma Forall2_zip_fst {A B C} (P : A -> C -> Prop) :
  forall (xs : list A) (ys : list B) (zs : list C),
    length ys = length xs ->
    Forall2 P xs zs ->
    Forall2 (fun xy z => P (fst xy) z) (zip xs ys) zs.
Proof.
  induction xs as [|x xs IH]; intros [|y ys] zs Hlen Hall; simpl in *;
    try discriminate; inversion Hall; subst; constructor; auto.
Qed.

(** The table of a call in which every evaluation succeeds with [rows]
    metrics. *)
Lemma evaluat_models_table data num_samples (rows : nat) :
  forall (predictors : list Predictor) (predictor_names : list string)
         (metrics : list (dict Metric)),
    length predictor_names = length predictors ->
    NoDup predictor_names ->
    (0 < rows)%nat ->
    Forall2 (fun p m => evaluate data num_samples p = inr m
                        /\ length m = rows) predictors metrics ->
    evaluat_models_from_dict data predictors predictor_names num_samples
    = inr {| index := match metrics with [] => [] | m :: _ => keys m end;
             columns := zip predictor_names (map dict_values metrics) |}.
Proof.
  intros predictors names metrics Hlen Hnd Hrows Hall.
  unfold evaluat_models_from_dict.
  destruct Hall as [|p m ps ms [Hev Hm] Hall];
    [destruct names; [reflexivity|discriminate]|].
  destruct names as [|nm names]; [discriminate|].
  simpl in Hlen. injection Hlen as Hlen.
  simpl zip at 1. rewrite evaluat_loop_cons, Hev. simpl.
  rewrite evaluat_loop_appends with (metrics := ms); simpl.
  - rewrite zip_snd by exact Hlen. reflexivity.
  - unfold empty, keys. simpl. destruct m; [simpl in Hm; lia|reflexivity].
  - apply (Forall2_zip_fst
             (fun q mq => evaluate data num_samples q = inr mq
                          /\ length mq = length (keys m))); [exact Hlen|].
    eapply Forall2_impl; [exact Hall|]. simpl.
    intros q mq [Hq Hmq]. split; [exact Hq|].
    unfold keys. rewrite length_map. congruence.
  - rewrite zip_snd by exact Hlen. exact Hnd.
Qed.

Lemma zip_lookup {A B} :
  forall (xs : list A) (ys : list B) i x y,
    xs !! i = Some x -> ys !! i = Some y -> zip xs ys !! i = Some (x, y).
Proof.
  induction xs as [|x0 xs IH]; intros [|y0 ys] [|i] x y Hx Hy;
    simpl in *; try discriminate.
  - congruence.
  - apply IH; assumption.
Qed.

(** C1, as amended: when [predictor_names] has as many entries as
    [predictors], the names are pairwise distinct and every evaluation
    returns the same positive number of metrics, the call returns a frame
    with exactly one column per input predictor, the columns in the order
    of the predictors, each labelled with the corresponding name and
    holding that predictor's metric values. *)
Theorem one_column_per_predictor data (predictors : list Predictor)
    (predictor_names : list string) num_samples
    (metrics : list (dict Metric)) (rows : nat) :
  length predictor_names = length predictors ->
  NoDup predictor_names ->
  (0 < rows)%nat ->
  Forall2 (fun p m => evaluate data num_samples p = inr m
                      /\ length m = rows) predictors metrics ->
  exists df,
    evaluat_models_from_dict data predictors predictor_names num_samples
      = inr df /\
    length (columns df) = length predictors /\
    column_labels df = predictor_names /\
    forall i p, predictors !! i = Some p ->
      exists name m,
        predictor_names !! i = Some name /\
        evaluate data num_samples p = inr m /\
        columns df !! i = Some (name, dict_values m).
Proof.
  intros Hlen Hnd Hrows Hall.
  eexists. split; [eapply evaluat_models_table; eassumption|].
  pose proof (Forall2_length _ _ _ Hall) as Hms. simpl.
  repeat split.
  - rewrite zip_length, length_map. lia.
  - unfold column_labels. simpl. apply zip_fst. rewrite length_map. lia.
  - intros i p Hp.
    destruct (Forall2_lookup_l _ _ _ _ _ Hall Hp) as (m & Hm & Hev & _).
    destruct (lookup_lt_is_Some_2 predictor_names i) as [name Hname].
    { rewrite Hlen. eapply lookup_lt_Some. exact Hp. }
    exists name, m. repeat split; [exact Hname|exact Hev|].
    apply zip_lookup; [exact Hname|].
    rewrite list_lookup_fmap, Hm. reflexivity.
Qed.

(** C4: when the evaluation of a predictor the loop reaches raises, the
    call raises: it returns no table, so none with the columns of the
    predictors evaluated before. *)
Theorem no_partial_table data (predictors : list Predictor)
    (predictor_names : list string) num_samples p name e :
  (p, name) ∈ zip predictors predictor_names ->
  evaluate data num_samples p = inl e ->
  (exists e',
     evaluat_models_from_dict data predictors predictor_names num_samples
       = inl e') /\
  forall df,
    evaluat_models_from_dict data predictors predictor_names num_samples
      <> inr df.
Proof.
  intros Hin Hev.
  destruct (evaluat_loop_raises data num_samples _ DataFrame_new _ _ _ Hin Hev)
    as [e' He'].
  unfold evaluat_models_from_dict. rewrite He'.
  split; [eauto | discriminate].
Qed.

(** C10: in a returned table the row labels are the metric names of the
    first evaluated predictor, in its order, and every column holds the
    metric values of its predictor in the order that predictor reported
    them: the cells meet the rows by position, whatever their names. *)
Theorem columns_by_position data (predictors : list Predictor)
    (predictor_names : list string) num_samples (df : DataFrame Metric)
    p1 name1 rest (m1 : dict Metric) :
  evaluat_models_from_dict data predictors predictor_names num_samples
    = inr df ->
  zip predictors predictor_names = (p1, name1) :: rest ->
  evaluate data num_samples p1 = inr m1 ->
  m1 <> [] ->
  index df = keys m1 /\
  exists metrics : list (dict Metric),
    Forall2 (fun pn m => evaluate data num_samples (fst pn) = inr m)
      rest metrics /\
    columns df = (name1, dict_values m1)
                 :: zip (map snd rest) (map dict_values metrics).
Proof.
  unfold evaluat_models_from_dict. intros Hrun Hzip Hev Hne.
  rewrite Hzip, evaluat_loop_cons, Hev in Hrun. simpl in Hrun.
  apply evaluat_loop_inr in Hrun as (metrics & Hall & Hidx & Hcols).
  - simpl in *. eauto.
  - unfold empty, copy, from_dict_index, keys. simpl.
    destruct m1; [contradiction|reflexivity].
Qed.

End WithAPI.

(** The call of the notebook's last cell on the stand-in library. *)
Lemma one_column_per_predictor_witness :
  exists df,
    evaluat_models_from_dict (api := Examples.toy_api) Examples.toy_data
      [1; 2; 3] ["deepar"; "mlp"; "naive predictor"] 100 = inr df /\
    length (columns df) = 3 /\
    column_labels df = ["deepar"; "mlp"; "naive predictor"].
Proof.
  destruct (one_column_per_predictor (api := Examples.toy_api)
              Examples.toy_data [1; 2; 3]
              ["deepar"; "mlp"; "naive predictor"] 100
              [[("MSE", 1%Z); ("RMSE", 1%Z)]; [("MSE", 4%Z); ("RMSE", 2%Z)];
               [("RMSE", 3%Z); ("MSE", 9%Z)]] 2)
    as (df & Hrun & Hlen & Hlabels & _).
  - reflexivity.
  - apply (bool_decide_unpack (NoDup _)). vm_compute. exact I.
  - lia.
  - repeat (constructor; [split; reflexivity|]). constructor.
  - exists df. auto.
Defined.

(** C1 as stated fails: [zip] stops at the shorter list, so two predictors
    and one name give a table with one column. *)
Lemma fewer_names_fewer_columns :
  exists df,
    evaluat_models_from_dict (api := Examples.toy_api) Examples.toy_data
      [1; 2] ["deepar"] 100 = inr df /\
    length (columns df) <> length [1; 2].
Proof. eexists. split; [reflexivity|]. simpl. lia. Qed.

(** Two predictors under one name: [insert] refuses the second column. *)
Lemma same_name_raises :
  evaluat_models_from_dict (api := Examples.toy_api) Examples.toy_data
    [1; 2] ["deepar"; "deepar"] 100
  = inl (ValueError "cannot insert deepar, already exists").
Proof. reflexivity. Qed.

Lemma no_partial_table_witness :
  (exists e',
     evaluat_models_from_dict (api := Examples.toy_api) Examples.toy_data
       [1; 0; 2] ["deepar"; "mlp"; "naive predictor"] 100 = inl e') /\
  forall df,
    evaluat_models_from_dict (api := Examples.toy_api) Examples.toy_data
      [1; 0; 2] ["deepar"; "mlp"; "naive predictor"] 100 <> inr df.
Proof.
  apply (no_partial_table (api := Examples.toy_api) Examples.toy_data
           [1; 0; 2] ["deepar"; "mlp"; "naive predictor"] 100 0 "mlp"
           (LibraryError "MXNetError")).
  - simpl. rewrite !elem_of_cons. auto.
  - reflexivity.
Defined.

(** Predictor 3 reports RMSE first: its RMSE lands in the row labelled MSE
    by predictor 1. *)
Lemma columns_by_position_witness :
  exists df,
    evaluat_models_from_dict (api := Examples.toy_api) Examples.toy_data
      [1; 3] ["deepar"; "naive predictor"] 100 = inr df /\
    index df = ["MSE"; "RMSE"] /\
    columns df = [("deepar", [1; 1]%Z); ("naive predictor", [3; 9]%Z)].
Proof.
  eexists. split; [reflexivity|].
  destruct (columns_by_position (api := Examples.toy_api) Examples.toy_data
              [1; 3] ["deepar"; "naive predictor"] 100 _ 1 "deepar"
              [(3, "naive predictor")] [("MSE", 1%Z); ("RMSE", 1%Z)]
              eq_refl eq_refl eq_refl)
    as (Hidx & _).
  - discriminate.
  - split; [exact Hidx | reflexivity].
Defined.

End ComparisonFacts.

(** ** The plotting helper *)

Module PlottingFacts.
Import Py GluonTS Plotting.

Section WithLibraries.
Context `{api : API} `{plt : Matplotlib}.
Variable float_str : Q -> string.


Lemma last_n_length {A} (n : nat) (l : list A) :
  length (last_n n l) = Nat.min n (length l).
Proof. unfold last_n. rewrite length_drop. lia. Qed.

Lemma last_n_suffix {A} (n : nat) (l : list A) :
  exists front, l = front ++ last_n n l.
Proof. exists (take (length l - n) l). unfold last_n. symmetry. apply take_drop. Qed.

(** A suffix of a list is fixed by its length. *)
Lemma suffix_by_length {A} (l front back : list A) :
  l = front ++ back ->
  back = drop (length l - length back) l.
Proof.
  intros ->. rewrite length_app.
  replace (length front + length back - length back)%nat
    with (length front) by lia.
  rewrite drop_app_length. reflexivity.
Qed.

(** C2: on a dataset with at least one series, and when the library calls
    return, [plot_forecast] asks [make_evaluation_predictions] for
    forecasts with 100 samples, then makes one figure and plots on its
    axes the end of the first series (its last 336 values, all of them
    when it has fewer) and the first forecast with the 50% and 90%
    intervals (the median is the forecast's own line), then grid, legend
    and show.  These nine calls are all it makes: nothing of a second
    series or forecast is plotted. *)
Theorem plot_forecast_renders predictor (entry : DataEntry)
    (rest : ListDataset) (log : Log) forecasts tss fig ax :
  mep_contract ->
  make_evaluation_predictions (entry :: rest) predictor 100
    = inr (inr forecasts, inr tss) ->
  subplots 1 1 (10 # 1, 7 # 1)%Q = inr (fig, ax) ->
  series_plot (last_n 336 (target entry)) ax = inr tt ->
  (forall f, forecast_plot f [50 # 1; 90 # 1]%Q "g" = inr tt) ->
  grid "both" = inr tt ->
  legend (legend_labels float_str) "upper left" = inr tt ->
  show = inr tt ->
  exists forecast0 front plotted,
    forecasts !! 0 = Some forecast0 /\
    target entry = front ++ plotted /\
    length plotted = Nat.min 336 (length (target entry)) /\
    plot_forecast float_str predictor (entry :: rest) log
    = (inr tt,
       log ++ map (fun c => (c, None))
                [CallMakeEvaluationPredictions (entry :: rest) predictor 100;
                 CallSubplots 1 1 (10 # 1, 7 # 1)%Q;
                 CallListTs;
                 CallSeriesPlot plotted ax;
                 CallListForecasts;
                 CallForecastPlot forecast0 [50 # 1; 90 # 1]%Q "g";
                 CallGrid "both";
                 CallLegend
                   ["observations"; "median prediction";
                    (float_str (90 # 1) ++ "% prediction interval")%string;
                    (float_str (50 # 1) ++ "% prediction interval")%string]
                   "upper left";
                 CallShow]).
Proof.
  intros Hc Hmep Hsub Hts Hfc Hgrid Hleg Hshow.
  destruct (Hc _ _ _ _ _ Hmep) as [Htss Hfs].
  specialize (Htss tss eq_refl). specialize (Hfs forecasts eq_refl).
  destruct forecasts as [|forecast0 fs]; [discriminate|].
  destruct (last_n_suffix 336 (target entry)) as [front Hfront].
  exists forecast0, front, (last_n 336 (target entry)).
  split; [reflexivity|]. split; [exact Hfront|].
  split; [apply last_n_length|].
  subst tss. unfold plot_forecast, sbind, call, slift.
  rewrite Hmep. simpl. rewrite Hsub. simpl. rewrite Hts. simpl.
  rewrite Hfc. simpl. rewrite Hgrid. simpl.
  fold (legend_labels float_str). rewrite Hleg. simpl. rewrite Hshow. simpl.
  rewrite <- !app_assoc. reflexivity.
Qed.

(** The run on the empty dataset, up to the subscript. *)
Lemma plot_forecast_empty predictor (log : Log) forecast_it tss figax :
  mep_contract ->
  make_evaluation_predictions [] predictor 100 = inr (forecast_it, inr tss) ->
  subplots 1 1 (10 # 1, 7 # 1)%Q = inr figax ->
  fst (plot_forecast float_str predictor [] log) = inl IndexError.
Proof.
  intros Hc Hmep Hsub.
  destruct (Hc _ _ _ _ _ Hmep) as [Htss _].
  specialize (Htss tss eq_refl). subst tss.
  unfold plot_forecast, sbind, call, slift.
  rewrite Hmep. simpl. rewrite Hsub. destruct figax. reflexivity.
Qed.

(** With a series in the dataset neither subscript fails. *)
Lemma plot_forecast_no_index_error predictor (test_data : ListDataset)
    (log : Log) :
  mep_contract ->
  test_data <> [] ->
  fst (plot_forecast float_str predictor test_data log) <> inl IndexError.
Proof.
  intros Hc Hne.
  unfold plot_forecast, sbind, call, slift.
  destruct (make_evaluation_predictions test_data predictor 100)
    as [o|[forecast_it ts_it]] eqn:Hmep; simpl; [discriminate|].
  destruct (Hc _ _ _ _ _ Hmep) as [Htss Hfs].
  destruct (subplots 1 1 (10 # 1, 7 # 1)%Q) as [o|[fig ax]]; simpl;
    [discriminate|].
  destruct ts_it as [o|tss]; simpl; [discriminate|].
  rewrite (Htss tss eq_refl).
  destruct test_data as [|entry rest]; [contradiction|]. simpl.
  destruct (series_plot (last_n 336 (target entry)) ax) as [o|[]]; simpl;
    [discriminate|].
  destruct forecast_it as [o|forecasts]; simpl; [discriminate|].
  specialize (Hfs forecasts eq_refl).
  destruct forecasts as [|forecast0 fs]; [discriminate|]. simpl.
  destruct (forecast_plot forecast0 [50 # 1; 90 # 1]%Q "g") as [o|[]]; simpl;
    [discriminate|].
  destruct (grid "both") as [o|[]]; simpl; [discriminate|].
  match goal with |- context [legend ?l ?loc] =>
    destruct (legend l loc) as [o|[]]; simpl; [discriminate|] end.
  destruct show as [o|[]]; simpl; discriminate.
Qed.


(** C8: [plot_forecast] takes element 0 of the series and of the forecasts
    without a check: on the empty dataset the call ends in [IndexError]
    (once the library has handed back the iterators and the axes), and on
    a dataset with at least one series it never does. *)
Theorem plot_forecast_needs_series :
  mep_contract ->
  (forall predictor (log : Log) forecast_it tss figax,
     make_evaluation_predictions [] predictor 100
       = inr (forecast_it, inr tss) ->
     subplots 1 1 (10 # 1, 7 # 1)%Q = inr figax ->
     fst (plot_forecast float_str predictor [] log) = inl IndexError) /\
  (forall predictor (test_data : ListDataset) (log : Log),
     test_data <> [] ->
     fst (plot_forecast float_str predictor test_data log)
       <> inl IndexError).
Proof.
  intros Hc. split.
  - intros. eapply plot_forecast_empty; eassumption.
  - intros. apply plot_forecast_no_index_error; assumption.
Qed.

End WithLibraries.

(** The stand-in library keeps the contract of
    [make_evaluation_predictions]. *)
Lemma toy_contract : mep_contract (api := Examples.toy_api).
Proof.
  intros dataset predictor num_samples forecast_it ts_it. simpl.
  unfold Examples.toy_predictions.
  destruct predictor; [discriminate|].
  intros [= <- <-]. split.
  - intros tss [= <-]. reflexivity.
  - intros forecasts [= <-]. apply length_map.
Qed.

(** The stand-in that tells the series apart keeps it too. *)
Lemma series_contract : mep_contract (api := Examples.series_api).
Proof.
  intros dataset predictor num_samples forecast_it ts_it. simpl.
  unfold Examples.series_predictions.
  intros [= <- <-]. split.
  - intros tss [= <-]. reflexivity.
  - intros forecasts [= <-]. apply length_map.
Qed.

Lemma plot_forecast_renders_witness :
  plot_forecast (api := Examples.series_api) (plt := Examples.toy_plt)
    Examples.toy_float_str 1 Examples.two_series []
  = (inr tt,
     map (fun c => (c, None))
       [CallMakeEvaluationPredictions (api := Examples.series_api)
          (plt := Examples.toy_plt) Examples.two_series 1 100;
        CallSubplots 1 1 (10 # 1, 7 # 1)%Q;
        CallListTs;
        CallSeriesPlot (api := Examples.series_api)
          (plt := Examples.toy_plt) (map Z.of_nat (seq 64 336)) tt;
        CallListForecasts;
        CallForecastPlot (api := Examples.series_api)
          (plt := Examples.toy_plt) 400 [50 # 1; 90 # 1]%Q "g";
        CallGrid "both";
        CallLegend
          ["observations"; "median prediction"; "90.0% prediction interval";
           "50.0% prediction interval"] "upper left";
        CallShow]).
Proof.
  destruct (plot_forecast_renders (api := Examples.series_api)
              (plt := Examples.toy_plt) Examples.toy_float_str 1
              {| start := "2015-02-26 21:42:53";
                 target := map Z.of_nat (seq 0 400) |}
              [ {| start := "2015-02-26 21:42:53"; target := [7; 8; 9]%Z |} ]
              [] [400; 3] [map Z.of_nat (seq 0 400); [7; 8; 9]%Z] tt tt
              series_contract eq_refl eq_refl eq_refl
              (fun _ => eq_refl) eq_refl eq_refl eq_refl)
    as (forecast0 & front & plotted & Hf & Hsplit & Hlen & Hrun).
  injection Hf as <-.
  apply suffix_by_length in Hsplit. rewrite Hlen in Hsplit.
  subst plotted. exact Hrun.
Defined.

Lemma plot_forecast_needs_series_witness :
  fst (plot_forecast (api := Examples.toy_api) (plt := Examples.toy_plt)
         Examples.toy_float_str 1 [] []) = inl IndexError /\
  fst (plot_forecast (api := Examples.toy_api) (plt := Examples.toy_plt)
         Examples.toy_float_str 1 Examples.toy_data []) <> inl IndexError.
Proof.
  destruct (plot_forecast_needs_series (api := Examples.toy_api)
              (plt := Examples.toy_plt) Examples.toy_float_str toy_contract)
    as [Hempty Hsome].
  split.
  - apply (Hempty 1 [] (inr []) [] (tt, tt)); reflexivity.
  - apply Hsome. discriminate.
Defined.

End PlottingFacts.

(** ** The train and test data *)

Module DatasetsFacts.
Import Py Pandas GluonTS Datasets.

(** The order on labels is transitive. *)
Lemma label_le_trans (a b c : string) :
  label_le a b = true -> label_le b c = true -> label_le a c = true.
Proof.
  unfold label_le, String.leb.
  revert b c. induction a as [|x a IH]; intros [|y b] [|z c]; simpl;
    try reflexivity; try discriminate.
  unfold Ascii.compare.
  destruct (N.compare_spec (N_of_ascii x) (N_of_ascii y)) as [Hxy|Hxy|Hxy];
    destruct (N.compare_spec (N_of_ascii y) (N_of_ascii z)) as [Hyz|Hyz|Hyz];
    destruct (N.compare_spec (N_of_ascii x) (N_of_ascii z)) as [Hxz|Hxz|Hxz];
    try reflexivity; try discriminate; try lia.
  intros Hab Hbc. eapply IH; eassumption.
Qed.

Lemma searchsorted_right_mono (idx : list string) (l1 l2 : string) :
  label_le l1 l2 = true ->
  (searchsorted_right idx l1 <= searchsorted_right idx l2)%nat.
Proof.
  intros Hle. induction idx as [|x idx IH]; simpl; [lia|].
  destruct (label_le x l1) eqn:Hx1; [|lia].
  rewrite (label_le_trans _ _ _ Hx1 Hle). lia.
Qed.

Lemma take_prefix_le {A} (l : list A) (n1 n2 : nat) :
  (n1 <= n2)%nat -> take n1 l `prefix_of` take n2 l.
Proof.
  intros Hle. exists (take (n2 - n1) (drop n1 l)).
  rewrite take_take_drop. f_equal. lia.
Qed.

Lemma monotonic_tail (x : string) (idx : list string) :
  is_monotonic_increasing (x :: idx) = true ->
  is_monotonic_increasing idx = true.
Proof.
  simpl. destruct idx as [|y idx]; [reflexivity|].
  intros H. apply andb_prop in H as [_ H]. exact H.
Qed.

(** On an increasing index the head is at most every later label. *)
Lemma monotonic_head_le (x : string) (idx : list string) :
  is_monotonic_increasing (x :: idx) = true ->
  forall y, y ∈ idx -> label_le x y = true.
Proof.
  revert x. induction idx as [|z idx IH]; intros x Hmono y Hy.
  - inversion Hy.
  - simpl in Hmono. apply andb_prop in Hmono as [Hxz Hrest].
    apply elem_of_cons in Hy as [->|Hy]; [exact Hxz|].
    eapply label_le_trans; [exact Hxz|]. apply IH; assumption.
Qed.

(** Rows above a label that is itself above the bound are all left out. *)
Lemma filter_above (df : list (string * Z)) (x label : string) :
  label_le x label = false ->
  (forall y, y ∈ table_index df -> label_le x y = true) ->
  List.filter (fun r => label_le (fst r) label) df = [].
Proof.
  intros Hx. unfold table_index.
  induction df as [|[y w] df IH]; intros Hall; [reflexivity|]. simpl.
  assert (Hy : label_le y label = false).
  { destruct (label_le y label) eqn:Hy; [|reflexivity].
    rewrite <- Hx. symmetry. eapply label_le_trans; [|exact Hy].
    apply Hall. simpl. apply elem_of_cons. auto. }
  rewrite Hy. apply IH. intros z Hz. apply Hall. simpl.
  apply elem_of_cons. auto.
Qed.

(** On an increasing index the slice up to a label holds the rows whose
    label is at most that label. *)
Lemma take_searchsorted_right (df : list (string * Z)) (label : string) :
  is_monotonic_increasing (table_index df) = true ->
  take (searchsorted_right (table_index df) label) df
  = List.filter (fun r => label_le (fst r) label) df.
Proof.
  unfold table_index. induction df as [|[x v] df IH]; intros Hmono;
    [reflexivity|].
  simpl. destruct (label_le x label) eqn:Hx.
  - simpl. f_equal. apply IH. eapply monotonic_tail. exact Hmono.
  - simpl. symmetry. eapply filter_above; [exact Hx|].
    apply monotonic_head_le. exact Hmono.
Qed.

Lemma train_end_le_test_end : label_le train_end test_end = true.
Proof. reflexivity. Qed.

(** [df.value[:label]] on an increasing index. *)
Lemma value_to_label_sorted (df : list (string * Z)) (label : string) :
  is_monotonic_increasing (table_index df) = true ->
  value_to_label df label
  = inr (map snd (List.filter (fun r => label_le (fst r) label) df)).
Proof.
  intros Hmono. unfold value_to_label, get_slice_bound_right.
  rewrite Hmono. simpl. unfold table_value.
  rewrite <- take_searchsorted_right by exact Hmono.
  f_equal. symmetry. apply (fmap_take snd).
Qed.

Lemma rows_to_label_sorted (df : list (string * Z)) (label : string) :
  is_monotonic_increasing (table_index df) = true ->
  rows_to_label df label
  = inr (List.filter (fun r => label_le (fst r) label) df).
Proof.
  intros Hmono. unfold rows_to_label, get_slice_bound_right.
  rewrite Hmono. simpl.
  rewrite take_searchsorted_right by exact Hmono. reflexivity.
Qed.

Lemma filter_prefix (df : list (string * Z)) :
  is_monotonic_increasing (table_index df) = true ->
  List.filter (fun r => label_le (fst r) train_end) df
  `prefix_of` List.filter (fun r => label_le (fst r) test_end) df.
Proof.
  intros Hmono. rewrite <- !take_searchsorted_right by exact Hmono.
  apply take_prefix_le, searchsorted_right_mono, train_end_le_test_end.
Qed.

Lemma map_prefix {A B} (f : A -> B) (l1 l2 : list A) :
  l1 `prefix_of` l2 -> map f l1 `prefix_of` map f l2.
Proof. intros [k ->]. exists (map f k). apply map_app. Qed.

(** C5: for a loaded table with at least one row and time stamps in
    increasing order, the training and the test dataset are each a list of
    exactly one record, a start time stamp with a sequence of numbers;
    both start at the first index of the table; the training target holds
    the values up to 2015-04-05 00:00:00, the test target those up to
    2015-04-15 00:00:00, and the first is a prefix of the second.  The
    tables [train] and [test] of part 4 are cut the same way. *)
Theorem train_is_prefix_of_test (df : list (string * Z)) :
  df <> [] ->
  is_monotonic_increasing (table_index df) = true ->
  exists first train_target test_target,
    item0 (table_index df) = inr first /\
    training_data df = inr [ {| start := first; target := train_target |} ] /\
    test_data df = inr [ {| start := first; target := test_target |} ] /\
    train_target
      = map snd (List.filter (fun r => label_le (fst r) train_end) df) /\
    test_target
      = map snd (List.filter (fun r => label_le (fst r) test_end) df) /\
    train_target `prefix_of` test_target /\
    exists train_rows test_rows,
      train df = inr train_rows /\ test df = inr test_rows /\
      train_rows `prefix_of` test_rows.
Proof.
  intros Hne Hmono.
  destruct df as [|[first v] rest]; [contradiction|].
  exists first. eexists. eexists.
  unfold training_data, test_data, dataset_to, train, test.
  rewrite !value_to_label_sorted, !rows_to_label_sorted by exact Hmono.
  repeat split.
  - apply map_prefix, filter_prefix, Hmono.
  - eexists. eexists. repeat split. apply filter_prefix, Hmono.
Qed.

Lemma train_is_prefix_of_test_witness :
  training_data Examples.toy_table
  = inr [ {| start := "2015-04-04 23:52:53"; target := [57; 43]%Z |} ] /\
  test_data Examples.toy_table
  = inr [ {| start := "2015-04-04 23:52:53";
             target := [57; 43; 55; 64]%Z |} ] /\
  [57; 43]%Z `prefix_of` [57; 43; 55; 64]%Z.
Proof.
  destruct (train_is_prefix_of_test Examples.toy_table)
    as (first & tr & te & Hfirst & Htrain & Htest & Htr & Hte & Hpre & _).
  - discriminate.
  - reflexivity.
  - injection Hfirst as <-. subst tr te.
    split; [exact Htrain|]. split; [exact Htest|]. exact Hpre.
Defined.

(** Without the order the slice is not defined: on a table whose time
    stamps are shuffled and do not hold the label, pandas raises. *)
Lemma shuffled_table_raises :
  training_data [("2015-04-06 00:02:53", 1%Z); ("2015-04-04 00:02:53", 2%Z);
                 ("2015-04-05 00:02:53", 3%Z)]
  = inl (KeyError train_end).
Proof. reflexivity. Qed.

End DatasetsFacts.

(** ** Uploading to S3 *)

Module S3UploadFacts.
Import Py S3Upload.


(** One step of a run of [copy_to_s3]: unfold the helper and its
    primitives, nothing of the strings or the store. *)
Ltac run_s3 :=
  cbv beta iota zeta delta
    [copy_to_s3 upload sbind slift sraise sret item list_objects open_rb
     put_object print negb ret raise logged fst snd].

Lemma split_nonempty (sep : ascii) (s : string) : split sep s <> [].
Proof.
  destruct s as [|c s]; simpl; [discriminate|].
  destruct (Ascii.eqb c sep); [discriminate|].
  destruct (split sep s); discriminate.
Qed.

(** After the assertion the path has a third component: [split[2]] is
    there. *)
Lemma split_s3_path (s3_path : string) :
  startswith s3_path "s3://" = true ->
  exists rest bucket parts,
    s3_path = ("s3://" ++ rest)%string /\
    split "/" rest = bucket :: parts /\
    split "/" s3_path = "s3:" :: "" :: bucket :: parts.
Proof.
  intros H.
  destruct s3_path as [|c1 [|c2 [|c3 [|c4 [|c5 rest]]]]];
    cbn [startswith] in H;
    repeat match type of H with
           | (_ && _) = true =>
               let Hc := fresh "Hc" in
               apply andb_prop in H as [Hc H];
               apply Ascii.eqb_eq in Hc; subst
           end; try discriminate.
  exists rest.
  destruct (split "/" rest) as [|bucket parts] eqn:Hsplit;
    [exfalso; eapply split_nonempty; exact Hsplit|].
  exists bucket, parts. repeat split.
  simpl. rewrite Hsplit. reflexivity.
Qed.

Lemma startswith_refl (s : string) : startswith s s = true.
Proof.
  induction s as [|c s IH]; [reflexivity|]. cbn [startswith].
  rewrite Ascii.eqb_refl. exact IH.
Qed.

Lemma elem_of_keys_with_prefix (w : World) (bucket prefix key : string) :
  key ∈ keys_with_prefix w bucket prefix <->
  (exists body, objects w !! (bucket, key) = Some body) /\
  startswith key prefix = true.
Proof.
  unfold keys_with_prefix. rewrite list_elem_of_omap. split.
  - intros ([[b k] body] & Hin & Hsome).
    apply elem_of_map_to_list in Hin.
    destruct (String.eqb b bucket) eqn:Hb; simpl in Hsome; [|discriminate].
    destruct (startswith k prefix) eqn:Hk; [|discriminate].
    injection Hsome as <-. apply String.eqb_eq in Hb. subst b. eauto.
  - intros [[body Hbody] Hk]. exists ((bucket, key), body). split.
    + apply elem_of_map_to_list. exact Hbody.
    + rewrite String.eqb_refl, Hk. reflexivity.
Qed.

(** Nothing listed under a prefix: nothing stored at the key itself. *)
Lemma nothing_listed (w : World) (bucket path : string) :
  keys_with_prefix w bucket path = [] ->
  objects w !! (bucket, path) = None.
Proof.
  intros Hnil.
  destruct (objects w !! (bucket, path)) as [body|] eqn:Hbody; [|reflexivity].
  assert (Hin : path ∈ keys_with_prefix w bucket path).
  { apply elem_of_keys_with_prefix. split; [eauto|apply startswith_refl]. }
  rewrite Hnil in Hin. inversion Hin.
Qed.

Lemma something_listed (w : World) (bucket path key body : string) :
  objects w !! (bucket, key) = Some body ->
  startswith key path = true ->
  (0 <? length (keys_with_prefix w bucket path))%nat = true.
Proof.
  intros Hbody Hk.
  assert (Hin : key ∈ keys_with_prefix w bucket path).
  { apply elem_of_keys_with_prefix. eauto. }
  destruct (keys_with_prefix w bucket path); [inversion Hin|reflexivity].
Qed.

Section WithCloud.
Variable s3_bucket : string.
Variable files : gmap string string.
Variable fault : Call -> option string.

(** The run of [copy_to_s3] when something is stored under the prefix and
    [override] is off. *)
Lemma copy_to_s3_skips local_file s3_path (w : World) bucket key body :
  startswith s3_path "s3://" = true ->
  split "/" s3_path !! 2 = Some bucket ->
  fault (ListObjects bucket (join "/" (slice_from 3 (split "/" s3_path))))
    = None ->
  objects w !! (bucket, key) = Some body ->
  startswith key (join "/" (slice_from 3 (split "/" s3_path))) = true ->
  exists w',
    copy_to_s3 s3_bucket files fault local_file s3_path false w
      = (inr tt, w') /\
    objects w' = objects w /\
    log w' = log w ++ [(ListObjects bucket
                          (join "/" (slice_from 3 (split "/" s3_path))),
                        None)].
Proof.
  intros Hstart Hsplit Hfault Hbody Hkey.
  run_s3. rewrite Hstart. run_s3. rewrite Hsplit. run_s3.
  rewrite Hfault. run_s3.
  rewrite (something_listed _ _ _ _ _ Hbody Hkey). run_s3.
  eexists. repeat split.
Qed.

(** With [override] off no stored object changes, however the run ends. *)
Lemma copy_to_s3_frame local_file s3_path (w : World) b k body :
  objects w !! (b, k) = Some body ->
  objects (snd (copy_to_s3 s3_bucket files fault local_file s3_path false w))
    !! (b, k) = Some body.
Proof.
  intros Hbody. run_s3.
  destruct (startswith s3_path "s3://"); run_s3; [|exact Hbody].
  destruct (split "/" s3_path !! 2) as [bucket|]; run_s3; [|exact Hbody].
  set (path := join "/" (slice_from 3 (split "/" s3_path))).
  destruct (fault (ListObjects bucket path)); run_s3; [exact Hbody|].
  destruct (keys_with_prefix w bucket path) as [|key0 keys] eqn:Hkeys;
    [change (0 <? length (@nil string))%nat with false
    |change (0 <? length (key0 :: keys))%nat with true];
    run_s3; [|exact Hbody].
  apply nothing_listed in Hkeys.
  destruct (files !! local_file) as [data|]; run_s3; [|exact Hbody].
  destruct (fault (PutObject bucket path data)); run_s3; [exact Hbody|].
  simpl. rewrite lookup_insert_ne; [exact Hbody|].
  intros [= <- <-]. congruence.
Qed.


(** C9: a path that does not start with [s3://] fails the assertion and
    nothing is touched; when an object is stored under the key prefix and
    [override] is off, the call returns after the listing, without a
    [put_object], and the store is as before; and with [override] off no
    stored object is ever replaced, whichever way the call ends. *)
Theorem copy_to_s3_keeps_existing local_file s3_path (w : World) :
  (startswith s3_path "s3://" = false ->
   forall override,
     copy_to_s3 s3_bucket files fault local_file s3_path override w
       = (inl AssertionError, w)) /\
  (forall bucket key body,
     startswith s3_path "s3://" = true ->
     split "/" s3_path !! 2 = Some bucket ->
     fault (ListObjects bucket (join "/" (slice_from 3 (split "/" s3_path))))
       = None ->
     objects w !! (bucket, key) = Some body ->
     startswith key (join "/" (slice_from 3 (split "/" s3_path))) = true ->
     exists w',
       copy_to_s3 s3_bucket files fault local_file s3_path false w
         = (inr tt, w') /\
       objects w' = objects w /\
       log w' = log w ++ [(ListObjects bucket
                             (join "/" (slice_from 3 (split "/" s3_path))),
                           None)]) /\
  (forall b k body,
     objects w !! (b, k) = Some body ->
     objects
       (snd (copy_to_s3 s3_bucket files fault local_file s3_path false w))
       !! (b, k) = Some body).
Proof.
  split; [|split].
  - intros Hstart override. unfold copy_to_s3. rewrite Hstart. reflexivity.
  - intros. eapply copy_to_s3_skips; eassumption.
  - intros. apply copy_to_s3_frame. assumption.
Qed.

End WithCloud.

Lemma copy_to_s3_keeps_existing_witness :
  copy_to_s3 "my-bucket" Examples.toy_files Examples.no_fault "train.csv"
    "my-bucket/gluonts/train/train.csv" false Examples.toy_world
  = (inl AssertionError, Examples.toy_world) /\
  (exists w',
     copy_to_s3 "my-bucket" Examples.toy_files Examples.no_fault "train.csv"
       "s3://my-bucket/gluonts/train/train.csv" false Examples.toy_world
     = (inr tt, w') /\
     objects w' = objects Examples.toy_world /\
     log w' = [(ListObjects "my-bucket" "gluonts/train/train.csv", None)]).
Proof.
  split.
  - apply (copy_to_s3_keeps_existing "my-bucket" Examples.toy_files
             Examples.no_fault "train.csv"
             "my-bucket/gluonts/train/train.csv" Examples.toy_world).
    reflexivity.
  - destruct (copy_to_s3_keeps_existing "my-bucket" Examples.toy_files
                Examples.no_fault "train.csv"
                "s3://my-bucket/gluonts/train/train.csv" Examples.toy_world)
      as (_ & Hskip & _).
    apply (Hskip "my-bucket" "gluonts/train/train.csv" "old");
      reflexivity.
Defined.

(** With [override] on, the stored object is replaced. *)
Lemma override_replaces :
  objects
    (snd (copy_to_s3 "my-bucket" Examples.toy_files Examples.no_fault
            "train.csv" "s3://my-bucket/gluonts/train/train.csv" true
            Examples.toy_world))
    !! ("my-bucket", "gluonts/train/train.csv")
  = Some "timestamp,value".
Proof. vm_compute. reflexivity. Qed.

End S3UploadFacts.

(** ** More on the upload: the path, the store, two calls in a row *)

Module UploadFacts.
Import Py S3Upload UploadCell S3UploadFacts.

Lemma split_no_sep (sep : ascii) (s : string) :
  contains s sep = false -> split sep s = [s].
Proof.
  induction s as [|c s IH]; simpl; [reflexivity|].
  intros H. apply orb_false_elim in H as [Hc Hs].
  rewrite Hc, (IH Hs). reflexivity.
Qed.

(** Splitting at every separator: a separator between two strings
    separates their pieces. *)
Lemma split_app (sep : ascii) (a b : string) :
  split sep (a ++ String sep b)%string = split sep a ++ split sep b.
Proof.
  induction a as [|c a IH]; simpl.
  - rewrite Ascii.eqb_refl. reflexivity.
  - destruct (Ascii.eqb c sep); [rewrite IH; reflexivity|].
    rewrite IH.
    destruct (split sep a) as [|w ws] eqn:Ha;
      [exfalso; eapply split_nonempty; exact Ha|].
    reflexivity.
Qed.

Lemma join_cons_char (sep : string) (c : ascii) (w : string)
    (ws : list string) :
  join sep (String c w :: ws) = String c (join sep (w :: ws)).
Proof. destruct ws; reflexivity. Qed.

(** [sep.join(s.split(sep))] is [s]. *)
Lemma join_split (sep : ascii) (s : string) :
  join (String sep EmptyString) (split sep s) = s.
Proof.
  induction s as [|c s IH]; simpl; [reflexivity|].
  destruct (Ascii.eqb_spec c sep) as [->|Hne].
  - destruct (split sep s) as [|w ws] eqn:Hs;
      [exfalso; eapply split_nonempty; exact Hs|].
    simpl in *. rewrite IH. reflexivity.
  - destruct (split sep s) as [|w ws] eqn:Hs;
      [exfalso; eapply split_nonempty; exact Hs|].
    rewrite join_cons_char, IH. reflexivity.
Qed.

Lemma startswith_app (p s : string) : startswith (p ++ s) p = true.
Proof.
  induction p as [|c p IH]; [destruct s; reflexivity|].
  simpl. rewrite Ascii.eqb_refl. exact IH.
Qed.

Lemma append_assoc (a b c : string) :
  ((a ++ b) ++ c = a ++ (b ++ c))%string.
Proof.
  induction a as [|x a IH]; [reflexivity|].
  change (String x ((a ++ b) ++ c) = String x (a ++ b ++ c))%string.
  f_equal. exact IH.
Qed.

(** The pieces of [s3://bucket/key]. *)
Lemma split_url (bucket key : string) :
  contains bucket "/" = false ->
  split "/" ("s3://" ++ bucket ++ "/" ++ key)%string
  = "s3:" :: "" :: bucket :: split "/" key.
Proof.
  intros Hb.
  change ("s3://" ++ bucket ++ "/" ++ key)%string
    with ("s3:" ++ String "/" ("" ++ String "/" (bucket ++ String "/" key)))%string.
  rewrite !split_app, (split_no_sep _ _ Hb). reflexivity.
Qed.

(** Nothing is listed exactly when no stored key of the bucket starts
    with the prefix. *)
Lemma keys_with_prefix_nil (w : World) (bucket prefix : string) :
  keys_with_prefix w bucket prefix = [] <->
  forall key body,
    objects w !! (bucket, key) = Some body -> startswith key prefix = false.
Proof.
  split.
  - intros Hnil key body Hbody.
    destruct (startswith key prefix) eqn:Hk; [|reflexivity].
    assert (Hin : key ∈ keys_with_prefix w bucket prefix)
      by (apply elem_of_keys_with_prefix; eauto).
    rewrite Hnil in Hin. inversion Hin.
  - intros Hnone.
    destruct (keys_with_prefix w bucket prefix) as [|key keys] eqn:Hkeys;
      [reflexivity|].
    assert (Hin : key ∈ keys_with_prefix w bucket prefix)
      by (rewrite Hkeys; apply elem_of_cons; auto).
    apply elem_of_keys_with_prefix in Hin as [[body Hbody] Hk].
    rewrite (Hnone key body Hbody) in Hk. discriminate.
Qed.

(** What [copy_to_s3] reads off [s3://bucket/key]. *)
Lemma parse_url (bucket key : string) :
  contains bucket "/" = false ->
  split "/" ("s3://" ++ bucket ++ "/" ++ key)%string !! 2 = Some bucket /\
  join "/" (slice_from 3 (split "/" ("s3://" ++ bucket ++ "/" ++ key)%string))
  = key.
Proof.
  intros Hb. rewrite (split_url _ _ Hb). split; [reflexivity|].
  unfold slice_from. simpl drop. apply join_split.
Qed.

Section WithCloud.
Variable s3_bucket : string.
Variable files : gmap string string.
Variable fault : Call -> option string.

(** X1: for a path [s3://bucket/key] whose bucket name has no slash, the
    request [copy_to_s3] makes first is the listing of that bucket under
    that key, the whole rest of the path: bucket and key are read off the
    path as they were written into it. *)
Theorem copy_to_s3_parses_url local_file bucket key override (w : World) :
  contains bucket "/" = false ->
  exists o rest,
    log (snd (copy_to_s3 s3_bucket files fault local_file
                ("s3://" ++ bucket ++ "/" ++ key)%string override w))
    = log w ++ (ListObjects bucket key, o) :: rest.
Proof.
  intros Hb. destruct (parse_url bucket key Hb) as [Hsplit Hjoin].
  run_s3. rewrite startswith_app. run_s3. rewrite Hsplit, Hjoin. run_s3.
  destruct (fault (ListObjects bucket key)); run_s3;
    [simpl; eauto|].
  destruct (0 <? length (keys_with_prefix w bucket key))%nat;
    [destruct override; run_s3; [|simpl; eauto]|];
    (destruct (files !! local_file) as [data|]; run_s3;
       [|simpl; rewrite <- app_assoc; simpl; eauto]);
    (destruct (fault (PutObject bucket key data)); run_s3;
       simpl; rewrite <- ?app_assoc; simpl; eauto).
Qed.

(** The [with open(...)] block when the file is there and S3 takes the
    object. *)
Lemma upload_stores local_file s3_path bucket path data (w : World) :
  files !! local_file = Some data ->
  fault (PutObject bucket path data) = None ->
  upload files fault local_file s3_path bucket path w
  = (inr tt,
     {| objects := <[(bucket, path) := data]> (objects w);
        stdout := stdout w ++ [("Uploading file to " ++ s3_path)%string];
        log := log w ++ [(OpenFile local_file, None);
                         (PutObject bucket path data, None)] |}).
Proof.
  intros Hfile Hput. run_s3. rewrite Hfile. run_s3. rewrite Hput.
  simpl. rewrite <- app_assoc. reflexivity.
Qed.

(** The run that uploads. *)
Lemma copy_to_s3_upload_run local_file s3_path override (w : World)
    bucket path data :
  startswith s3_path "s3://" = true ->
  split "/" s3_path !! 2 = Some bucket ->
  path = join "/" (slice_from 3 (split "/" s3_path)) ->
  fault (ListObjects bucket path) = None ->
  files !! local_file = Some data ->
  fault (PutObject bucket path data) = None ->
  override = true \/ keys_with_prefix w bucket path = [] ->
  fst (copy_to_s3 s3_bucket files fault local_file s3_path override w)
    = inr tt /\
  objects (snd (copy_to_s3 s3_bucket files fault local_file s3_path
                  override w))
    = <[(bucket, path) := data]> (objects w).
Proof.
  intros Hstart Hsplit -> Hlist Hfile Hput Hcase.
  run_s3. rewrite Hstart. run_s3. rewrite Hsplit. run_s3.
  rewrite Hlist. run_s3.
  destruct (0 <? length (keys_with_prefix w bucket _))%nat eqn:Hlen.
  - destruct Hcase as [->|Hnil]; [|rewrite Hnil in Hlen; discriminate].
    run_s3. rewrite Hfile. run_s3. rewrite Hput. simpl. auto.
  - run_s3. rewrite Hfile. run_s3. rewrite Hput. simpl. auto.
Qed.

(** X2: when the path parses, S3 answers, the local file is there and
    either [override] is set or nothing is listed under the prefix, the
    call returns and the store is the old one with the file's contents at
    the parsed bucket and key. *)
Theorem copy_to_s3_stores local_file s3_path override (w : World)
    bucket path data :
  startswith s3_path "s3://" = true ->
  split "/" s3_path !! 2 = Some bucket ->
  path = join "/" (slice_from 3 (split "/" s3_path)) ->
  fault (ListObjects bucket path) = None ->
  files !! local_file = Some data ->
  fault (PutObject bucket path data) = None ->
  override = true \/ keys_with_prefix w bucket path = [] ->
  fst (copy_to_s3 s3_bucket files fault local_file s3_path override w)
    = inr tt /\
  objects (snd (copy_to_s3 s3_bucket files fault local_file s3_path
                  override w))
    = <[(bucket, path) := data]> (objects w).
Proof. apply copy_to_s3_upload_run. Qed.

(** X3: whatever [override] is and however the call ends, an object
    stored at another bucket or key than the parsed one is as it was, and
    none appears there. *)
Theorem copy_to_s3_touches_one_key local_file s3_path override (w : World)
    b k :
  (forall bucket,
     split "/" s3_path !! 2 = Some bucket ->
     (b, k) <> (bucket, join "/" (slice_from 3 (split "/" s3_path)))) ->
  objects (snd (copy_to_s3 s3_bucket files fault local_file s3_path
                  override w)) !! (b, k)
  = objects w !! (b, k).
Proof.
  intros Hother. run_s3.
  destruct (startswith s3_path "s3://"); run_s3; [|reflexivity].
  destruct (split "/" s3_path !! 2) as [bucket|]; run_s3; [|reflexivity].
  specialize (Hother bucket eq_refl).
  set (path := join "/" (slice_from 3 (split "/" s3_path))) in *.
  destruct (fault (ListObjects bucket path)); run_s3; [reflexivity|].
  destruct (0 <? length (keys_with_prefix w bucket path))%nat;
    [destruct override; run_s3; [|reflexivity]|];
    (destruct (files !! local_file) as [data|]; run_s3; [|reflexivity]);
    (destruct (fault (PutObject bucket path data)); run_s3; [reflexivity|]);
    simpl; apply lookup_insert_ne; congruence.
Qed.

(** X4: when the upload is due (override set, or nothing listed) and the
    local file is missing, the call ends in [FileNotFoundError] after the
    listing, and the store is as it was. *)
Theorem copy_to_s3_missing_file local_file s3_path override (w : World)
    bucket path :
  startswith s3_path "s3://" = true ->
  split "/" s3_path !! 2 = Some bucket ->
  path = join "/" (slice_from 3 (split "/" s3_path)) ->
  fault (ListObjects bucket path) = None ->
  files !! local_file = None ->
  override = true \/ keys_with_prefix w bucket path = [] ->
  fst (copy_to_s3 s3_bucket files fault local_file s3_path override w)
    = inl (FileNotFoundError local_file) /\
  objects (snd (copy_to_s3 s3_bucket files fault local_file s3_path
                  override w))
    = objects w /\
  log (snd (copy_to_s3 s3_bucket files fault local_file s3_path
              override w))
    = log w ++ [(ListObjects bucket path, None);
                (OpenFile local_file, Some (FileNotFoundError local_file))].
Proof.
  intros Hstart Hsplit -> Hlist Hfile Hcase.
  run_s3. rewrite Hstart. run_s3. rewrite Hsplit. run_s3.
  rewrite Hlist. run_s3.
  destruct (0 <? length (keys_with_prefix w bucket _))%nat eqn:Hlen.
  - destruct Hcase as [->|Hnil]; [|rewrite Hnil in Hlen; discriminate].
    run_s3. rewrite Hfile. simpl. rewrite <- app_assoc. auto.
  - run_s3. rewrite Hfile. simpl. rewrite <- app_assoc. auto.
Qed.



(** X6: the assertion keeps the subscript [split[2]] in range: no call of
    [copy_to_s3] ends in [IndexError]. *)
Theorem copy_to_s3_no_index_error local_file s3_path override (w : World) :
  fst (copy_to_s3 s3_bucket files fault local_file s3_path override w)
    <> inl IndexError.
Proof.
  run_s3.
  destruct (startswith s3_path "s3://") eqn:Hstart; run_s3; [|discriminate].
  destruct (split_s3_path s3_path Hstart)
    as (rest & bucket & parts & _ & _ & Hsplit).
  rewrite Hsplit. simpl lookup. run_s3.
  destruct (fault (ListObjects bucket _)); run_s3; [discriminate|].
  destruct (0 <? length (keys_with_prefix w bucket _))%nat;
    [destruct override; run_s3; [|discriminate]|];
    (destruct (files !! local_file) as [data|]; run_s3; [|discriminate]);
    (destruct (fault (PutObject bucket _ data)); run_s3; discriminate).
Qed.

Lemma train_path :
  (s3_train_data_path s3_bucket ++ "/train.csv"
   = "s3://" ++ s3_bucket ++ "/" ++ "gluonts/train/train.csv")%string.
Proof.
  unfold s3_train_data_path.
  change (("s3://" ++ s3_bucket ++ "/gluonts/train") ++ "/train.csv")%string
    with ("s3://" ++ ((s3_bucket ++ "/gluonts/train") ++ "/train.csv"))%string.
  rewrite append_assoc. reflexivity.
Qed.

Lemma test_path :
  (s3_test_data_path s3_bucket ++ "/test.csv"
   = "s3://" ++ s3_bucket ++ "/" ++ "gluonts/test/test.csv")%string.
Proof.
  unfold s3_test_data_path.
  change (("s3://" ++ s3_bucket ++ "/gluonts/test") ++ "/test.csv")%string
    with ("s3://" ++ ((s3_bucket ++ "/gluonts/test") ++ "/test.csv"))%string.
  rewrite append_assoc. reflexivity.
Qed.

(** X7: the upload cell on a bucket whose name has no slash, with S3
    answering, both files on disk and nothing listed under either key:
    both calls return, and the store gains the two files under
    [gluonts/train/train.csv] and [gluonts/test/test.csv] of the default
    bucket; the first upload does not stand in the way of the second. *)
Theorem upload_cell_stores_both (w : World) train_csv test_csv :
  contains s3_bucket "/" = false ->
  (forall c, fault c = None) ->
  files !! "train.csv" = Some train_csv ->
  files !! "test.csv" = Some test_csv ->
  keys_with_prefix w s3_bucket "gluonts/train/train.csv" = [] ->
  keys_with_prefix w s3_bucket "gluonts/test/test.csv" = [] ->
  fst (upload_cell s3_bucket files fault w) = inr tt /\
  objects (snd (upload_cell s3_bucket files fault w))
  = <[(s3_bucket, "gluonts/test/test.csv") := test_csv]>
      (<[(s3_bucket, "gluonts/train/train.csv") := train_csv]> (objects w)).
Proof.
  intros Hb Hfault Htrain Htest Hnone1 Hnone2.
  unfold upload_cell, sbind. rewrite train_path, test_path.
  destruct (parse_url s3_bucket "gluonts/train/train.csv" Hb) as [Hs1 Hj1].
  destruct (parse_url s3_bucket "gluonts/test/test.csv" Hb) as [Hs2 Hj2].
  destruct (copy_to_s3_upload_run "train.csv" _ false w s3_bucket
              "gluonts/train/train.csv" train_csv
              (startswith_app "s3://" _) Hs1 (eq_sym Hj1) (Hfault _) Htrain
              (Hfault _) (or_intror Hnone1)) as [Hr1 Ho1].
  destruct (copy_to_s3 s3_bucket files fault "train.csv" _ false w)
    as [r1 w1]. simpl in Hr1, Ho1. subst r1.
  assert (Hnone : keys_with_prefix w1 s3_bucket "gluonts/test/test.csv" = []).
  { apply keys_with_prefix_nil. intros key body. rewrite Ho1.
    destruct (decide (key = "gluonts/train/train.csv")) as [->|Hne].
    - intros _. reflexivity.
    - rewrite lookup_insert_ne by congruence.
      apply keys_with_prefix_nil. exact Hnone2. }
  destruct (copy_to_s3_upload_run "test.csv" _ false w1 s3_bucket
              "gluonts/test/test.csv" test_csv
              (startswith_app "s3://" _) Hs2 (eq_sym Hj2) (Hfault _) Htest
              (Hfault _) (or_intror Hnone)) as [Hr2 Ho2].
  rewrite Hr2, Ho2, Ho1. auto.
Qed.

End WithCloud.

Lemma copy_to_s3_parses_url_witness :
  exists o rest,
    log (snd (copy_to_s3 "my-bucket" Examples.toy_files Examples.no_fault
                "train.csv" "s3://my-bucket/gluonts/train/train.csv" false
                Examples.toy_world))
    = (ListObjects "my-bucket" "gluonts/train/train.csv", o) :: rest.
Proof.
  apply (copy_to_s3_parses_url "my-bucket" Examples.toy_files
           Examples.no_fault "train.csv" "my-bucket"
           "gluonts/train/train.csv" false Examples.toy_world).
  reflexivity.
Defined.

Lemma copy_to_s3_stores_witness :
  objects (snd (copy_to_s3 "my-bucket" Examples.toy_files Examples.no_fault
                  "train.csv" "s3://my-bucket/gluonts/train/train.csv" true
                  Examples.toy_world))
  = <[("my-bucket", "gluonts/train/train.csv") := "timestamp,value"]>
      (objects Examples.toy_world).
Proof.
  apply (copy_to_s3_stores "my-bucket" Examples.toy_files Examples.no_fault
           "train.csv" "s3://my-bucket/gluonts/train/train.csv" true
           Examples.toy_world "my-bucket" "gluonts/train/train.csv"
           "timestamp,value"); try reflexivity.
  left. reflexivity.
Defined.

Lemma copy_to_s3_touches_one_key_witness :
  objects (snd (copy_to_s3 "my-bucket" Examples.toy_files Examples.no_fault
                  "train.csv" "s3://my-bucket/gluonts/test/test.csv" false
                  Examples.toy_world))
    !! ("my-bucket", "gluonts/train/train.csv")
  = Some "old".
Proof.
  rewrite (copy_to_s3_touches_one_key "my-bucket" Examples.toy_files
             Examples.no_fault "train.csv"
             "s3://my-bucket/gluonts/test/test.csv" false Examples.toy_world
             "my-bucket" "gluonts/train/train.csv").
  - reflexivity.
  - intros bucket Hbucket. injection Hbucket as <-. discriminate.
Defined.

Lemma copy_to_s3_missing_file_witness :
  fst (copy_to_s3 "my-bucket" Examples.toy_files Examples.no_fault
         "test.csv" "s3://my-bucket/gluonts/test/test.csv" false
         Examples.toy_world)
  = inl (FileNotFoundError "test.csv").
Proof.
  apply (copy_to_s3_missing_file "my-bucket" Examples.toy_files
           Examples.no_fault "test.csv"
           "s3://my-bucket/gluonts/test/test.csv" false Examples.toy_world
           "my-bucket" "gluonts/test/test.csv"); try reflexivity.
  right. reflexivity.
Defined.


Lemma upload_cell_stores_both_witness :
  fst (upload_cell "my-bucket" Examples.both_files Examples.no_fault
         Examples.empty_world) = inr tt /\
  objects (snd (upload_cell "my-bucket" Examples.both_files
                  Examples.no_fault Examples.empty_world))
  = <[("my-bucket", "gluonts/test/test.csv") := "timestamp,value,more"]>
      (<[("my-bucket", "gluonts/train/train.csv") := "timestamp,value"]> ∅).
Proof.
  apply (upload_cell_stores_both "my-bucket" Examples.both_files
           Examples.no_fault Examples.empty_world "timestamp,value"
           "timestamp,value,more"); reflexivity.
Defined.

End UploadFacts.

(** ** More on the comparison: short lists, repeated names, the shape of
    the table *)

Module ComparisonMore.
Import Py Pandas GluonTS Comparison PyFacts ComparisonFacts.

Lemma zip_map_snd {A B} (xs : list A) (ys : list B) :
  map snd (zip xs ys) = take (length xs) ys.
Proof.
  revert ys. induction xs as [|x xs IH]; intros [|y ys]; simpl; auto.
  f_equal. apply IH.
Qed.

Lemma zip_map_fst {A B} (xs : list A) (ys : list B) :
  map fst (zip xs ys) = take (length ys) xs.
Proof.
  revert ys. induction xs as [|x xs IH]; intros [|y ys]; simpl; auto.
  f_equal. apply IH.
Qed.

Section WithAPI.
Context `{api : API}.

(** The table of a loop in which every evaluation succeeds with [rows]
    metrics and no name comes twice. *)
Lemma evaluat_loop_table data num_samples (rows : nat)
    (pairs : list (Predictor * string)) (metrics : list (dict Metric)) :
  NoDup (map snd pairs) ->
  (0 < rows)%nat ->
  Forall2 (fun pn m => evaluate data num_samples (fst pn) = inr m
                       /\ length m = rows) pairs metrics ->
  evaluat_loop data num_samples DataFrame_new pairs
  = inr {| index := match metrics with [] => [] | m :: _ => keys m end;
           columns := zip (map snd pairs) (map dict_values metrics) |}.
Proof.
  intros Hnd Hrows Hall.
  destruct Hall as [|[p nm] m pairs ms [Hev Hm] Hall]; [reflexivity|].
  simpl in Hev. rewrite evaluat_loop_cons, Hev. simpl.
  rewrite evaluat_loop_appends with (metrics := ms); simpl.
  - reflexivity.
  - unfold empty, keys. simpl. destruct m; [simpl in Hm; lia|reflexivity].
  - eapply Forall2_impl; [exact Hall|]. simpl.
    intros q mq [Hq Hmq]. split; [exact Hq|].
    unfold keys. rewrite length_map. congruence.
  - exact Hnd.
Qed.

(** X8: the table has as many columns as the shorter of the two lists:
    when the names that are used are pairwise distinct and the predictors
    that are reached all return the same positive number of metrics, the
    call returns a table whose labels are the first names, one for each
    predictor reached; a predictor without a name, or a name without a
    predictor, leaves no trace. *)
Theorem columns_of_the_shorter_list data (predictors : list Predictor)
    (predictor_names : list string) num_samples
    (metrics : list (dict Metric)) (rows : nat) :
  NoDup (take (length predictors) predictor_names) ->
  (0 < rows)%nat ->
  Forall2 (fun p m => evaluate data num_samples p = inr m
                      /\ length m = rows)
    (take (length predictor_names) predictors) metrics ->
  exists df,
    evaluat_models_from_dict data predictors predictor_names num_samples
      = inr df /\
    column_labels df = take (length predictors) predictor_names /\
    length (columns df)
    = Nat.min (length predictors) (length predictor_names).
Proof.
  intros Hnd Hrows Hall.
  pose proof (Forall2_length _ _ _ Hall) as Hlen.
  rewrite length_take in Hlen.
  unfold evaluat_models_from_dict.
  rewrite evaluat_loop_table with (rows := rows) (metrics := metrics).
  - eexists. split; [reflexivity|]. unfold column_labels. simpl.
    rewrite zip_map_snd. split.
    + apply zip_fst. rewrite length_map, length_take. lia.
    + rewrite zip_length, length_map, length_take. lia.
  - rewrite zip_map_snd. exact Hnd.
  - exact Hrows.
  - rewrite <- zip_map_fst in Hall.
    apply Forall2_fmap_l in Hall. exact Hall.
Qed.

(** The frame after the iterations of [pre], all successful. *)
Lemma evaluat_loop_pre data num_samples (rows : nat)
    (pre : list (Predictor * string)) (metrics : list (dict Metric)) :
  pre <> [] ->
  NoDup (map snd pre) ->
  (0 < rows)%nat ->
  Forall2 (fun pn m => evaluate data num_samples (fst pn) = inr m
                       /\ length m = rows) pre metrics ->
  exists df_mid,
    evaluat_loop data num_samples DataFrame_new pre = inr df_mid /\
    empty df_mid = false /\
    length (index df_mid) = rows /\
    column_labels df_mid = map snd pre.
Proof.
  intros Hne Hnd Hrows Hall.
  pose proof (Forall2_length _ _ _ Hall) as Hlen.
  eexists. split; [eapply evaluat_loop_table; eassumption|].
  destruct Hall as [|[p nm] m pre ms [Hev Hm] Hall]; [contradiction|].
  simpl in *. unfold empty, column_labels, keys. simpl.
  destruct m as [|kv m]; [simpl in Hm; lia|]. simpl.
  repeat split.
  - simpl in Hm. rewrite length_map. exact Hm.
  - f_equal. apply zip_fst. rewrite !length_map. lia.
Qed.

(** X9: a name that was already used makes the call raise: after
    iterations that went well, the predictor paired with a name of an
    earlier column ends the call in the [ValueError] of [insert], though
    its own evaluation succeeded. *)
Theorem repeated_name_raises data (predictors : list Predictor)
    (predictor_names : list string) num_samples pre p name post
    (metrics : list (dict Metric)) (m : dict Metric) (rows : nat) :
  zip predictors predictor_names = pre ++ (p, name) :: post ->
  name ∈ map snd pre ->
  NoDup (map snd pre) ->
  (0 < rows)%nat ->
  Forall2 (fun pn m => evaluate data num_samples (fst pn) = inr m
                       /\ length m = rows) pre metrics ->
  evaluate data num_samples p = inr m ->
  length m = rows ->
  evaluat_models_from_dict data predictors predictor_names num_samples
  = inl (ValueError ("cannot insert " ++ name ++ ", already exists")).
Proof.
  intros Hzip Hin Hnd Hrows Hall Hev Hm.
  assert (Hne : pre <> []) by (intros ->; inversion Hin).
  destruct (evaluat_loop_pre _ _ _ _ _ Hne Hnd Hrows Hall)
    as (df_mid & Hpre & Hempty & Hidx & Hlabels).
  unfold evaluat_models_from_dict. rewrite Hzip.
  apply (evaluat_loop_propagates _ _ _ _ _ df_mid); [exact Hpre|].
  rewrite iteration_eq, Hev. simpl. rewrite Hempty.
  unfold insert.
  rewrite bool_decide_eq_true_2 by (rewrite Hlabels; exact Hin).
  reflexivity.
Qed.


(** One pass of the loop keeps the frame rectangular. *)
Lemma iteration_rectangular data num_samples (df df' : DataFrame Metric)
    p nm :
  Forall (fun c => length (snd c) = length (index df)) (columns df) ->
  iteration data num_samples df p nm = inr df' ->
  Forall (fun c => length (snd c) = length (index df')) (columns df').
Proof.
  intros Hrect Hit. rewrite iteration_eq in Hit.
  apply bind_inr in Hit as (m & _ & Hstep).
  destruct (empty df).
  - injection Hstep as <-. unfold copy, from_dict_index, keys, dict_values.
    simpl. constructor; [|constructor]. simpl. rewrite !length_map.
    reflexivity.
  - pose proof Hstep as Hshape. apply insert_at_end_inr in Hshape.
    subst df'. simpl. apply Forall_app. split; [exact Hrect|].
    constructor; [|constructor]. simpl.
    unfold insert in Hstep. rewrite values_from_dict, length_map in Hstep.
    destruct (bool_decide _); [discriminate|].
    destruct (length m =? length (index df))%nat eqn:Hlen;
      [|discriminate].
    apply Nat.eqb_eq in Hlen. unfold dict_values. rewrite length_map.
    exact Hlen.
Qed.

Lemma evaluat_loop_rectangular data num_samples :
  forall (pairs : list (Predictor * string)) (df df' : DataFrame Metric),
    Forall (fun c => length (snd c) = length (index df)) (columns df) ->
    evaluat_loop data num_samples df pairs = inr df' ->
    Forall (fun c => length (snd c) = length (index df')) (columns df').
Proof.
  induction pairs as [|[p nm] pairs IH]; intros df df' Hrect Hrun.
  - simpl in Hrun. injection Hrun as <-. exact Hrect.
  - rewrite evaluat_loop_step in Hrun.
    apply bind_inr in Hrun as (df1 & Hit & Hrun).
    eapply IH; [|exact Hrun].
    eapply iteration_rectangular; eassumption.
Qed.

(** X11: a table the call returns is rectangular: every column has one
    cell for each row label, whatever the predictors reported. *)
Theorem returned_table_is_rectangular data (predictors : list Predictor)
    (predictor_names : list string) num_samples (df : DataFrame Metric) :
  evaluat_models_from_dict data predictors predictor_names num_samples
    = inr df ->
  forall name cells,
    (name, cells) ∈ columns df -> length cells = length (index df).
Proof.
  intros Hrun name cells Hin.
  apply evaluat_loop_rectangular in Hrun; [|constructor].
  rewrite Forall_forall in Hrun. exact (Hrun _ Hin).
Qed.

(** X12: a predictor for which the evaluator reports no metric leaves no
    column when others follow: the frame it makes has no rows, counts as
    empty, and the next evaluation takes its place. *)
Theorem no_metrics_no_column data num_samples p1 name1
    (predictors : list Predictor) (predictor_names : list string) :
  evaluate data num_samples p1 = inr [] ->
  zip predictors predictor_names <> [] ->
  evaluat_models_from_dict data (p1 :: predictors)
    (name1 :: predictor_names) num_samples
  = evaluat_models_from_dict data predictors predictor_names num_samples.
Proof.
  intros Hev Hne. unfold evaluat_models_from_dict. simpl zip.
  rewrite evaluat_loop_cons, Hev. simpl.
  destruct (zip predictors predictor_names) as [|[p nm] pairs];
    [contradiction|].
  rewrite !evaluat_loop_cons. reflexivity.
Qed.

End WithAPI.

Lemma columns_of_the_shorter_list_witness :
  exists df,
    evaluat_models_from_dict (api := Examples.toy_api) Examples.toy_data
      [1; 2; 3] ["deepar"; "mlp"] 100 = inr df /\
    column_labels df = ["deepar"; "mlp"] /\
    length (columns df) = 2.
Proof.
  apply (columns_of_the_shorter_list (api := Examples.toy_api)
           Examples.toy_data [1; 2; 3] ["deepar"; "mlp"] 100
           [[("MSE", 1%Z); ("RMSE", 1%Z)]; [("MSE", 4%Z); ("RMSE", 2%Z)]] 2).
  - apply (bool_decide_unpack (NoDup _)). vm_compute. exact I.
  - lia.
  - repeat (constructor; [split; reflexivity|]). constructor.
Defined.

Lemma repeated_name_raises_witness :
  evaluat_models_from_dict (api := Examples.toy_api) Examples.toy_data
    [1; 2; 4] ["deepar"; "mlp"; "deepar"] 100
  = inl (ValueError "cannot insert deepar, already exists").
Proof.
  apply (repeated_name_raises (api := Examples.toy_api) Examples.toy_data
           [1; 2; 4] ["deepar"; "mlp"; "deepar"] 100
           [(1, "deepar"); (2, "mlp")] 4 "deepar" []
           [[("MSE", 1%Z); ("RMSE", 1%Z)]; [("MSE", 4%Z); ("RMSE", 2%Z)]]
           [("MSE", 16%Z); ("RMSE", 4%Z)] 2).
  - reflexivity.
  - simpl. rewrite !elem_of_cons. auto.
  - apply (bool_decide_unpack (NoDup _)). vm_compute. exact I.
  - lia.
  - repeat (constructor; [split; reflexivity|]). constructor.
  - reflexivity.
  - reflexivity.
Defined.


Lemma no_metrics_no_column_witness :
  evaluat_models_from_dict (api := Examples.toy_api) [] [1; 2]
    ["deepar"; "mlp"] 100
  = evaluat_models_from_dict (api := Examples.toy_api) [] [2] ["mlp"] 100.
Proof.
  apply (no_metrics_no_column (api := Examples.toy_api) [] 100 1 "deepar"
           [2] ["mlp"]).
  - reflexivity.
  - discriminate.
Defined.

Lemma returned_table_is_rectangular_witness :
  evaluat_models_from_dict (api := Examples.toy_api) Examples.toy_data
    [1; 3] ["deepar"; "naive predictor"] 100
  = inr {| index := ["MSE"; "RMSE"];
           columns := [("deepar", [1; 1]%Z);
                       ("naive predictor", [3; 9]%Z)] |} /\
  length [3; 9]%Z = length ["MSE"; "RMSE"].
Proof.
  split; [reflexivity|].
  apply (returned_table_is_rectangular (api := Examples.toy_api)
           Examples.toy_data [1; 3] ["deepar"; "naive predictor"] 100
           {| index := ["MSE"; "RMSE"];
              columns := [("deepar", [1; 1]%Z);
                          ("naive predictor", [3; 9]%Z)] |}
           eq_refl "naive predictor" [3; 9]%Z).
  simpl. rewrite !elem_of_cons. auto.
Defined.

End ComparisonMore.

(** ** More on the plotting helper: what a run has done when it ends *)

Module PlottingMore.
Import Py GluonTS Plotting.

(** A concrete log: is its last entry the call of [show] that returned? *)
Ltac solve_show :=
  rewrite <- ?app_assoc; simpl; eexists; split; [reflexivity|];
  split; intros Hshow; first [discriminate | reflexivity].

Section WithLibraries.
Context `{api : API} `{plt : Matplotlib}.
Variable float_str : Q -> string.

(** X13: [plt.show()] is the last step and is reached only when every
    step before it went well: a run returns exactly when the last call it
    made is a [show] that returned; a run that raises has not shown the
    figure. *)
Theorem show_only_on_success predictor (test_data : ListDataset)
    (log : Log) :
  exists entries,
    snd (plot_forecast float_str predictor test_data log) = log ++ entries /\
    (fst (plot_forecast float_str predictor test_data log) = inr tt <->
     last entries = Some (CallShow, None)).
Proof.
  unfold plot_forecast, sbind, call, slift.
  destruct (make_evaluation_predictions test_data predictor 100)
    as [o|[forecast_it ts_it]]; simpl; [solve_show|].
  destruct (subplots 1 1 (10 # 1, 7 # 1)%Q) as [o|[fig ax]]; simpl;
    [solve_show|].
  destruct ts_it as [o|[|ts0 tss]]; simpl; [solve_show ..|].
  destruct (series_plot (last_n 336 ts0) ax) as [o|[]]; simpl;
    [solve_show|].
  destruct forecast_it as [o|[|forecast0 fs]]; simpl; [solve_show ..|].
  destruct (forecast_plot forecast0 [50 # 1; 90 # 1]%Q "g") as [o|[]]; simpl;
    [solve_show|].
  destruct (grid "both") as [o|[]]; simpl; [solve_show|].
  match goal with |- context [legend ?l ?loc] =>
    destruct (legend l loc) as [o|[]]; simpl; [solve_show|] end.
  destruct show as [o|[]]; simpl; solve_show.
Qed.

(** X14: on the empty dataset the call fails late: the predictions were
    requested, the figure and its axes were made and the series iterator
    was run before the subscript raises; nothing was drawn and the figure
    was not shown. *)
Theorem empty_dataset_leaves_a_figure predictor (log : Log) forecast_it
    tss fig ax :
  mep_contract ->
  make_evaluation_predictions [] predictor 100 = inr (forecast_it, inr tss) ->
  subplots 1 1 (10 # 1, 7 # 1)%Q = inr (fig, ax) ->
  plot_forecast float_str predictor [] log
  = (inl IndexError,
     log ++ [(CallMakeEvaluationPredictions [] predictor 100, None);
             (CallSubplots 1 1 (10 # 1, 7 # 1)%Q, None);
             (CallListTs, None)]).
Proof.
  intros Hc Hmep Hsub.
  destruct (Hc _ _ _ _ _ Hmep) as [Htss _].
  specialize (Htss tss eq_refl). subst tss.
  unfold plot_forecast, sbind, call, slift.
  rewrite Hmep. simpl. rewrite Hsub. simpl.
  rewrite <- !app_assoc. reflexivity.
Qed.

End WithLibraries.

Lemma empty_dataset_leaves_a_figure_witness :
  snd (plot_forecast (api := Examples.toy_api) (plt := Examples.toy_plt)
         Examples.toy_float_str 1 [] [])
  = [(CallMakeEvaluationPredictions (api := Examples.toy_api)
        (plt := Examples.toy_plt) [] 1 100, None);
     (CallSubplots 1 1 (10 # 1, 7 # 1)%Q, None);
     (CallListTs, None)].
Proof.
  rewrite (empty_dataset_leaves_a_figure (api := Examples.toy_api)
             (plt := Examples.toy_plt) Examples.toy_float_str 1 []
             (inr []) [] tt tt PlottingFacts.toy_contract eq_refl eq_refl).
  reflexivity.
Defined.

End PlottingMore.

(** ** More on the data: the two notebooks, the empty table, the
    held-out rows *)

Module DatasetsMore.
Import Py Pandas GluonTS Datasets DatasetsFacts.

(** The slice bound raises [KeyError] or nothing. *)
Lemma get_slice_bound_right_error (idx : list string) (label : string) e :
  get_slice_bound_right idx label = inl e -> exists l, e = KeyError l.
Proof.
  unfold get_slice_bound_right.
  destruct (is_monotonic_increasing idx); [discriminate|].
  destruct (is_monotonic_decreasing idx); [discriminate|].
  destruct (positions idx label 0) as [|p ps]; [intros [= <-]; eauto|].
  destruct (contiguous (p :: ps)); [discriminate|].
  intros [= <-]. eauto.
Qed.

(** X15: the two notebooks cut the table at the same place: for every
    loaded table with a first row, the training (test) dataset of part 3
    is the one record that starts at the first index and holds the value
    column of the table [train] ([test]) of part 4, and it raises what
    that slice raises. *)
Theorem datasets_agree_with_tables (df : list (string * Z)) (first : string) :
  item0 (table_index df) = inr first ->
  training_data df
    = (rows <- train df ;;
       ret [ {| start := first; target := table_value rows |} ]) /\
  test_data df
    = (rows <- test df ;;
       ret [ {| start := first; target := table_value rows |} ]).
Proof.
  intros Hfirst.
  unfold training_data, test_data, dataset_to, train, test,
    value_to_label, rows_to_label.
  rewrite Hfirst. simpl.
  split.
  - destruct (get_slice_bound_right (table_index df) train_end); simpl;
      [reflexivity|].
    unfold table_value. rewrite <- (fmap_take snd). reflexivity.
  - destruct (get_slice_bound_right (table_index df) test_end); simpl;
      [reflexivity|].
    unfold table_value. rewrite <- (fmap_take snd). reflexivity.
Qed.

(** X16: a table without rows is the one input on which building the
    datasets of part 3 ends in [IndexError] (at [df.index[0]]); the
    slices of part 4 do not look at a first row and give empty tables. *)
Theorem index_error_iff_empty_table (df : list (string * Z)) :
  (training_data df = inl IndexError <-> df = []) /\
  (test_data df = inl IndexError <-> df = []) /\
  train [] = inr [] /\ test [] = inr [].
Proof.
  assert (H : forall stop, dataset_to df stop = inl IndexError <-> df = []).
  { intros stop. split.
    - destruct df as [|[first v] rest]; [reflexivity|].
      unfold dataset_to, value_to_label. simpl.
      destruct (get_slice_bound_right _ stop) as [e|n] eqn:Hb; simpl;
        [|discriminate].
      apply get_slice_bound_right_error in Hb as [l ->]. discriminate.
    - intros ->. reflexivity. }
  repeat split; try apply H; intros; apply H; assumption.
Qed.

(** On an increasing table, the rows up to a later label are the rows up
    to an earlier one and then those in between. *)
Lemma filter_between (df : list (string * Z)) (a b : string) :
  label_le a b = true ->
  is_monotonic_increasing (table_index df) = true ->
  List.filter (fun r => label_le (fst r) b) df
  = List.filter (fun r => label_le (fst r) a) df
    ++ List.filter (fun r => negb (label_le (fst r) a)
                             && label_le (fst r) b) df.
Proof.
  intros Hab. unfold table_index.
  induction df as [|[x v] df IH]; intros Hmono; [reflexivity|].
  destruct (label_le x a) eqn:Hxa.
  - simpl. rewrite Hxa, (label_le_trans _ _ _ Hxa Hab). simpl.
    f_equal. apply IH. eapply monotonic_tail. exact Hmono.
  - rewrite (filter_above ((x, v) :: df) x a Hxa).
    + rewrite app_nil_l. apply filter_ext_in. intros [y w] Hin. simpl.
      assert (Hya : label_le y a = false).
      { destruct (label_le y a) eqn:Hya; [|reflexivity].
        rewrite <- Hxa. symmetry. eapply label_le_trans; [|exact Hya].
        destruct Hin as [[= <- <-]|Hin].
        - destruct (String.leb_total x x) as [H|H]; exact H.
        - apply (monotonic_head_le x (map fst df) Hmono).
          apply list_elem_of_In, in_map_iff. exists (y, w). auto. }
      rewrite Hya. reflexivity.
    + intros y Hy. unfold table_index in Hy. simpl in Hy.
      apply elem_of_cons in Hy as [->|Hy].
      * destruct (String.leb_total x x) as [H|H]; exact H.
      * apply (monotonic_head_le x (map fst df) Hmono). exact Hy.
Qed.

(** X17: on a table with time stamps in increasing order the test data
    are the training data followed by the held-out rows, those after
    2015-04-05 00:00:00 and up to 2015-04-15 00:00:00, in the tables of
    part 4 and in the targets of part 3. *)
Theorem test_is_train_and_held_out (df : list (string * Z)) :
  is_monotonic_increasing (table_index df) = true ->
  exists train_rows test_rows,
    train df = inr train_rows /\
    test df = inr test_rows /\
    test_rows
    = train_rows
      ++ List.filter (fun r => negb (label_le (fst r) train_end)
                               && label_le (fst r) test_end) df /\
    value_to_label df train_end = inr (table_value train_rows) /\
    value_to_label df test_end = inr (table_value test_rows).
Proof.
  intros Hmono. eexists. eexists.
  unfold train, test.
  rewrite !rows_to_label_sorted, !value_to_label_sorted by exact Hmono.
  repeat split.
  apply filter_between; [reflexivity|exact Hmono].
Qed.

Lemma datasets_agree_with_tables_witness :
  training_data Examples.toy_table
  = (rows <- train Examples.toy_table ;;
     ret [ {| start := "2015-04-04 23:52:53";
              target := table_value rows |} ]).
Proof.
  apply (datasets_agree_with_tables Examples.toy_table
           "2015-04-04 23:52:53").
  reflexivity.
Defined.

Lemma test_is_train_and_held_out_witness :
  test Examples.toy_table
  = inr ([("2015-04-04 23:52:53", 57%Z); ("2015-04-04 23:57:53", 43%Z)]
         ++ [("2015-04-05 00:02:53", 55%Z); ("2015-04-14 23:57:53", 64%Z)]).
Proof.
  destruct (test_is_train_and_held_out Examples.toy_table eq_refl)
    as (train_rows & test_rows & Htrain & Htest & Hsplit & _).
  rewrite Htest, Hsplit. injection Htrain as <-. reflexivity.
Defined.

End DatasetsMore.

(** ** The cells that read the tuning results *)

Module TuningFacts.
Import Py Tuning TuningCells.

Lemma fold_add (l : list nat) (a : nat) :
  fold_left Nat.add l a = a + fold_left Nat.add l 0.
Proof.
  revert a. induction l as [|n l IH]; intros a; simpl; [lia|].
  rewrite (IH (a + n)), (IH n). lia.
Qed.

Lemma sum_cons (n : nat) (l : list nat) : sum (n :: l) = n + sum l.
Proof. unfold sum. simpl. apply fold_add. Qed.

Section Categorical.
Context {Value : Type}.
Variable float : Value -> Result Q.

(** The comprehension never raises, and counts at most one per value. *)
Lemma is_num_each_counts (vals : list Value) :
  exists nums,
    is_num_each float vals = inr nums /\
    length nums = length vals /\
    (sum nums <= length vals)%nat /\
    (sum nums = length vals <->
     forall x, x ∈ vals -> exists q, float x = inr q).
Proof.
  induction vals as [|x vals (nums & Hrun & Hlen & Hle & Hall)].
  - exists []. repeat split; auto. intros _ x Hx. inversion Hx.
  - simpl. unfold is_num. rewrite Hrun.
    destruct (float x) as [e|q] eqn:Hx; simpl.
    + exists (0 :: nums). rewrite sum_cons. simpl.
      repeat split; [lia|lia| |].
      * intros Heq. lia.
      * intros Hnum. destruct (Hnum x) as [q Hq];
          [apply elem_of_cons; auto|congruence].
    + exists (1 :: nums). rewrite sum_cons. simpl.
      repeat split; [lia|lia| |].
      * intros Heq y Hy. apply elem_of_cons in Hy as [->|Hy]; [eauto|].
        apply Hall; [lia|exact Hy].
      * intros Hnum. f_equal. apply Hall. intros y Hy. apply Hnum.
        apply elem_of_cons. auto.
Qed.

(** X18: the check on a categorical range never raises, whatever
    [float] does, and it plots the range as categorical ([x_range] set to
    the values) exactly when one of the values is not a number to
    [float]; when the values are there and all are numbers it prints its
    remark instead; without values it does neither. *)
Theorem categorical_iff_not_all_numeric (hp_name : string)
    (values : option (list Value)) :
  exists printed x_range,
    categorical_args float hp_name values = inr (printed, x_range) /\
    (forall vals,
       x_range = Some vals <->
       values = Some vals /\ exists x e, x ∈ vals /\ float x = inl e) /\
    (printed <> [] <->
     exists vals,
       values = Some vals /\ vals <> [] /\
       forall x, x ∈ vals -> exists q, float x = inr q).
Proof.
  destruct values as [[|x0 vals0]|].
  - exists [], None. split; [reflexivity|]. split.
    + intros vals. split; [discriminate|].
      intros [[= <-] (x & e & Hx & _)]. inversion Hx.
    + split; [contradiction|]. intros (vals & [= <-] & Hne & _).
      contradiction.
  - set (vals := x0 :: vals0).
    destruct (is_num_each_counts vals) as (nums & Hrun & Hlen & Hle & Hall).
    unfold categorical_args. fold vals. rewrite Hrun. unfold Py.bind.
    destruct (sum nums =? length vals)%nat eqn:Hsum.
    + apply Nat.eqb_eq in Hsum. eexists. exists None.
      split; [reflexivity|]. split.
      * intros vals'. split; [discriminate|].
        intros [[= <-] (x & e & Hx & He)].
        destruct (proj1 Hall Hsum x Hx) as [q Hq]. congruence.
      * split; [|discriminate]. intros _. exists vals.
        repeat split; [discriminate|]. apply Hall. exact Hsum.
    + apply Nat.eqb_neq in Hsum. exists [], (Some vals).
      split; [reflexivity|]. split.
      * intros vals'. split.
        -- intros [= <-]. split; [reflexivity|].
           assert (Hsome : ~ forall x, x ∈ vals -> exists q, float x = inr q)
             by (intros H; apply Hsum, Hall, H).
           clear -Hsome. induction vals as [|x vals IH].
           ++ exfalso. apply Hsome. intros x Hx. inversion Hx.
           ++ destruct (float x) as [e|q] eqn:Hx.
              ** exists x, e. split; [apply elem_of_cons; auto|exact Hx].
              ** destruct IH as (y & e & Hy & He).
                 { intros H. apply Hsome. intros z Hz.
                   apply elem_of_cons in Hz as [->|Hz]; eauto. }
                 exists y, e. split; [apply elem_of_cons; auto|exact He].
        -- intros [[= <-] _]. reflexivity.
      * split; [contradiction|]. intros (vals' & [= <-] & _ & Hnum).
        exfalso. apply Hsum, Hall, Hnum.
  - exists [], None. split; [reflexivity|]. split.
    + intros vals. split; [discriminate|]. intros [H _]. discriminate.
    + split; [contradiction|]. intros (vals & H & _). discriminate.
Qed.

End Categorical.

Lemma hovertool_from (keys : list string) (start : list (string * string)) :
  fold_left
    (fun tooltips k => tooltips ++ [(k, ("@{" ++ k ++ "}")%string)])
    keys start
  = start ++ map (fun k => (k, ("@{" ++ k ++ "}")%string)) keys.
Proof.
  revert start. induction keys as [|k keys IH]; intros start; simpl.
  - rewrite app_nil_r. reflexivity.
  - rewrite IH, <- app_assoc. reflexivity.
Qed.

(** X19: the hover tool shows the objective value and the job name and
    then one tooltip for every tuned hyperparameter, in the order of the
    tuning ranges: the tooltip of [k] reads the column [k]. *)
Theorem hovertool_one_tooltip_per_range (keys : list string) :
  hovertool keys
  = [("FinalObjectiveValue", "@FinalObjectiveValue");
     ("TrainingJobName", "@TrainingJobName")]
    ++ map (fun k => (k, ("@{" ++ k ++ "}")%string)) keys /\
  length (hovertool keys) = 2 + length keys /\
  forall i k, keys !! i = Some k ->
    hovertool keys !! (2 + i) = Some (k, ("@{" ++ k ++ "}")%string).
Proof.
  unfold hovertool. rewrite hovertool_from. split; [reflexivity|]. split.
  - simpl. rewrite length_map. reflexivity.
  - intros i k Hk. simpl. rewrite list_lookup_fmap, Hk. reflexivity.
Qed.

Lemma hovertool_one_tooltip_per_range_witness :
  hovertool ["epochs"; "num_layers"] !! 3
  = Some ("num_layers", "@{num_layers}").
Proof.
  destruct (hovertool_one_tooltip_per_range ["epochs"; "num_layers"])
    as (_ & _ & Hat).
  apply (Hat 1 "num_layers"). reflexivity.
Defined.

Section ResultsCell.
Variable sort_values : bool -> list Job -> list Job.
Variable py_min py_max : list Float -> Float.

(** X20: the cell that reads the table of training jobs.  When no job is
    listed it binds nothing and prints nothing: [df] is still what it was,
    the table of the CSV if the notebook ran from the top.  When jobs are
    listed, [df] becomes a table of jobs that holds exactly those with an
    objective above minus infinity, in the order [sort_values] gives them,
    and the cell reports that there are no results exactly when that table
    is empty. *)
Theorem results_cell_cases (full_df : list Job) (is_minimize : bool)
    (df : Frame) :
  (forall ascending jobs, Permutation (sort_values ascending jobs) jobs) ->
  (full_df = [] ->
   results_cell sort_values py_min py_max full_df is_minimize df
   = (df, [])) /\
  (full_df <> [] ->
   exists jobs,
     fst (results_cell sort_values py_min py_max full_df is_minimize df)
       = JobTable jobs /\
     Permutation jobs (valid_jobs full_df) /\
     Forall (fun j => gt_neg_inf (FinalObjectiveValue j) = true) jobs /\
     (jobs = [] <->
      snd (results_cell sort_values py_min py_max full_df is_minimize df)
        = [OutNoResults])).
Proof.
  intros Hsort. split.
  - intros ->. reflexivity.
  - intros Hne. unfold results_cell.
    destruct full_df as [|j0 rest]; [contradiction|].
    change (0 <? length (j0 :: rest))%nat with true. cbv iota.
    set (full_df := j0 :: rest).
    assert (Hvalid : Forall (fun j => gt_neg_inf (FinalObjectiveValue j) = true)
                       (valid_jobs full_df)).
    { apply Forall_forall. intros j Hj. unfold valid_jobs in Hj.
      apply list_elem_of_In, filter_In in Hj as [_ Hj]. exact Hj. }
    destruct (valid_jobs full_df) as [|j1 jobs1] eqn:Hjobs.
    + exists []. simpl. repeat split; auto.
    + change (0 <? length (j1 :: jobs1))%nat with true. cbv iota zeta.
      exists (sort_values is_minimize (j1 :: jobs1)). simpl.
      repeat split.
      * apply Hsort.
      * eapply Permutation_Forall; [symmetry; apply Hsort|exact Hvalid].
      * intros Hnil. pose proof (Hsort is_minimize (j1 :: jobs1)) as Hp.
        rewrite Hnil in Hp. apply Permutation_nil in Hp. discriminate.
      * discriminate.
Qed.

End ResultsCell.

Lemma results_cell_cases_witness :
  results_cell (fun _ jobs => jobs) (fun _ => NaN) (fun _ => NaN) [] true
    (CsvTable Examples.toy_table)
  = (CsvTable Examples.toy_table, []).
Proof.
  destruct (results_cell_cases (fun _ jobs => jobs) (fun _ => NaN)
              (fun _ => NaN) [] true (CsvTable Examples.toy_table))
    as [Hnone _].
  - intros ascending jobs. apply Permutation_refl.
  - apply Hnone. reflexivity.
Defined.

End TuningFacts.

(** ** Runs and their traces *)

Module RunFacts.
Import Py Notebook.

Lemma prefix_b_sound (l1 l2 : list string) :
  prefix_b l1 l2 = true -> l1 `prefix_of` l2.
Proof.
  revert l2. induction l1 as [|x l1 IH]; intros l2 H.
  - apply prefix_nil.
  - destruct l2 as [|y l2]; simpl in H; [discriminate|].
    apply andb_prop in H as [Hx H]. apply String.eqb_eq in Hx. subst y.
    apply prefix_cons. apply IH. exact H.
Qed.

(** Binding twice is binding once with the rest behind. *)
Lemma sbind_assoc {S A B C} (m : StateM S A) (f : A -> StateM S B)
    (k : B -> StateM S C) (s : S) :
  sbind (sbind m f) k s = sbind m (fun x => sbind (f x) k) s.
Proof. unfold sbind. destruct (m s) as [[e|a] s']; reflexivity. Qed.

Section Trace.
Context {Ev : Type}.
Implicit Types (tr more : Trace Ev) (c : Ev).

Lemma returned_app tr more i c :
  returned tr i c -> returned (tr ++ more) i c.
Proof. unfold returned. intros H. apply lookup_app_l_Some. exact H. Qed.

Lemma returned_snoc tr c : returned (tr ++ [(c, None)]) (length tr) c.
Proof. unfold returned. apply list_lookup_middle. reflexivity. Qed.

Lemma quiet_nil : quiet (@nil (Ev * option Exn)).
Proof. intros i c o H. destruct i; discriminate. Qed.

Lemma quiet_app tr more : quiet tr -> quiet more -> quiet (tr ++ more).
Proof.
  intros Ht Hm i c o H. apply lookup_app_Some in H as [H|[_ H]].
  - eapply Ht. exact H.
  - eapply Hm. exact H.
Qed.

Lemma quiet_one c : quiet [(c, @None Exn)].
Proof.
  intros i c' o H. destruct i as [|i]; simpl in H; [|destruct i; discriminate].
  congruence.
Qed.

Lemma quiet_propagated {A} tr (r : Result A) : quiet tr -> propagated tr r.
Proof. intros Hq i c e H. apply Hq in H. discriminate. Qed.

Lemma propagated_quiet {A} tr (a : A) : propagated tr (inr a) -> quiet tr.
Proof.
  intros Hp i c o H. destruct o as [e|]; [|reflexivity].
  apply Hp in H as [_ H]. discriminate.
Qed.

Lemma propagated_app {A} tr more (r : Result A) :
  quiet tr -> propagated more r -> propagated (tr ++ more) r.
Proof.
  intros Hq Hp i c e H. apply lookup_app_Some in H as [H|[Hi H]].
  - apply Hq in H. discriminate.
  - apply Hp in H as [Hlen Hr]. split; [|exact Hr].
    rewrite length_app. lia.
Qed.

Lemma propagated_one {A} c e :
  propagated [(c, Some e)] (inl e : Result A).
Proof.
  intros i c' e' H. destruct i as [|i]; simpl in H; [|destruct i; discriminate].
  injection H as <- <-. split; reflexivity.
Qed.

Section Flow.
Variable J : Trace Ev -> Ev -> Prop.
Variables shape final : Trace Ev -> Prop.

Lemma flows_nil : flows J [].
Proof. intros i c o H. destruct i; discriminate. Qed.

Lemma flows_snoc tr c o : flows J tr -> J tr c -> flows J (tr ++ [(c, o)]).
Proof.
  intros Hf Hj i c' o' H. apply lookup_app_Some in H as [H|[Hi H]].
  - rewrite take_app_le by (apply lookup_lt_Some in H; lia).
    eapply Hf. exact H.
  - destruct (i - length tr) as [|n] eqn:Hn; simpl in H;
      [|destruct n; discriminate].
    injection H as <- <-.
    assert (i = length tr) as -> by lia.
    rewrite take_app_length. exact Hj.
Qed.

Lemma flows_app tr more :
  flows J tr ->
  (forall past c o, (c, o) ∈ more -> J past c) ->
  flows J (tr ++ more).
Proof.
  intros Hf Hm i c o H. apply lookup_app_Some in H as [H|[Hi H]].
  - rewrite take_app_le by (apply lookup_lt_Some in H; lia).
    eapply Hf. exact H.
  - eapply Hm. eapply list_elem_of_lookup_2. exact H.
Qed.

Lemma inv_nil : Inv J [].
Proof. split; [apply flows_nil|apply quiet_nil]. Qed.

Lemma inv_snoc tr c : Inv J tr -> J tr c -> Inv J (tr ++ [(c, None)]).
Proof.
  intros [Hf Hq] Hj. split.
  - apply flows_snoc; assumption.
  - apply quiet_app; [exact Hq|apply quiet_one].
Qed.

Lemma good_fail {A} tr c e :
  Inv J tr -> J tr c -> shape (tr ++ [(c, Some e)]) ->
  Good J shape final (inl e : Result A, tr ++ [(c, Some e)]).
Proof.
  intros [Hf Hq] Hj Hs. unfold Good. simpl. split; [|split; [|split]].
  - apply flows_snoc; assumption.
  - apply propagated_app; [exact Hq|apply propagated_one].
  - exact Hs.
  - exact I.
Qed.

Lemma good_raise {A} tr e :
  Inv J tr -> shape tr -> Good J shape final (inl e : Result A, tr).
Proof.
  intros [Hf Hq] Hs. unfold Good. simpl. split; [|split; [|split]].
  - exact Hf.
  - apply quiet_propagated. exact Hq.
  - exact Hs.
  - exact I.
Qed.

Lemma good_return {A} tr (a : A) :
  Inv J tr -> shape tr -> final tr -> Good J shape final (inr a, tr).
Proof.
  intros [Hf Hq] Hs Hfin. unfold Good. simpl. split; [|split; [|split]].
  - exact Hf.
  - apply quiet_propagated. exact Hq.
  - exact Hs.
  - exact Hfin.
Qed.

(** *** One statement of a run *)

Lemma step_own {A B} c (r : nat -> Result A) (k : A -> StateM (Trace Ev) B)
    tr :
  Inv J tr -> J tr c -> (forall o, shape (tr ++ [(c, o)])) ->
  (forall a, r (length tr) = inr a -> Inv J (tr ++ [(c, None)]) ->
             Good J shape final (k a (tr ++ [(c, None)]))) ->
  Good J shape final (sbind (own_call c r) k tr).
Proof.
  intros HI Hj Hs Hk. unfold sbind, own_call.
  destruct (r (length tr)) as [e|a] eqn:Hr; simpl.
  - apply good_fail; auto.
  - apply Hk; [reflexivity|]. apply inv_snoc; assumption.
Qed.

Lemma step_lib {A B} c (r : nat -> Lib A) (k : A -> StateM (Trace Ev) B) tr :
  Inv J tr -> J tr c -> (forall o, shape (tr ++ [(c, o)])) ->
  (forall a, r (length tr) = inr a -> Inv J (tr ++ [(c, None)]) ->
             Good J shape final (k a (tr ++ [(c, None)]))) ->
  Good J shape final (sbind (lib_call c r) k tr).
Proof.
  intros HI Hj Hs Hk. unfold lib_call. apply step_own; try assumption.
  intros a Hr. apply Hk. destruct (r (length tr)); [discriminate|].
  simpl in Hr. congruence.
Qed.

Lemma step_emit {B} c (k : unit -> StateM (Trace Ev) B) tr :
  Inv J tr -> J tr c ->
  (Inv J (tr ++ [(c, None)]) -> Good J shape final (k tt (tr ++ [(c, None)]))) ->
  Good J shape final (sbind (emit c) k tr).
Proof.
  intros HI Hj Hk. unfold sbind, emit, own_call. simpl.
  apply Hk. apply inv_snoc; assumption.
Qed.

Lemma step_pure {A B} (r : Result A) (k : A -> StateM (Trace Ev) B) tr :
  Inv J tr -> shape tr ->
  (forall a, r = inr a -> Good J shape final (k a tr)) ->
  Good J shape final (sbind (slift r) k tr).
Proof.
  intros HI Hs Hk. unfold sbind, slift. destruct r as [e|a].
  - apply good_raise; assumption.
  - apply Hk. reflexivity.
Qed.

Lemma step_ret {A B} (a : A) (k : A -> StateM (Trace Ev) B) tr :
  Good J shape final (k a tr) -> Good J shape final (sbind (sret a) k tr).
Proof. intros H. exact H. Qed.

Lemma last_own {A} c (r : nat -> Result A) tr :
  Inv J tr -> J tr c -> (forall o, shape (tr ++ [(c, o)])) ->
  final (tr ++ [(c, None)]) ->
  Good J shape final (own_call c r tr).
Proof.
  intros HI Hj Hs Hfin. unfold own_call.
  destruct (r (length tr)) as [e|a]; simpl.
  - apply good_fail; auto.
  - apply good_return; auto. apply inv_snoc; assumption.
Qed.

Lemma last_lib {A} c (r : nat -> Lib A) tr :
  Inv J tr -> J tr c -> (forall o, shape (tr ++ [(c, o)])) ->
  final (tr ++ [(c, None)]) ->
  Good J shape final (lib_call c r tr).
Proof. intros. unfold lib_call. apply last_own; assumption. Qed.

Lemma last_emit c tr :
  Inv J tr -> J tr c -> (forall o, shape (tr ++ [(c, o)])) ->
  final (tr ++ [(c, None)]) ->
  Good J shape final (emit c tr).
Proof. intros. unfold emit. apply last_own; assumption. Qed.

(** *** Statements whose calls need nothing of the past *)

Lemma plain_sret {A} (a : A) : plain J (sret a).
Proof.
  intros tr. exists []. simpl. rewrite app_nil_r.
  split; [reflexivity|]. split.
  - intros i c e H. destruct i; discriminate.
  - intros past c o H. inversion H.
Qed.

Lemma plain_slift {A} (r : Result A) : plain J (slift r).
Proof.
  intros tr. exists []. simpl. rewrite app_nil_r.
  split; [reflexivity|]. split.
  - intros i c e H. destruct i; discriminate.
  - intros past c o H. inversion H.
Qed.

Lemma plain_own {A} c (r : nat -> Result A) :
  (forall past, J past c) -> plain J (own_call c r).
Proof.
  intros Hj tr. unfold own_call. simpl.
  exists [(c, exn_of (r (length tr)))]. split; [reflexivity|]. split.
  - destruct (r (length tr)) as [e|a]; simpl.
    + apply propagated_one.
    + apply quiet_propagated, quiet_one.
  - intros past c' o H. apply list_elem_of_singleton in H.
    injection H as -> _. apply Hj.
Qed.

Lemma plain_lib {A} c (r : nat -> Lib A) :
  (forall past, J past c) -> plain J (lib_call c r).
Proof. intros. unfold lib_call. apply plain_own. assumption. Qed.

Lemma plain_emit c : (forall past, J past c) -> plain J (emit c).
Proof. intros. unfold emit. apply plain_own. assumption. Qed.

Lemma plain_bind {A B} (m : StateM (Trace Ev) A)
    (f : A -> StateM (Trace Ev) B) :
  plain J m -> (forall a, plain J (f a)) -> plain J (sbind m f).
Proof.
  intros Hm Hf tr. destruct (Hm tr) as (l1 & Htr & Hp & Hj).
  unfold sbind. destruct (m tr) as [[e|a] tr1]; simpl in *; subst tr1.
  - exists l1. split; [reflexivity|]. split; [|assumption].
    intros i c e' H. destruct (Hp i c e' H) as [Hlen Heq].
    split; [exact Hlen|]. congruence.
  - destruct (Hf a (tr ++ l1)) as (l2 & Htr2 & Hp2 & Hj2).
    exists (l1 ++ l2). rewrite Htr2, app_assoc. split; [reflexivity|]. split.
    + apply propagated_app; [|exact Hp2].
      eapply propagated_quiet. exact Hp.
    + intros past c o H. apply elem_of_app in H as [H|H]; eauto.
Qed.

Lemma plain_emit_each {A} (c : A -> Ev) (l : list A) :
  (forall past x, J past (c x)) -> plain J (emit_each c l).
Proof.
  intros Hj. induction l as [|x l IH]; simpl.
  - apply plain_sret.
  - apply plain_bind; [apply plain_emit; auto|]. intros _. exact IH.
Qed.

Lemma step_plain {A B} (m : StateM (Trace Ev) A)
    (k : A -> StateM (Trace Ev) B) tr :
  plain J m -> Inv J tr -> (forall more, shape (tr ++ more)) ->
  (forall a more, Inv J (tr ++ more) ->
                  Good J shape final (k a (tr ++ more))) ->
  Good J shape final (sbind m k tr).
Proof.
  intros Hm [Hf Hq] Hs Hk. destruct (Hm tr) as (l & Htr & Hp & Hj).
  unfold sbind. destruct (m tr) as [[e|a] tr1]; simpl in *; subst tr1.
  - unfold Good. simpl. split; [|split; [|split]].
    + apply flows_app; assumption.
    + apply propagated_app; [exact Hq|].
      intros i c e' H. destruct (Hp i c e' H) as [Hlen Heq].
      split; [exact Hlen|]. congruence.
    + apply Hs.
    + exact I.
  - apply Hk. split.
    + apply flows_app; assumption.
    + apply quiet_app; [exact Hq|]. eapply propagated_quiet. exact Hp.
Qed.

End Flow.

End Trace.

End RunFacts.

(** ** Part 3: every run *)

Module Part3Facts.
Import Py Pandas Notebook Part3 RunFacts.

Section Run.
Context `{libs : Libraries} `{net : Net}.
Implicit Types (tr more : Trace Call).

(** What has happened stays so as the run goes on. *)
Lemma fetched_app tr more df : fetched tr df -> fetched (tr ++ more) df.
Proof.
  intros (i & j & text & Hi & Hget & Hj & Hparse). exists i, j, text.
  split; [apply returned_app; exact Hi|]. split; [exact Hget|].
  split; [apply returned_app; exact Hj|exact Hparse].
Qed.

Lemma built_app tr more stop data :
  built tr stop data -> built (tr ++ more) stop data.
Proof.
  intros (i & df & Hi & Hd). exists i, df.
  split; [apply returned_app; exact Hi|exact Hd].
Qed.

Lemma trained_app tr more p : trained tr p -> trained (tr ++ more) p.
Proof.
  intros (i & est & data & Hi & Ht). exists i, est, data.
  split; [apply returned_app; exact Hi|exact Ht].
Qed.

Lemma baseline_app tr more p : baseline tr p -> baseline (tr ++ more) p.
Proof.
  intros (i & Hi & Hp). exists i.
  split; [apply returned_app; exact Hi|exact Hp].
Qed.

Lemma available_app tr more p : available tr p -> available (tr ++ more) p.
Proof.
  intros [H|H]; [left; apply baseline_app|right; apply trained_app]; exact H.
Qed.

Lemma predicted_app tr more forecast_it ts_it :
  predicted tr forecast_it ts_it -> predicted (tr ++ more) forecast_it ts_it.
Proof.
  intros (i & data & p & n & Hi & Hm). exists i, data, p, n.
  split; [apply returned_app; exact Hi|exact Hm].
Qed.

Lemma evaluated_app tr more metrics :
  evaluated tr metrics -> evaluated (tr ++ more) metrics.
Proof.
  intros (i & q & ts_it & forecast_it & n & items & Hi & He).
  exists i, q, ts_it, forecast_it, n, items.
  split; [apply returned_app; exact Hi|exact He].
Qed.

Lemma compared_app tr more table :
  compared tr table -> compared (tr ++ more) table.
Proof.
  intros (i & data & ps & names & Hi & He). exists i, data, ps, names.
  split; [apply returned_app; exact Hi|exact He].
Qed.

(** A fact about an earlier point of the run, at a later one. *)
Ltac older :=
  solve [eassumption]
  || (first [apply fetched_app | apply built_app | apply trained_app
            | apply baseline_app | apply available_app | apply predicted_app
            | apply evaluated_app | apply compared_app];
      older).

Ltac shape_ok := intros; apply prefix_b_sound; vm_compute; reflexivity.

Ltac inv_now := match goal with H : Inv _ ?tr |- Inv _ ?tr => exact H end.
Ltac forget_inv := repeat match goal with H : Inv _ _ |- _ => clear H end.

Ltac do_emit J :=
  apply step_emit; [inv_now | J | forget_inv; intros ?HI; cbv beta].
Ltac do_lib J := apply step_lib; [inv_now | J | shape_ok | forget_inv].
Ltac do_own J := apply step_own; [inv_now | J | shape_ok | forget_inv].
Ltac do_pure := apply step_pure; [inv_now | shape_ok | ].

(** No GET so far. *)
Ltac no_get_at i :=
  simpl;
  first [discriminate
        | destruct i as [|i]; [simpl; discriminate|no_get_at i]].
Ltac no_get := let i := fresh "i" in intros i ? ?; no_get_at i.

(** The fact that the call just made returned what it did. *)
Ltac just_now := eexists; split; [apply returned_snoc | eassumption].

Lemma part3_good :
  Good justified (in_order kind order) complete (part3 []).
Proof.
  pose proof (inv_nil justified) as HI.
  unfold part3.
  do_emit ltac:(exact I).
  (* the table *)
  unfold read_csv. change (is_url url) with true. cbv iota.
  rewrite sbind_assoc.
  do_lib ltac:(split; [reflexivity|no_get]).
  intros text Htext HI. cbv beta in *.
  do_lib ltac:(split; [reflexivity|]; split; [reflexivity|]; just_now).
  intros df Hdf HI. cbv beta in *.
  match goal with HI : Inv _ ?tr |- _ => assert (Hfetched : fetched tr df) end.
  { eexists _, _, text. split; [apply returned_app, returned_snoc|].
    split; [exact Htext|]. split; [apply returned_snoc|exact Hdf]. }
  do_emit ltac:(exists df; split; [older|reflexivity]).
  do_lib ltac:(exists df; split; [older|reflexivity]).
  intros shown _ HI. cbv beta in *.
  do_emit ltac:(exact I).
  do_emit ltac:(exact I).
  (* the datasets *)
  do_own ltac:(cbv beta iota delta [justified]; older).
  intros training_data Htraining HI. cbv beta in *.
  match goal with HI : Inv _ ?tr |- _ =>
    assert (Hbuilt_train : built tr Datasets.train_end training_data) end.
  { eexists _, df. split; [apply returned_snoc|exact Htraining]. }
  do_own ltac:(cbv beta iota delta [justified]; older).
  intros test_data Htest HI. cbv beta in *.
  match goal with HI : Inv _ ?tr |- _ =>
    assert (Hbuilt_test : built tr Datasets.test_end test_data) end.
  { eexists _, df. split; [apply returned_snoc|exact Htest]. }
  (* the baseline *)
  do_lib ltac:(exact I).
  intros naive_predictor Hnaive HI. cbv beta in *.
  match goal with HI : Inv _ ?tr |- _ =>
    assert (Hbaseline : available tr naive_predictor) end.
  { left. just_now. }
  do_lib ltac:(split; older).
  intros [forecast_it_baseline ts_it_baseline] Hmep HI. cbv beta iota in *.
  match goal with HI : Inv _ ?tr |- _ =>
    assert (Hpred : predicted tr forecast_it_baseline ts_it_baseline) end.
  { eexists _, _, _, _. split; [apply returned_snoc|exact Hmep]. }
  do_lib ltac:(exact I).
  intros forecasts_baseline Hfs HI. cbv beta in *. subst forecast_it_baseline.
  do_lib ltac:(exact I).
  intros tss_baseline Htss HI. cbv beta in *. subst ts_it_baseline.
  do_lib ltac:(cbv beta iota delta [justified]; older).
  intros [agg_metrics_baseline item_metrics] Hev HI. cbv beta iota in *.
  match goal with HI : Inv _ ?tr |- _ =>
    assert (Heval : evaluated tr agg_metrics_baseline) end.
  { eexists _, _, _, _, _, _. split; [apply returned_snoc|exact Hev]. }
  unfold call_plot_forecast.
  do_own ltac:(split; older).
  intros [] _ HI. cbv beta in *.
  do_emit ltac:(cbv beta iota delta [justified]; older).
  (* DeepAR *)
  do_lib ltac:(exact I).
  intros distr _ HI. cbv beta in *.
  do_lib ltac:(exact I).
  intros trainer1 _ HI. cbv beta in *.
  do_lib ltac:(exact I).
  intros deepar_estimator _ HI. cbv beta in *.
  do_lib ltac:(cbv beta iota delta [justified]; older).
  intros deepar_predictor Hdeepar HI. cbv beta in *.
  match goal with HI : Inv _ ?tr |- _ =>
    assert (Htrained : trained tr deepar_predictor) end.
  { eexists _, _, _. split; [apply returned_snoc|exact Hdeepar]. }
  do_own ltac:(split; [older|right; older]).
  intros [] _ HI. cbv beta in *.
  do_lib ltac:(exact I).
  intros [] _ HI. cbv beta in *.
  do_lib ltac:(cbv beta iota delta [justified]; older).
  intros [] _ HI. cbv beta in *.
  do_lib ltac:(cbv beta iota delta [justified]; older).
  intros [] _ HI. cbv beta in *.
  do_lib ltac:(split; [older|right; older]).
  intros [forecast_it ts_it] Hmep2 HI. cbv beta iota in *.
  match goal with HI : Inv _ ?tr |- _ =>
    assert (Hpred2 : predicted tr forecast_it ts_it) end.
  { eexists _, _, _, _. split; [apply returned_snoc|exact Hmep2]. }
  do_lib ltac:(cbv beta iota delta [justified]; older).
  intros [deepar_agg_metrics item_metrics2] Hev2 HI. cbv beta iota in *.
  match goal with HI : Inv _ ?tr |- _ =>
    assert (Heval2 : evaluated tr deepar_agg_metrics) end.
  { eexists _, _, _, _, _, _. split; [apply returned_snoc|exact Hev2]. }
  do_emit ltac:(cbv beta iota delta [justified]; older).
  do_pure. intros mse_deepar Hmse1. cbv beta.
  do_pure. intros mse_baseline Hmse2. cbv beta.
  do_emit ltac:(exists deepar_agg_metrics, agg_metrics_baseline;
                split; [older|]; split; [older|]; split; assumption).
  (* the perceptron *)
  do_lib ltac:(exact I).
  intros trainer2 _ HI. cbv beta in *.
  do_lib ltac:(exact I).
  intros mlp_estimator _ HI. cbv beta in *.
  do_lib ltac:(cbv beta iota delta [justified]; older).
  intros mlp_predictor Hmlp HI. cbv beta in *.
  match goal with HI : Inv _ ?tr |- _ =>
    assert (Htrained2 : trained tr mlp_predictor) end.
  { eexists _, _, _. split; [apply returned_snoc|exact Hmlp]. }
  do_own ltac:(split; [older|right; older]).
  intros [] _ HI. cbv beta in *.
  do_own ltac:(split; [older|];
               constructor; [right; older|];
               constructor; [right; older|];
               constructor; [older|constructor]).
  intros table Htable HI. cbv beta in *.
  match goal with HI : Inv _ ?tr |- _ =>
    assert (Hcompared : compared tr table) end.
  { eexists _, _, _, _. split; [apply returned_snoc|exact Htable]. }
  do_emit ltac:(cbv beta iota delta [justified]; older).
  (* the network *)
  do_lib ltac:(exact I).
  intros base _ HI. cbv beta in *.
  do_emit ltac:(exact I).
  do_lib ltac:(cbv beta iota delta [justified]; older).
  intros params _ HI. cbv beta in *.
  apply last_emit; [inv_now | exact I | shape_ok |].
  split; [vm_compute; reflexivity|]. exists df. older.
Qed.

End Run.

End Part3Facts.

(** ** Part 4: every run *)

Module Part4Facts.
Import Py Pandas Notebook Part4 RunFacts.

(** The loop over the tuning ranges makes five kinds of call. *)
Lemma plot_ranges_calls `{libs : Libraries}
    (J : Trace Call -> Call -> Prop) :
  (forall past text, J past (Print text)) ->
  (forall past a, J past (CallTuningRanges a)) ->
  (forall past tooltips, J past (CallHoverTool tooltips)) ->
  (forall past w h title ht tools x y x_range,
     J past (CallFigure w h title ht tools x y x_range)) ->
  (forall past p source x y, J past (CallCircle p source x y)) ->
  forall job_analytics objective_name df ranges figures,
    plain J (plot_ranges job_analytics objective_name df ranges figures).
Proof.
  intros Hprint Hranges Htool Hfigure Hcircle job_analytics objective_name df
    ranges.
  induction ranges as [|[hp_name values] rest IH]; intros figures;
    cbn [plot_ranges].
  - apply plain_sret.
  - apply plain_bind; [apply plain_slift|]. intros [printed x_range].
    apply plain_bind; [apply plain_emit_each; intros; apply Hprint|].
    intros _.
    apply plain_bind; [apply plain_lib; intros; apply Hranges|].
    intros ranges'.
    apply plain_bind; [apply plain_lib; intros; apply Htool|]. intros ht.
    apply plain_bind; [apply plain_lib; intros; apply Hfigure|]. intros p.
    apply plain_bind; [apply plain_lib; intros; apply Hcircle|]. intros _.
    apply IH.
Qed.

Section Run.
Context `{libs : Libraries} `{net : Net}.
Implicit Types (tr more : Trace Call).

Lemma table_fetched_app tr more df : fetched tr df -> fetched (tr ++ more) df.
Proof.
  intros (i & j & text & Hi & Hget & Hj & Hparse). exists i, j, text.
  split; [apply returned_app; exact Hi|]. split; [exact Hget|].
  split; [apply returned_app; exact Hj|exact Hparse].
Qed.

Lemma sliced_app tr more rows : sliced tr rows -> sliced (tr ++ more) rows.
Proof.
  intros (i & df & stop & Hi & Hr). exists i, df, stop.
  split; [apply returned_app; exact Hi|exact Hr].
Qed.

Lemma written_app tr more path : written tr path -> written (tr ++ more) path.
Proof.
  intros (i & rows & Hi). exists i, rows. apply returned_app. exact Hi.
Qed.

Lemma uploaded_app tr more s3_path :
  uploaded tr s3_path -> uploaded (tr ++ more) s3_path.
Proof.
  intros (i & local_file & Hi). exists i, local_file.
  apply returned_app. exact Hi.
Qed.

Lemma deployed_app tr more e : deployed tr e -> deployed (tr ++ more) e.
Proof.
  intros (i & t & ty & n & Hi & Hd). exists i, t, ty, n.
  split; [apply returned_app; exact Hi|exact Hd].
Qed.

Ltac older :=
  solve [eassumption]
  || (first [apply table_fetched_app | apply sliced_app | apply written_app
            | apply uploaded_app | apply deployed_app];
      older).

Ltac shape_ok := intros; exact I.
Ltac inv_now := match goal with H : Inv _ ?tr |- Inv _ ?tr => exact H end.
Ltac forget_inv := repeat match goal with H : Inv _ _ |- _ => clear H end.

Ltac do_emit J :=
  apply step_emit; [inv_now | J | forget_inv; intros ?HI; cbv beta zeta].
Ltac do_lib J := apply step_lib; [inv_now | J | shape_ok | forget_inv].
Ltac do_own J := apply step_own; [inv_now | J | shape_ok | forget_inv].
Ltac do_pure := apply step_pure; [inv_now | shape_ok | ].
Ltac do_plain P :=
  apply step_plain; [P | inv_now | shape_ok | forget_inv].
Ltac need := cbv beta iota delta [justified].

Ltac no_get_at i :=
  simpl;
  first [discriminate
        | destruct i as [|i]; [simpl; discriminate|no_get_at i]].
Ltac no_get := let i := fresh "i" in intros i ? ?; no_get_at i.

Ltac just_now := eexists; split; [apply returned_snoc | eassumption].

(** The calls of the loop over the tuning ranges need nothing of the
    past. *)
Lemma plain_plot_ranges job_analytics objective_name df ranges figures :
  plain justified
    (plot_ranges job_analytics objective_name df ranges figures).
Proof. apply plot_ranges_calls; intros; exact I. Qed.

Lemma part4_good w0 disk0 :
  Good justified any_shape complete (part4 w0 disk0 []).
Proof.
  pose proof (inv_nil justified) as HI.
  unfold part4.
  do_lib ltac:(exact I). intros sagemaker_session _ HI. cbv beta zeta in *.
  do_lib ltac:(exact I). intros s3_bucket _ HI. cbv beta zeta in *.
  do_emit ltac:(exact I).
  (* the table and the two files *)
  unfold read_csv. change (is_url url) with true. cbv iota.
  rewrite sbind_assoc.
  do_lib ltac:(split; [reflexivity|no_get]).
  intros text Htext HI. cbv beta zeta in *.
  do_lib ltac:(split; [reflexivity|]; split; [reflexivity|]; just_now).
  intros df Hdf HI. cbv beta zeta in *.
  match goal with HI : Inv _ ?tr |- _ => assert (Hfetched : fetched tr df) end.
  { eexists _, _, text. split; [apply returned_app, returned_snoc|].
    split; [exact Htext|]. split; [apply returned_snoc|exact Hdf]. }
  do_own ltac:(need; older).
  intros train Htrain HI. cbv beta zeta in *.
  match goal with HI : Inv _ ?tr |- _ => assert (Hs1 : sliced tr train) end.
  { eexists _, df, _. split; [apply returned_snoc|exact Htrain]. }
  do_lib ltac:(need; older).
  intros train_csv _ HI. cbv beta zeta in *.
  match goal with HI : Inv _ ?tr |- _ =>
    assert (Hw1 : written tr "train.csv") end.
  { eexists _, _. apply returned_snoc. }
  do_own ltac:(need; older).
  intros test Htest HI. cbv beta zeta in *.
  match goal with HI : Inv _ ?tr |- _ => assert (Hs2 : sliced tr test) end.
  { eexists _, df, _. split; [apply returned_snoc|exact Htest]. }
  do_lib ltac:(need; older).
  intros test_csv _ HI. cbv beta zeta in *.
  match goal with HI : Inv _ ?tr |- _ =>
    assert (Hw2 : written tr "test.csv") end.
  { eexists _, _. apply returned_snoc. }
  (* the uploads *)
  do_lib ltac:(exact I). intros [] _ HI. cbv beta zeta in *.
  unfold call_copy_to_s3.
  do_own ltac:(need; older).
  intros w1 _ HI. cbv beta zeta in *.
  match goal with HI : Inv _ ?tr |- _ =>
    assert (Hu1 : uploaded tr
                    (UploadCell.s3_train_data_path s3_bucket ++ "/train.csv"))
  end.
  { eexists _, _. apply returned_snoc. }
  do_own ltac:(need; older).
  intros w2 _ HI. cbv beta zeta in *.
  match goal with HI : Inv _ ?tr |- _ =>
    assert (Hu2 : uploaded tr
                    (UploadCell.s3_test_data_path s3_bucket ++ "/test.csv"))
  end.
  { eexists _, _. apply returned_snoc. }
  do_lib ltac:(exact I). intros s3filesystem _ HI. cbv beta zeta in *.
  do_lib ltac:(exact I). intros line _ HI. cbv beta zeta in *.
  do_emit ltac:(exact I).
  (* training and tuning *)
  do_lib ltac:(exact I). intros sagemaker_session2 _ HI. cbv beta zeta in *.
  do_lib ltac:(exact I). intros role _ HI. cbv beta zeta in *.
  do_lib ltac:(exact I). intros mxnet_estimator _ HI. cbv beta zeta in *.
  do_lib ltac:(split; older). intros [] _ HI. cbv beta zeta in *.
  do_lib ltac:(exact I). intros epochs _ HI. cbv beta zeta in *.
  do_lib ltac:(exact I). intros prediction_length _ HI. cbv beta zeta in *.
  do_lib ltac:(exact I). intros num_layers _ HI. cbv beta zeta in *.
  do_lib ltac:(exact I). intros dropout_rate _ HI. cbv beta zeta in *.
  do_lib ltac:(exact I). intros tuner _ HI. cbv beta zeta in *.
  do_lib ltac:(split; older). intros [] _ HI. cbv beta zeta in *.
  do_lib ltac:(exact I). intros tuning_job_name _ HI. cbv beta zeta in *.
  (* the state of the tuning job *)
  do_lib ltac:(exact I). intros boto _ HI. cbv beta zeta in *.
  do_lib ltac:(exact I). intros sage_client _ HI. cbv beta zeta in *.
  do_lib ltac:(exact I). intros tuning_job_result _ HI. cbv beta zeta in *.
  do_pure. intros status _. cbv beta zeta.
  assert (Hrest : forall tr,
            Inv justified tr -> fetched tr df -> sliced tr test ->
            Good justified any_shape complete
              ((counters <~ slift (json_getitem tuning_job_result
                                     "TrainingJobStatusCounters") ;;
                job_count <~ slift (json_getitem counters "Completed") ;;
                count_text <~ slift (format_d job_count) ;;
                _ <~ emit (Print (count_text
                                  ++ " training jobs have completed")) ;;
                config <~ slift (json_getitem tuning_job_result
                                   "HyperParameterTuningJobConfig") ;;
                objective <~ slift (json_getitem config
                                      "HyperParameterTuningJobObjective") ;;
                objective_type <~ slift (json_getitem objective "Type") ;;
                config2 <~ slift (json_getitem tuning_job_result
                                    "HyperParameterTuningJobConfig") ;;
                objective2 <~ slift (json_getitem config2
                                       "HyperParameterTuningJobObjective") ;;
                objective_name <~ slift (json_getitem objective2
                                           "MetricName") ;;
                job_analytics <~ lib_call (CallAnalytics tuning_job_name)
                                   (fun t => HyperparameterTuningJobAnalytics
                                               t tuning_job_name) ;;
                full_df <~ lib_call (CallDataframe job_analytics)
                             (fun t => dataframe t job_analytics) ;;
                _ <~ emit_each PrintOutput
                       (snd (TuningCells.results_cell sort_values py_min
                               py_max full_df
                               (negb (is_str objective_type "Maximize"))
                               (TuningCells.CsvTable df))) ;;
                _ <~ emit (Display
                             (ShownFrame
                                (fst (TuningCells.results_cell sort_values
                                        py_min py_max full_df
                                        (negb (is_str objective_type
                                                 "Maximize"))
                                        (TuningCells.CsvTable df))))) ;;
                _ <~ lib_call CallOutputNotebook output_notebook ;;
                ranges <~ lib_call (CallTuningRanges job_analytics)
                            (fun t => tuning_ranges t job_analytics) ;;
                figures <~ plot_ranges job_analytics objective_name
                             (fst (TuningCells.results_cell sort_values
                                     py_min py_max full_df
                                     (negb (is_str objective_type
                                              "Maximize"))
                                     (TuningCells.CsvTable df)))
                             ranges [] ;;
                column <~ lib_call (CallColumn figures)
                            (fun t => Column t figures) ;;
                _ <~ lib_call (CallShow column)
                       (fun t => bokeh_show t column) ;;
                tuned_endpoint <~ lib_call (CallDeploy tuner "ml.m5.xlarge" 1)
                                    (fun t => deploy t tuner
                                                "ml.m5.xlarge" 1) ;;
                result <~ lib_call (CallPredict tuned_endpoint
                                      (table_value test) (table_index test))
                            (fun t => predict t tuned_endpoint
                                        (table_value test)
                                        (table_index test)) ;;
                _ <~ emit (Display (ShownPrediction result)) ;;
                lib_call (CallDeleteEndpoint tuned_endpoint)
                  (fun t => delete_endpoint t tuned_endpoint)) tr)).
  { clear HI. intros tr HI Hf Hs.
    do_pure. intros counters _. cbv beta zeta.
    do_pure. intros job_count _. cbv beta zeta.
    do_pure. intros count_text _. cbv beta zeta.
    do_emit ltac:(exact I).
    do_pure. intros config _. cbv beta zeta.
    do_pure. intros objective _. cbv beta zeta.
    do_pure. intros objective_type _. cbv beta zeta.
    do_pure. intros config2 _. cbv beta zeta.
    do_pure. intros objective2 _. cbv beta zeta.
    do_pure. intros objective_name _. cbv beta zeta.
    (* the results of the jobs *)
    do_lib ltac:(exact I). intros job_analytics _ HI. cbv beta zeta in *.
    do_lib ltac:(exact I). intros full_df _ HI. cbv beta zeta in *.
    do_plain ltac:(apply plain_emit_each; intros; exact I).
    intros [] printed HI. cbv beta zeta in *.
    do_emit ltac:(exact I).
    (* the plots *)
    do_lib ltac:(exact I). intros [] _ HI. cbv beta zeta in *.
    do_lib ltac:(exact I). intros ranges _ HI. cbv beta zeta in *.
    do_plain ltac:(apply plain_plot_ranges).
    intros figures plotted HI. cbv beta zeta in *.
    do_lib ltac:(exact I). intros column _ HI. cbv beta zeta in *.
    do_lib ltac:(exact I). intros [] _ HI. cbv beta zeta in *.
    (* the endpoint *)
    do_lib ltac:(exact I). intros tuned_endpoint Hdeploy HI.
    cbv beta zeta in *.
    match goal with HI : Inv _ ?tr |- _ =>
      assert (Hd : deployed tr tuned_endpoint) end.
    { eexists _, _, _, _. split; [apply returned_snoc|exact Hdeploy]. }
    do_lib ltac:(split; [older|]; exists test;
                 split; [older|split; reflexivity]).
    intros result _ HI. cbv beta zeta in *.
    do_emit ltac:(exact I).
    apply last_lib; [inv_now | | shape_ok |].
    { split; [older|]. eexists _, _, _. apply returned_app, returned_snoc. }
    exists df. older. }
  destruct (negb (is_str status "Completed")).
  - do_emit ltac:(exact I). apply Hrest; [inv_now|older|older].
  - apply step_ret. apply Hrest; [inv_now|older|older].
Qed.

End Run.

End Part4Facts.

(** ** The order of the notebooks, and their one fetch *)

Module NotebookFacts.
Import Py Pandas Notebook RunFacts.

(** From what every call of a run needs to the one fetch of the run. *)
Lemma flows_one_fetch {Ev} `{Net} (io : IO -> Ev) (url : string)
    (J : Trace Ev -> Ev -> Prop) (tr : Trace Ev) :
  (forall past c, J past (io c) -> io_justified io url past c) ->
  flows J tr -> one_fetch io url tr.
Proof.
  intros HJ Hflows.
  assert (Hget : forall i j u u' o o',
            (i < j)%nat ->
            tr !! i = Some (io (HttpGet u), o) ->
            tr !! j = Some (io (HttpGet u'), o') -> False).
  { intros i j u u' o o' Hlt Hi Hj.
    apply Hflows, HJ in Hj. destruct Hj as [_ Hnone].
    apply (Hnone i u o). rewrite lookup_take_lt by exact Hlt. exact Hi. }
  split; [|split].
  - intros i j u u' o o' Hi Hj. split.
    + destruct (Nat.lt_trichotomy i j) as [Hlt|[Heq|Hgt]]; [|exact Heq|].
      * exfalso. eapply Hget; eassumption.
      * exfalso. eapply Hget; eassumption.
    + apply Hflows, HJ in Hi. destruct Hi as [Hu _]. exact Hu.
  - intros i path o Hi. apply Hflows, HJ in Hi. exact Hi.
  - intros i text header index_col o Hi.
    apply Hflows, HJ in Hi. destruct Hi as (Hh & Hc & j & Hj & Hget').
    split; [exact Hh|]. split; [exact Hc|]. exists j.
    unfold returned in Hj.
    assert (Hlt : (j < i)%nat).
    { apply lookup_lt_Some in Hj. rewrite length_take in Hj. lia. }
    split; [exact Hlt|]. split; [|exact Hget'].
    rewrite lookup_take_lt in Hj by exact Hlt. exact Hj.
Qed.


(** C7: in both notebooks the table comes from one GET of one address,
    the same in both, an [https] address of the file
    Twitter_volume_AMZN.csv.  Whatever the libraries do, a run makes no
    second GET, none of another address, and reads no file in place of
    it; what is parsed is the text that GET returned, with the first
    line as header and the first column as index; what the notebook
    goes on with (the datasets of part 3, the slices of part 4) is the
    table parsed; and a run that returns has made the GET. *)
Theorem one_fetch_of_the_csv `{libs3 : Part3.Libraries}
    `{libs4 : Part4.Libraries} `{net : Net}
    (w0 : S3Upload.World) (disk0 : gmap string string) :
  Part3.url = Part4.url /\
  startswith Part3.url "https://" = true /\
  (exists site, Part3.url = (site ++ "/Twitter_volume_AMZN.csv")%string) /\
  one_fetch Part3.Io Part3.url (snd (Part3.part3 [])) /\
  (forall i df stop o,
     snd (Part3.part3 []) !! i = Some (Part3.CallListDataset df stop, o) ->
     Part3.fetched (take i (snd (Part3.part3 []))) df) /\
  (fst (Part3.part3 []) = inr tt ->
   exists df, Part3.fetched (snd (Part3.part3 [])) df) /\
  one_fetch Part4.Io Part4.url (snd (Part4.part4 w0 disk0 [])) /\
  (forall i df stop o,
     snd (Part4.part4 w0 disk0 []) !! i = Some (Part4.CallSlice df stop, o) ->
     Part4.fetched (take i (snd (Part4.part4 w0 disk0 []))) df) /\
  (fst (Part4.part4 w0 disk0 []) = inr tt ->
   exists df, Part4.fetched (snd (Part4.part4 w0 disk0 [])) df).
Proof.
  destruct (Part3Facts.part3_good (libs := libs3) (net := net))
    as (Hflows3 & _ & _ & Hfinal3).
  destruct (Part4Facts.part4_good (libs := libs4) (net := net) w0 disk0)
    as (Hflows4 & _ & _ & Hfinal4).
  split; [reflexivity|]. split; [reflexivity|]. split.
  { exists "https://raw.githubusercontent.com/numenta/NAB/master/data/realTweets".
    reflexivity. }
  split.
  { eapply flows_one_fetch; [|exact Hflows3]. intros past c Hc. exact Hc. }
  split; [intros i df stop o Hi; exact (Hflows3 _ _ _ Hi)|].
  split.
  { intros Hr. rewrite Hr in Hfinal3. apply Hfinal3. }
  split.
  { eapply flows_one_fetch; [|exact Hflows4]. intros past c Hc. exact Hc. }
  split; [intros i df stop o Hi; exact (Hflows4 _ _ _ Hi)|].
  intros Hr. rewrite Hr in Hfinal4. exact Hfinal4.
Qed.

(** X21: part 4 hands things on in the order of the file.  Whatever the
    libraries do, in every run a slice is cut from the table fetched
    before, [to_csv] writes rows sliced before, [copy_to_s3] uploads a
    file written before, both [fit] calls come after the two uploads to
    the paths they are given, [predict] is sent the values and the index
    of rows sliced before, to an endpoint that [deploy] returned before,
    and the endpoint deleted is that one, after [predict] has returned. *)
Theorem part4_order `{libs : Part4.Libraries} `{net : Net}
    (w0 : S3Upload.World) (disk0 : gmap string string) :
  let tr := snd (Part4.part4 w0 disk0 []) in
  (forall i df stop o,
     tr !! i = Some (Part4.CallSlice df stop, o) ->
     Part4.fetched (take i tr) df) /\
  (forall i rows path o,
     tr !! i = Some (Part4.CallToCsv rows path, o) ->
     Part4.sliced (take i tr) rows) /\
  (forall i local_file s3_path o,
     tr !! i = Some (Part4.CallCopyToS3 local_file s3_path, o) ->
     Part4.written (take i tr) local_file) /\
  (forall i est train_path test_path o,
     tr !! i = Some (Part4.CallFit est train_path test_path, o) ->
     Part4.uploaded (take i tr) (train_path ++ "/train.csv")%string /\
     Part4.uploaded (take i tr) (test_path ++ "/test.csv")%string) /\
  (forall i t train_path test_path o,
     tr !! i = Some (Part4.CallTunerFit t train_path test_path, o) ->
     Part4.uploaded (take i tr) (train_path ++ "/train.csv")%string /\
     Part4.uploaded (take i tr) (test_path ++ "/test.csv")%string) /\
  (forall i e value timestamp o,
     tr !! i = Some (Part4.CallPredict e value timestamp, o) ->
     Part4.deployed (take i tr) e /\
     exists rows, Part4.sliced (take i tr) rows /\
                  value = table_value rows /\ timestamp = table_index rows) /\
  (forall i e o,
     tr !! i = Some (Part4.CallDeleteEndpoint e, o) ->
     Part4.deployed (take i tr) e /\
     exists j value timestamp,
       returned (take i tr) j (Part4.CallPredict e value timestamp)).
Proof.
  intros tr.
  destruct (Part4Facts.part4_good (libs := libs) (net := net) w0 disk0)
    as (Hflows & _).
  split; [intros i df stop o Hi; exact (Hflows _ _ _ Hi)|].
  split; [intros i rows path o Hi; exact (Hflows _ _ _ Hi)|].
  split; [intros i local_file s3_path o Hi; exact (Hflows _ _ _ Hi)|].
  split; [intros i est a b o Hi; exact (Hflows _ _ _ Hi)|].
  split; [intros i t a b o Hi; exact (Hflows _ _ _ Hi)|].
  split; [intros i e value timestamp o Hi; exact (Hflows _ _ _ Hi)|].
  intros i e o Hi. exact (Hflows _ _ _ Hi).
Qed.


(** On the stand-in libraries the first [fit] is the 19th call of the
    run of part 4, and both uploads have returned by then. *)
Lemma part4_order_witness :
  Part4.uploaded
    (take 18 (snd (Part4.part4 (libs := Examples.toy_part4)
                     (net := Examples.toy_net) Examples.empty_world ∅ [])))
    "s3://my-bucket/gluonts/train/train.csv" /\
  Part4.uploaded
    (take 18 (snd (Part4.part4 (libs := Examples.toy_part4)
                     (net := Examples.toy_net) Examples.empty_world ∅ [])))
    "s3://my-bucket/gluonts/test/test.csv".
Proof.
  destruct (part4_order (libs := Examples.toy_part4)
              (net := Examples.toy_net) Examples.empty_world ∅)
    as (_ & _ & _ & Hfit & _).
  apply (Hfit 18 tt "s3://my-bucket/gluonts/train"
           "s3://my-bucket/gluonts/test" None).
  vm_compute. reflexivity.
Defined.

(** On the stand-in libraries both runs return, each with its one GET,
    the second call of its run in part 3 and the fourth in part 4. *)
Lemma one_fetch_of_the_csv_witness :
  (exists df,
     Part3.fetched (net := Examples.toy_net)
       (snd (Part3.part3 (libs := Examples.toy_part3)
               (net := Examples.toy_net) [])) df) /\
  (exists df,
     Part4.fetched (net := Examples.toy_net)
       (snd (Part4.part4 (libs := Examples.toy_part4)
               (net := Examples.toy_net) Examples.empty_world ∅ [])) df) /\
  snd (Part3.part3 (libs := Examples.toy_part3)
         (net := Examples.toy_net) []) !! 1
  = Some (Part3.Io (libs := Examples.toy_part3) (HttpGet Part3.url), None) /\
  snd (Part4.part4 (libs := Examples.toy_part4)
         (net := Examples.toy_net) Examples.empty_world ∅ []) !! 3
  = Some (Part4.Io (libs := Examples.toy_part4) (HttpGet Part4.url), None).
Proof.
  destruct (one_fetch_of_the_csv (libs3 := Examples.toy_part3)
              (libs4 := Examples.toy_part4) (net := Examples.toy_net)
              Examples.empty_world ∅)
    as (_ & _ & _ & _ & _ & H3 & _ & _ & H4).
  split; [apply H3; vm_compute; reflexivity|].
  split; [apply H4; vm_compute; reflexivity|].
  split; vm_compute; reflexivity.
Defined.

End NotebookFacts.

(** ** Failures of the libraries *)

Module ErrorHandlingFacts.
Import Py Pandas GluonTS Comparison Plotting S3Upload Notebook RunFacts.




End ErrorHandlingFacts.
